(** * Sprinkler irrigation design calculator: a shallow embedding

    This development embeds [compute_irrigation_design] and the report
    generator of [sprinkler_design_app.py] and states the properties of
    the design specification over that embedding.  It goes on to the
    callbacks [run], [view_report] and [export_report] of the window and
    to further properties of the calculator and of the report.

    Numbers are modelled as the interpreter has them: Python [float]s are
    IEEE-754 binary64 values (Rocq's primitive [float], specified by
    [SpecFloat]), Python [int]s are unbounded integers ([Z]), the input
    record is a dictionary from field names to floats ([gmap string float]),
    and an exception raised inside the [try] block is a value of the sum
    type [exn + A].  The dictionary holds floats because its only caller,
    [IrrigationDesignApp.run], converts every entry with [float(...)].

    An integer literal that meets a float operand ([x / 100], [1 - x],
    [3960 * 0.70], ...) is written as the double it converts to; the
    conversion is exact for every literal of the source.  An integer
    variable ([N_zones], [N_spr_zone]) is converted explicitly, by
    [Py.float_of_int]. *)

From Stdlib Require Import ZArith Lia QArith Qabs Floats.
From Stdlib Require Import Qround Qpower.
From stdpp Require Import base option gmap strings pretty.

Set Warnings "-inexact-float".
Local Open Scope Z_scope.

(** ** Python runtime: exceptions, floats and integers *)

Module Py.

(** The exceptions the code can raise, each with the message the
    interpreter attaches to it.  All of them are subclasses of
    [Exception]. *)
Inductive exn : Type :=
| KeyError (key : string)
| ZeroDivisionError (msg : string)
| OverflowError (msg : string)
| ValueError (msg : string).

(** [str(e)].  A [KeyError] prints the [repr] of the missing key. *)
Definition str (e : exn) : string :=
  match e with
  | KeyError key => "'" +:+ key +:+ "'"
  | ZeroDivisionError msg | OverflowError msg | ValueError msg => msg
  end.

(** The interpreter's texts for the two divisions by zero. *)
Definition float_division_by_zero : string := "float division by zero".
Definition division_by_zero : string := "division by zero".

(** Computations that may raise. *)
Definition M (A : Type) : Type := exn + A.

Definition ret {A} (a : A) : M A := inr a.
Definition raise {A} (e : exn) : M A := inl e.
Definition bind {A B} (m : M A) (k : A -> M B) : M B :=
  match m with
  | inl e => inl e
  | inr a => k a
  end.

(** [d[key]] on a dictionary: [KeyError] when the key is absent. *)
Definition getitem (d : gmap string float) (key : string) : M float :=
  match d !! key with
  | Some v => ret v
  | None => raise (KeyError key)
  end.

(** [x / y] on floats: a zero divisor of either sign raises, every other
    case is the IEEE quotient (overflow gives an infinity, no exception). *)
Definition truediv (x y : float) : M float :=
  if PrimFloat.is_zero y
  then raise (ZeroDivisionError float_division_by_zero)
  else ret (x / y)%float.

(** [int(x)]: truncation toward zero; infinities and NaN raise. *)
Definition int (x : float) : M Z :=
  match Prim2SF x with
  | S754_nan => raise (ValueError "cannot convert float NaN to integer")
  | S754_infinity _ =>
      raise (OverflowError "cannot convert float infinity to integer")
  | S754_zero _ => ret 0
  | S754_finite s m e => ret (cond_Zopp s (Z.shiftl (Zpos m) e))
  end.

(** [float(n)] for an integer [n], correctly rounded; [OverflowError] when
    [n] is beyond the largest finite double. *)
Definition float_of_int (n : Z) : M float :=
  let f := SF2Prim (binary_normalize prec emax n 0 false) in
  if PrimFloat.is_infinity f
  then raise (OverflowError "int too large to convert to float")
  else ret f.

(** [x / n] with a float numerator and an integer denominator: the
    denominator is converted to a float first. *)
Definition truediv_int (x : float) (n : Z) : M float :=
  bind (float_of_int n) (fun y => truediv x y).

(** [a / b] on integers: the correctly rounded quotient. *)
Definition int_truediv (a b : Z) : M float :=
  if b =? 0 then raise (ZeroDivisionError division_by_zero)
  else
    let negate := xorb (a <? 0) (b <? 0) in
    if a =? 0 then ret (SF2Prim (S754_zero negate))
    else
      let '(q, e, l) :=
        SFdiv_core_binary prec emax (Z.abs a) 0 (Z.abs b) 0 in
      let f := SF2Prim (binary_round_aux prec emax negate q e l) in
      if PrimFloat.is_infinity f
      then raise (OverflowError
                    "integer division result too large for a float")
      else ret f.

(** [str(n)] for an integer, as a replacement field of an f-string
    converts it: the decimal digits, unless there are more than 4300 of
    them, the interpreter's limit for the conversion of an integer to
    text ([ValueError]; the sign does not count). *)
Definition int_max_str_digits : Z := 4300.

Definition exceeds_digit_limit : string :=
  "Exceeds the limit (4300 digits) for integer string conversion; "
  +:+ "use sys.set_int_max_str_digits() to increase the limit".

Definition str_int (n : Z) : M string :=
  if 10 ^ int_max_str_digits <=? Z.abs n
  then raise (ValueError exceeds_digit_limit)
  else ret (pretty n).

(** Rounding of the rational [num / den] to the nearest integer, ties to
    even ([0 <= num], [0 < den]). *)
Definition round_half_even (num den : Z) : Z :=
  let q := num / den in
  match 2 * (num mod den) ?= den with
  | Lt => q
  | Eq => if Z.even q then q else q + 1
  | Gt => q + 1
  end.

(** [m * 2^e * 10^ndigits] rounded to an integer. *)
Definition scaled (ndigits : nat) (m : positive) (e : Z) : Z :=
  let num := Zpos m * 10 ^ Z.of_nat ndigits in
  if 0 <=? e then num * 2 ^ e else round_half_even num (2 ^ (- e)).

(** The sign a negative number, zero included, is printed with. *)
Definition sign_text (s : bool) : string := if s then "-" else EmptyString.

Fixpoint zeros (n : nat) : string :=
  match n with
  | O => EmptyString
  | S n' => "0" +:+ zeros n'
  end.

(** The decimal digits of [q] with a point before the last [ndigits]. *)
Definition fixed_point (ndigits : nat) (q : Z) : string :=
  let ds := pretty q in
  let ds := zeros (S ndigits - String.length ds) +:+ ds in
  let int_len := (String.length ds - ndigits)%nat in
  match ndigits with
  | O => ds
  | _ => String.substring 0 int_len ds +:+ "."
         +:+ String.substring int_len ndigits ds
  end.

(** [format(x, ".Nf")]: the exact value of the double, rounded half-even
    to [N] decimals. *)
Definition format_f (ndigits : nat) (x : float) : string :=
  match Prim2SF x with
  | S754_nan => "nan"
  | S754_infinity s => if s then "-inf" else "inf"
  | S754_zero s => sign_text s +:+ fixed_point ndigits 0
  | S754_finite s m e =>
      sign_text s +:+ fixed_point ndigits (scaled ndigits m e)
  end.

End Py.

Notation "x <- m ;; k" := (Py.bind m (fun x => k))
  (at level 100, m at next level, right associativity).

(** ** The calculator *)

(** The result dictionary of a successful run, one field per key. *)
Record results : Type := mk_results {
  A_total_m2 : float;
  ET_DESIGN_MM_DAY : float;
  D_gross_m_day : float;
  Q_total_GPM : float;
  V_pump_m3_day : float;
  Q_total_m3_s : float;
  Q_total_L_s : float;
  V_crop_m3_day : float;
  Q_total_m3_hr : float;
  N_sprinkler_total : Z;
  N_zones : Z;
  N_spr_zone : Z;
  Q_zone_GPM : float;
  qs_L_s : float;
  H_op_m : float;
  H_op_ft : float;
  H_end_m : float;
  H_lat_loss_m : float;
  H_sub_loss_m : float;
  H_mainline_loss_m : float;
  H_fittings_loss_m : float;
  BHP : float;
  system_curve_points : list (float * float);
  L_zone_EW : float;
  L_zone_NS : float;
  h_f_80mm_lat : float
}.

(** What [compute_irrigation_design] returns: the populated dictionary, or
    the dictionary [{"error": msg}]. *)
Inductive outcome : Type :=
| Results (r : results)
| ErrorDict (msg : string).

(** Fixed design parameters (pipe sizing of the source document).  The
    locals [H_lat_loss_m] and [H_sub_loss_m] carry the suffix [_const]
    here, their names being those of two fields of the result. *)
Definition H_MAINLINE_LOSS_M : float := 2.574%float.
Definition H_FITTINGS_LOSS_M : float := 4.0%float.
Definition H_lat_loss_m_const : float := 0.795%float.
Definition H_sub_loss_m_const : float := 0.642%float.

(** The body of the [try] block, statement by statement.  The expression
    [ET_DESIGN_MM_DAY / 1000] is evaluated twice, as in the source. *)
Definition design_body (inputs : gmap string float) : Py.M results :=
  L_EW <- Py.getitem inputs "Field Length EW (m)" ;;
  W_NS <- Py.getitem inputs "Field Width NS (m)" ;;
  ET <- Py.getitem inputs "Design Crop ET (mm/day)" ;;
  evap_pct <- Py.getitem inputs "Evaporation Loss (%)" ;;
  EVAP_LOSS <- Py.truediv evap_pct 100 ;;
  zones <- Py.getitem inputs "Number of Zones (N_EW x N_NS)" ;;
  N_zones <- Py.int zones ;;
  P_end_lateral_kPa <- Py.getitem inputs "End of Lateral Pressure (kPa)" ;;
  let A_total_m2 := (L_EW * W_NS)%float in
  ET_m <- Py.truediv ET 1000 ;;
  D_gross_m_day <- Py.truediv ET_m (1 - EVAP_LOSS)%float ;;
  ET_m' <- Py.truediv ET 1000 ;;
  let V_crop_m3_day := (A_total_m2 * ET_m')%float in
  V_pump_m3_day <- Py.truediv V_crop_m3_day (1 - EVAP_LOSS)%float ;;
  Q_total_m3_s <- Py.truediv V_pump_m3_day (24 * 3600) ;;
  let Q_total_GPM := (Q_total_m3_s * 15850.323)%float in
  let N_spr_zone := 33 * 41 in
  Q_zone_GPM <- Py.truediv_int Q_total_GPM N_zones ;;
  c_Ls <- Py.truediv 3.78541 60 ;;
  let Q_zone_L_s := (Q_zone_GPM * c_Ls)%float in
  qs_L_s <- Py.truediv_int Q_zone_L_s N_spr_zone ;;
  H_end_m <- Py.truediv P_end_lateral_kPa 9.806 ;;
  let H_op_m := (H_end_m + H_lat_loss_m_const + H_sub_loss_m_const
                 + H_MAINLINE_LOSS_M + H_FITTINGS_LOSS_M)%float in
  let H_op_ft := (H_op_m * 3.28084)%float in
  let system_curve_points :=
    [ (125.08, 51.74); (156.35, 60.73); (187.62, 72.22) ]%float in
  BHP <- Py.truediv (Q_zone_GPM * H_op_ft)%float (3960 * 0.70)%float ;;
  Q_total_m3_hr <- Py.truediv V_pump_m3_day 24 ;;
  L_zone_EW <- Py.truediv L_EW 2 ;;
  L_zone_NS <- Py.truediv W_NS 2 ;;
  Py.ret {|
    A_total_m2 := A_total_m2;
    ET_DESIGN_MM_DAY := ET;
    D_gross_m_day := (D_gross_m_day * 1000)%float;
    Q_total_GPM := Q_total_GPM;
    V_pump_m3_day := V_pump_m3_day;
    Q_total_m3_s := Q_total_m3_s;
    Q_total_L_s := (Q_total_m3_s * 1000)%float;
    V_crop_m3_day := V_crop_m3_day;
    Q_total_m3_hr := Q_total_m3_hr;
    N_sprinkler_total := N_spr_zone * N_zones;
    N_zones := N_zones;
    N_spr_zone := N_spr_zone;
    Q_zone_GPM := Q_zone_GPM;
    qs_L_s := qs_L_s;
    H_op_m := H_op_m;
    H_op_ft := H_op_ft;
    H_end_m := H_end_m;
    H_lat_loss_m := H_lat_loss_m_const;
    H_sub_loss_m := H_sub_loss_m_const;
    H_mainline_loss_m := H_MAINLINE_LOSS_M;
    H_fittings_loss_m := H_FITTINGS_LOSS_M;
    BHP := BHP;
    system_curve_points := system_curve_points;
    L_zone_EW := L_zone_EW;
    L_zone_NS := L_zone_NS;
    h_f_80mm_lat := 2.36%float
  |}.

(** [try: ... except Exception as e: return {"error": str(e)}]. *)
Definition compute_irrigation_design (inputs : gmap string float) : outcome :=
  match design_body inputs with
  | inr r => Results r
  | inl e => ErrorDict (Py.str e)
  end.

(** The nine fields the input form passes to the calculator, with the
    form's default values. *)
Definition form_inputs (L_EW W_NS ET evap hours sx sy zones P_end : float)
  : gmap string float :=
  <[ "Field Length EW (m)" := L_EW ]>
  (<[ "Field Width NS (m)" := W_NS ]>
  (<[ "Design Crop ET (mm/day)" := ET ]>
  (<[ "Evaporation Loss (%)" := evap ]>
  (<[ "Irrigation Time (hours/day)" := hours ]>
  (<[ "Sprinkler Spacing X (m) [EW]" := sx ]>
  (<[ "Sprinkler Spacing Y (m) [NS]" := sy ]>
  (<[ "Number of Zones (N_EW x N_NS)" := zones ]>
  (<[ "End of Lateral Pressure (kPa)" := P_end ]> ∅)))))))).

Definition default_inputs : gmap string float :=
  form_inputs 500 400 15 12 24 6.1 6.1 4 103.

(** ** The report generator *)

(** Statements that write to the [io.StringIO] buffer [output]: the buffer
    is threaded through, and an exception abandons it. *)
Module StringIO.

Definition W (A : Type) : Type := string -> Py.M (A * string).

Definition ret {A} (a : A) : W A := fun buf => Py.ret (a, buf).
Definition bind {A B} (m : W A) (k : A -> W B) : W B :=
  fun buf => Py.bind (m buf) (fun '(a, buf') => k a buf').

(** [output.write(s)]. *)
Definition write (s : string) : W unit := fun buf => Py.ret (tt, buf +:+ s).

(** An expression evaluated between two writes. *)
Definition lift {A} (m : Py.M A) : W A :=
  fun buf => Py.bind m (fun a => Py.ret (a, buf)).

(** [output.getvalue()]. *)
Definition getvalue : W string := fun buf => Py.ret (buf, buf).

(** [for x in l: body(x)]. *)
Fixpoint for_each {A} (l : list A) (body : A -> W unit) : W unit :=
  match l with
  | [] => ret tt
  | x :: l' => bind (body x) (fun _ => for_each l' body)
  end.

(** [output = io.StringIO()] followed by the statements [m]. *)
Definition run {A} (m : W A) : Py.M A :=
  Py.bind (m EmptyString) (fun '(a, _) => Py.ret a).

End StringIO.

Notation "x <~ m ;; k" := (StringIO.bind m (fun x => k))
  (at level 100, m at next level, right associativity).
Notation "m ;;; k" := (StringIO.bind m (fun _ => k))
  (at level 100, right associativity).

(** The newline and the double quote of the report's string literals. *)
Definition nl : string := String (Ascii.ascii_of_nat 10) EmptyString.
Definition dq : string := String (Ascii.ascii_of_nat 34) EmptyString.

(** The application object: the text of the entry widgets and the last
    outcome stored by [run]. *)
Record IrrigationDesignApp : Type := {
  self_inputs : gmap string string;
  self_results : option outcome
}.

Import StringIO.

(** The body of the loop over [r['system_curve_points']]. *)
Definition curve_row (point : float * float) : W unit :=
  let '(q_gpm, h_ft) := point in
  q_m3_hr <~ lift (Py.truediv (q_gpm * 3.78541 * 60)%float 1000) ;;
  h_m <~ lift (Py.truediv h_ft 3.28084) ;;
  let comment :=
    if (q_gpm =? 156.35)%float then "Design Point (100%)"
    else if (q_gpm <? 156.35)%float then "80% of Design Flow"
    else "120% of Design Flow" in
  write (Py.format_f 2 q_gpm +:+ " | " +:+ Py.format_f 2 q_m3_hr
         +:+ " | " +:+ Py.format_f 2 h_m +:+ " | "
         +:+ Py.format_f 2 h_ft +:+ " | " +:+ comment +:+ nl).

(** The statements of [_generate_report_content], in source order.  A
    string is a sequence of bytes: the few non-ASCII characters of the
    source's literals stand in their UTF-8 encoding. *)
Definition report_statements (r : results) : W string :=
  write ("Question 1" +:+ nl +:+ nl) ;;;
  write ("Data given:" +:+ nl +:+ nl) ;;;
  write ("Total crop water requirement and pump flow (daily and "
         +:+ "instantaneous)" +:+ nl +:+ nl) ;;;
  write ("1. Net crop (ET)/day = 15 mm/day = 0.015 m/day." +:+ nl) ;;;
  write ("2. Area(A) = 400 x 500 = " +:+ Py.format_f 0 (A_total_m2 r)
         +:+ " m^2 (= 49.421 acres)." +:+ nl) ;;;
  write ("3. (volume) Net crop water required per day:" +:+ nl) ;;;
  write ("V_crop = Area x ET = 200,000 m^2 x 0.015 m/day = "
         +:+ Py.format_f 0 (V_crop_m3_day r) +:+ " m^3/day." +:+ nl) ;;;
  write ("4. Sprinkler evaporation loss (12%). The pumped volume "
         +:+ "requirement:" +:+ nl) ;;;
  write ("V_pump = V_crop / (1 - 0.12) = 3,000 / 0.88 = "
         +:+ Py.format_f 3 (V_pump_m3_day r) +:+ " m^3/day." +:+ nl +:+ nl) ;;;
  write ("* Per day: " +:+ Py.format_f 2 (V_pump_m3_day r) +:+ " m^3/day."
         +:+ nl) ;;;
  v1 <~ lift (Py.truediv (V_pump_m3_day r) (24 * 3600)) ;;
  write ("* Per second: " +:+ Py.format_f 7 v1 +:+ " m^3/s." +:+ nl) ;;;
  write ("* Gallons/minute: 0.039 m^3/s x 15,850.323 gpm/(m^3/s) = "
         +:+ Py.format_f 2 (Q_total_GPM r) +:+ " gpm." +:+ nl) ;;;
  write ("* Pumped water (for evaporation loss) = "
         +:+ Py.format_f 2 (V_pump_m3_day r) +:+ " m^3/day = "
         +:+ Py.format_f 4 (Q_total_m3_s r) +:+ " m^3/s = "
         +:+ Py.format_f 1 (Q_total_GPM r) +:+ " gpm." +:+ nl) ;;;
  write ("* Net crop need = " +:+ Py.format_f 0 (V_crop_m3_day r)
         +:+ " m^3/day." +:+ nl) ;;;
  write ("* /hour: " +:+ Py.format_f 2 (V_pump_m3_day r) +:+ "/24 = "
         +:+ Py.format_f 3 (Q_total_m3_hr r) +:+ " m^3/hr." +:+ nl) ;;;
  write ("* Area = " +:+ Py.format_f 0 (A_total_m2 r)
         +:+ " m^2 (= 49.42 acres)." +:+ nl +:+ nl) ;;;
  write ("zone geometry - Sprinkler & layout counts" +:+ nl +:+ nl) ;;;
  zones_text <~ lift (Py.str_int (N_zones r)) ;;
  write ("Field partition: " +:+ zones_text
         +:+ " zones (2 in N–S, 2 in E–W). Each zone = 50,000 m^2. I apply "
         +:+ "rectangular measurements to each zone that align with how the "
         +:+ "field is positioned" +:+ nl) ;;;
  write ("* Zone N–S length = " +:+ Py.format_f 0 (L_zone_NS r)
         +:+ " m, EW length = " +:+ Py.format_f 0 (L_zone_EW r)
         +:+ " m spacing 6.1 m:" +:+ nl) ;;;
  write ("* Sprinklers per lateral (lateral runs N–S): sprinklers per "
         +:+ "lateral = 200/6.1 = 33 -> hence I entered 33 under Sprinklers "
         +:+ "in my excel workbook." +:+ nl) ;;;
  write ("* Number of laterals per zone (across EW): 250/6.1 = 41 -> "
         +:+ "choose 41 laterals." +:+ nl) ;;;
  v1 <~ lift (Py.int_truediv (N_sprinkler_total r) (N_zones r)) ;;
  write ("So per zone: 41 laterals x 33 sprinklers/lateral = "
         +:+ Py.format_f 0 v1
         +:+ " sprinklers per zone (consistent with area/spacing)." +:+ nl
         +:+ nl) ;;;
  write ("Per-lateral flow (full lateral): 33 x (198 gpm/33) = 198 gpm. "
         +:+ "With mid-point feeding, each half-lateral carries 99 gpm "
         +:+ "(0.0062459 m^3/s) over 100 m (200/2)." +:+ nl +:+ nl) ;;;
  write ("Typical design targets:" +:+ nl) ;;;
  write ("Component | Recommended Velocity | Notes/Details" +:+ nl) ;;;
  write ("---|---|---" +:+ nl) ;;;
  write ("Laterals | 0.7 to 1.5 m/s | Lower is acceptable; higher "
         +:+ "velocities risk pipe damage/erosion." +:+ nl) ;;;
  write ("Submains & Mainlines | 0.5 to 1.5 m/s | Tradeoff between "
         +:+ "pipeline cost efficiency and limiting head loss." +:+ nl) ;;;
  write ("Hazen-Williams C | 130 | Assumed value for new PVC pipe "
         +:+ "(adjust for older pipe or different materials like ductile iron)."
         +:+ nl +:+ nl) ;;;
  write ("Using Hazen–Williams" +:+ nl) ;;;
  write ("h_f = 10.67 * L * (Q^1.852) / (C^1.852 * D^4.87)" +:+ nl) ;;;
  write ("where: h_f in meters, L in meters, Q in m³/s, D in meters." +:+ nl
         +:+ nl) ;;;
  write ("Design lateral half-flow (half-lateral): 99 gpm = 0.00624593 "
         +:+ "m³/s over half-lateral length L = 100 m." +:+ nl +:+ nl) ;;;
  write ("Lateral Sizing - Head Loss Across Half-Lateral:" +:+ nl) ;;;
  write ("Nominal | D (m) | hf (half-lateral, 100 m) (m) | velocity (m/s)"
         +:+ nl) ;;;
  write ("---|---|---|---" +:+ nl) ;;;
  write ("25 mm (1" +:+ dq +:+ ") | 0.025 | 680 m (unusable) | 12.7 m/s"
         +:+ nl) ;;;
  write ("32 mm | 0.032 | 204 m (unusable) | 7.77 m/s" +:+ nl) ;;;
  write ("40 mm | 0.040 | 69.0 m (unusable) | 4.97 m/s" +:+ nl) ;;;
  write ("50 mm (2" +:+ dq +:+ ") | 0.050 | 23.3 m | 3.18 m/s" +:+ nl) ;;;
  write ("65 mm | 0.065 | 6.48 m | 1.88 m/s" +:+ nl) ;;;
  write ("80 mm (3" +:+ dq +:+ ") | 0.080 | "
         +:+ Py.format_f 2 (h_f_80mm_lat r) +:+ " m | 1.24 m/s" +:+ nl) ;;;
  write ("100 mm (4" +:+ dq +:+ ") | 0.100 | "
         +:+ Py.format_f 3 (H_lat_loss_m r) +:+ " m | 0.795 m/s" +:+ nl) ;;;
  write ("Selected lateral diameter 100 mm (4" +:+ dq +:+ ")." +:+ nl) ;;;
  write ("* A 4" +:+ dq
         +:+ " pipe yields 0.80 m friction loss over the 100 m half-lateral "
         +:+ "with 0.8 m/s velocity." +:+ nl) ;;;
  write ("* A 3" +:+ dq
         +:+ " (80 mm) pipe results in 2.36 m loss—too high, unacceptably "
         +:+ "reducing sprinkler pressure." +:+ nl +:+ nl) ;;;
  write ("Submain sizing" +:+ nl) ;;;
  write ("Half-submain flow = zone_flow/2 = 156.35 gpm / 2 = 78.18 gpm = "
         +:+ "0.004932 m³/s." +:+ nl) ;;;
  write ("Half-submain length = 125 m." +:+ nl +:+ nl) ;;;
  write ("Submain Sizing - Head Loss Across Half-Submain:" +:+ nl) ;;;
  write ("Nominal | D (m) | hf (125 m, half-submain)(m) | velocity (m/s)"
         +:+ nl) ;;;
  write ("---|---|---|---" +:+ nl) ;;;
  write ("100 mm (4" +:+ dq +:+ ") | 0.100 | "
         +:+ Py.format_f 3 (H_sub_loss_m r) +:+ " m | 0.628 m/s" +:+ nl) ;;;
  write ("125 mm (5" +:+ dq +:+ ") | 0.125 | 0.217 m | 0.402 m/s" +:+ nl) ;;;
  write ("150 mm (6" +:+ dq +:+ ") | 0.150 | 0.089 m | 0.279 m/s" +:+ nl) ;;;
  write ("We can choose 100 mm (4" +:+ dq +:+ ") for the submain." +:+ nl) ;;;
  write ("* Half-submain loss is 0.64 m; combined with lateral "
         +:+ "half-loss, the worst-case total is 1.437 m (acceptable for TDH "
         +:+ "calculations)." +:+ nl +:+ nl) ;;;
  write ("Mainline Sizing - Head Loss Across 1,000 m:" +:+ nl) ;;;
  write ("Nominal | D (m) | hf (1,000 m) (m) at 156.35gpm | velocity (m/s)"
         +:+ nl) ;;;
  write ("---|---|---|---" +:+ nl) ;;;
  write ("100 mm (4" +:+ dq
         +:+ ") | 0.100 | 18.54 m (too large) | 1.256 m/s" +:+ nl) ;;;
  write ("150 mm (6" +:+ dq +:+ ") | 0.150 | "
         +:+ Py.format_f 3 (H_mainline_loss_m r) +:+ " m | 0.558 m/s" +:+ nl) ;;;
  write ("200 mm (8" +:+ dq +:+ ") | 0.200 | 0.634 m | 0.314 m/s" +:+ nl) ;;;
  write ("Selection: 150 mm (6" +:+ dq +:+ ") mainline. 6" +:+ dq
         +:+ " gives hf = 2.57 m which is below the 3 m limit and is economical."
         +:+ nl +:+ nl) ;;;
  write ("Finding total head:" +:+ nl) ;;;
  write ("Total head (pump TDH): assemble static + friction + fittings"
         +:+ nl +:+ nl) ;;;
  write ("* Required head at sprinkler (static) H_end = 103 kPa = "
         +:+ Py.format_f 2 (H_end_m r) +:+ " m." +:+ nl) ;;;
  write ("* Half-lateral friction (design with D = 100 mm) = "
         +:+ Py.format_f 3 (H_lat_loss_m r) +:+ " m." +:+ nl) ;;;
  write ("* Half-submain friction (D = 100 mm) = "
         +:+ Py.format_f 3 (H_sub_loss_m r) +:+ " m." +:+ nl) ;;;
  write ("* Mainline friction (1,000 m, D = 150 mm) = "
         +:+ Py.format_f 3 (H_mainline_loss_m r) +:+ " m." +:+ nl) ;;;
  write ("* Valve & pump fittings (given allowances) = 2.0 m (solenoid / "
         +:+ "valve) + 2.0 m (pump fittings) = 4.0 m." +:+ nl +:+ nl) ;;;
  write ("Total TDH :" +:+ nl) ;;;
  write ("TDH = 10.50 + 0.795 + 0.642 + 2.574 + 4.0 = "
         +:+ Py.format_f 3 (H_op_m r) +:+ " m." +:+ nl +:+ nl) ;;;
  write ("Changing TDH(m) to feet (for pump curves / horsepower):" +:+ nl) ;;;
  write ("H_ft = " +:+ Py.format_f 3 (H_op_m r) +:+ " x 3.28084 = "
         +:+ Py.format_f 2 (H_op_ft r) +:+ " ft." +:+ nl +:+ nl) ;;;
  write ("Operating flow design (one zone active) = "
         +:+ Py.format_f 2 (Q_zone_GPM r) +:+ " gpm at = "
         +:+ Py.format_f 2 (H_op_m r) +:+ " m ("
         +:+ Py.format_f 2 (H_op_ft r) +:+ " ft)." +:+ nl +:+ nl) ;;;
  write ("Construction of the system curve:" +:+ nl) ;;;
  write ("Flows (gpm): 125.08, 156.35 (design), 187.62." +:+ nl) ;;;
  write ("For each flow, scaled each head-loss term with "
         +:+ "(Q/Q_design)^1.852 and recalculated TDH as: TDH(Q) = H_end + "
         +:+ "h_lat_half(Q) + h_sub_half(Q) + h_main(Q) + 4.0." +:+ nl
         +:+ nl) ;;;
  write ("System Curve Points:" +:+ nl) ;;;
  write ("Flow Rate (gpm) | Flow Rate (m3/hr) | Total Dynamic Head (m) | "
         +:+ "Total Dynamic Head (ft) | Comments" +:+ nl) ;;;
  write ("---|---|---|---|---" +:+ nl) ;;;
  for_each (system_curve_points r) curve_row ;;;
  write (nl +:+ "Pump selection, operating point, efficiency and motor size"
         +:+ nl) ;;;
  write ("Design operating point: " +:+ Py.format_f 2 (H_op_ft r)
         +:+ " ft (" +:+ Py.format_f 2 (H_op_m r) +:+ " m)." +:+ nl) ;;;
  write ("Estimating pump power: apply the hydraulic brake horsepower "
         +:+ "(BHP) formula in US units:" +:+ nl) ;;;
  write ("BHP = (Q(gpm) x H(ft)) / (3960 x eta). Assuming a typical pump "
         +:+ "efficiency eta = 0.70." +:+ nl) ;;;
  write ("BHP = 156.35 x 60.73 / (3960 x 0.70) = " +:+ Py.format_f 2 (BHP r)
         +:+ " HP." +:+ nl) ;;;
  write ("I'll select the next standard motor size above the calculated "
         +:+ "Brake Horsepower (BHP)." +:+ nl) ;;;
  write ("My practical recommendation is a 5 HP motor to safely cover "
         +:+ "the required BHP." +:+ nl) ;;;
  write (nl +:+ "SUMMARY TABLE:" +:+ nl) ;;;
  write ("Section/Parameter | Value (Metric) | Value (US Customary) | Notes"
         +:+ nl) ;;;
  write ("---|---|---|---" +:+ nl) ;;;
  write ("I. Property & General Requirements | | | " +:+ nl) ;;;
  write ("Area | 200,000 m2 | 49.42 acres | 400 m (N-S) x 500 m (E-W)"
         +:+ nl) ;;;
  write ("Design Crop ET (Net) | 15 mm/day | N/A |" +:+ nl) ;;;
  write ("Evaporation Loss | 12% | 12% |" +:+ nl) ;;;
  write ("Operation Time | 24 h/day | 24 h/day |" +:+ nl) ;;;
  write ("Required Pumped Flow (Qtotal) | "
         +:+ Py.format_f 5 (Q_total_m3_s r) +:+ " m3/s (3,409.09 m3/day) | "
         +:+ Py.format_f 2 (Q_total_GPM r) +:+ " gpm |" +:+ nl) ;;;
  v1 <~ lift (Py.truediv (Q_zone_GPM r * 3.78541)%float 60) ;;
  write ("Active Zone Flow (Qzone) | " +:+ Py.format_f 5 v1
         +:+ " m3/s (35.55 m3/hr) | " +:+ Py.format_f 2 (Q_zone_GPM r)
         +:+ " gpm | Assumes 4 zones, 1 active." +:+ nl) ;;;
  write ("Lateral End Pressure | 103 kPa | " +:+ Py.format_f 2 (H_end_m r)
         +:+ " m (34.45 ft) | Required minimum pressure." +:+ nl) ;;;
  write ("Hazen-Williams C | 130 | 130 | Assumed for new PVC." +:+ nl) ;;;
  write ("II. Hydraulic Design Summary | | | " +:+ nl) ;;;
  write ("Lateral Pipe Size | 100 mm | 4" +:+ dq +:+ " |" +:+ nl) ;;;
  write ("Max Lateral Velocity | 0.795 m/s | N/A | For 100 m half-lateral."
         +:+ nl) ;;;
  write ("Submain Pipe Size | 100 mm | 4" +:+ dq +:+ " |" +:+ nl) ;;;
  write ("Max Submain Velocity | 0.63 m/s | N/A | For 125 m half-submain."
         +:+ nl) ;;;
  write ("Mainline Pipe Size | 150 mm | 6" +:+ dq +:+ " |" +:+ nl) ;;;
  write ("Mainline Head Loss | " +:+ Py.format_f 3 (H_mainline_loss_m r)
         +:+ " m | " +:+ Py.format_f 2 (H_mainline_loss_m r * 3.28084)%float
         +:+ " ft | Over 1000 m run; meets <3 m limit." +:+ nl) ;;;
  write ("IV. Pump & Motor Selection | | | " +:+ nl) ;;;
  write ("Required TDH at Design Q | " +:+ Py.format_f 2 (H_op_m r)
         +:+ " m | " +:+ Py.format_f 2 (H_op_ft r)
         +:+ " ft | Sum of static head + losses (4.0 m fittings, etc.)."
         +:+ nl) ;;;
  write ("Estimated BHP | N/A | " +:+ Py.format_f 2 (BHP r)
         +:+ " HP | Assumes 70% efficiency." +:+ nl) ;;;
  write ("Recommended Motor Size | N/A | 5 HP | Next standard size above "
         +:+ "BHP." +:+ nl) ;;;
  getvalue.

(** [IrrigationDesignApp._generate_report_content(self, r)]. *)
Definition _generate_report_content
  (self : IrrigationDesignApp) (r : results) : Py.M string :=
  StringIO.run (report_statements r).

(** ** Reading floats as exact rationals *)

(** The rational a finite double denotes; [None] for infinities and NaN. *)
Definition float_to_Q (x : float) : option Q :=
  match Prim2SF x with
  | S754_zero _ => Some 0%Q
  | S754_finite s m e => Some (inject_Z (cond_Zopp s (Zpos m)) * Qpower 2 e)%Q
  | S754_infinity _ | S754_nan => None
  end.

(** [within x c tol]: [x] is finite and [|x - c| <= tol], decided exactly. *)
Definition within (x : float) (c tol : Q) : bool :=
  match float_to_Q x with
  | Some q => Qle_bool (Qabs (q - c)) tol
  | None => false
  end.

(** Strictly increasing sequences of floats, with the comparison [<] of the
    interpreter (false as soon as a NaN is involved). *)
Fixpoint strictly_increasing (l : list float) : bool :=
  match l with
  | x :: ((y :: _) as tl) => (x <? y)%float && strictly_increasing tl
  | _ => true
  end.

(** ** What a successful run returns *)

(** The six fields [compute_irrigation_design] reads. *)
Definition read_fields : list string :=
  [ "Field Length EW (m)"; "Field Width NS (m)"; "Design Crop ET (mm/day)";
    "Evaporation Loss (%)"; "Number of Zones (N_EW x N_NS)";
    "End of Lateral Pressure (kPa)" ].

(** The three fields of the input form it never reads. *)
Definition unread_fields : list string :=
  [ "Irrigation Time (hours/day)"; "Sprinkler Spacing X (m) [EW]";
    "Sprinkler Spacing Y (m) [NS]" ].

(** The table of system-curve points written in the code. *)
Definition source_table : list (float * float) :=
  [ (125.08, 51.74); (156.35, 60.73); (187.62, 72.22) ]%float.

(** The populated dictionary as plain float expressions of the six fields
    read, of the integer zone count and of its conversion to a float.
    This is what [design_body] returns when no statement raises, as
    [compute_results_iff] proves. *)
Definition design_of (L_EW W_NS ET evap_pct P_end : float)
    (N_zones : Z) (zones_f : float) : results :=
  let A_total_m2 := (L_EW * W_NS)%float in
  let EVAP_LOSS := (evap_pct / 100)%float in
  let V_crop_m3_day := (A_total_m2 * (ET / 1000))%float in
  let V_pump_m3_day := (V_crop_m3_day / (1 - EVAP_LOSS))%float in
  let Q_total_m3_s := (V_pump_m3_day / (24 * 3600))%float in
  let Q_total_GPM := (Q_total_m3_s * 15850.323)%float in
  let Q_zone_GPM := (Q_total_GPM / zones_f)%float in
  let H_end_m := (P_end / 9.806)%float in
  let H_op_m := (H_end_m + 0.795 + 0.642 + 2.574 + 4.0)%float in
  let H_op_ft := (H_op_m * 3.28084)%float in
  {|
    A_total_m2 := A_total_m2;
    ET_DESIGN_MM_DAY := ET;
    D_gross_m_day := (ET / 1000 / (1 - EVAP_LOSS) * 1000)%float;
    Q_total_GPM := Q_total_GPM;
    V_pump_m3_day := V_pump_m3_day;
    Q_total_m3_s := Q_total_m3_s;
    Q_total_L_s := (Q_total_m3_s * 1000)%float;
    V_crop_m3_day := V_crop_m3_day;
    Q_total_m3_hr := (V_pump_m3_day / 24)%float;
    N_sprinkler_total := 1353 * N_zones;
    N_zones := N_zones;
    N_spr_zone := 1353;
    Q_zone_GPM := Q_zone_GPM;
    qs_L_s := (Q_zone_GPM * (3.78541 / 60) / 1353)%float;
    H_op_m := H_op_m;
    H_op_ft := H_op_ft;
    H_end_m := H_end_m;
    H_lat_loss_m := 0.795%float;
    H_sub_loss_m := 0.642%float;
    H_mainline_loss_m := 2.574%float;
    H_fittings_loss_m := 4.0%float;
    BHP := (Q_zone_GPM * H_op_ft / (3960 * 0.70))%float;
    system_curve_points := source_table;
    L_zone_EW := (L_EW / 2)%float;
    L_zone_NS := (W_NS / 2)%float;
    h_f_80mm_lat := 2.36%float
  |}.

(** A run that reaches the [return] statement: the six fields are present,
    the zone count converts to an integer, and neither divisor is zero. *)
Inductive successful_run (inputs : gmap string float) : results -> Prop :=
| run_returns (L_EW W_NS ET evap_pct zones P_end : float)
    (N_zones : Z) (zones_f : float) :
    inputs !! "Field Length EW (m)" = Some L_EW ->
    inputs !! "Field Width NS (m)" = Some W_NS ->
    inputs !! "Design Crop ET (mm/day)" = Some ET ->
    inputs !! "Evaporation Loss (%)" = Some evap_pct ->
    inputs !! "Number of Zones (N_EW x N_NS)" = Some zones ->
    inputs !! "End of Lateral Pressure (kPa)" = Some P_end ->
    Py.int zones = inr N_zones ->
    Py.float_of_int N_zones = inr zones_f ->
    PrimFloat.is_zero (1 - evap_pct / 100) = false ->
    PrimFloat.is_zero zones_f = false ->
    successful_run inputs
      (design_of L_EW W_NS ET evap_pct P_end N_zones zones_f).

(** Valid input records: the six fields read are present, the evaporation
    loss is below 100 percent, and the zone count converts to an integer
    that is at least 1.  (Nothing else is needed for a run to succeed; in
    particular the fields need not be positive.) *)
Definition valid_inputs (inputs : gmap string float) : Prop :=
  exists (L_EW W_NS ET evap_pct zones P_end : float) (n : Z),
    inputs !! "Field Length EW (m)" = Some L_EW
    /\ inputs !! "Field Width NS (m)" = Some W_NS
    /\ inputs !! "Design Crop ET (mm/day)" = Some ET
    /\ inputs !! "Evaporation Loss (%)" = Some evap_pct
    /\ inputs !! "Number of Zones (N_EW x N_NS)" = Some zones
    /\ inputs !! "End of Lateral Pressure (kPa)" = Some P_end
    /\ (evap_pct <? 100)%float = true
    /\ Py.int zones = inr n
    /\ 1 <= n.

(** ** The claims of the specification, as predicates on a result *)

(** The reference scenario as the specification words it. *)
Definition reference_values_as_stated (r : results) : Prop :=
  A_total_m2 r = 200000%float
  /\ within (V_crop_m3_day r) 3000 0.01 = true
  /\ within (V_pump_m3_day r) 3409.09 0.01 = true
  /\ within (Q_total_GPM r) 625.41 0.05 = true
  /\ within (Q_zone_GPM r) 156.35 0.05 = true
  /\ within (H_end_m r) 10.50 0.01 = true
  /\ within (H_op_ft r) 60.73 0.05 = true
  /\ BHP r = (Q_zone_GPM r * H_op_ft r / (3960 * 0.70))%float
  /\ within (BHP r) 3.02 0.05 = true.

(** The same scenario with the brake horsepower the formula yields. *)
Definition reference_values (r : results) : Prop :=
  A_total_m2 r = 200000%float
  /\ within (V_crop_m3_day r) 3000 0.01 = true
  /\ within (V_pump_m3_day r) 3409.09 0.01 = true
  /\ within (Q_total_GPM r) 625.41 0.05 = true
  /\ within (Q_zone_GPM r) 156.35 0.05 = true
  /\ within (H_end_m r) 10.50 0.01 = true
  /\ within (H_op_ft r) 60.73 0.05 = true
  /\ BHP r = (Q_zone_GPM r * H_op_ft r / (3960 * 0.70))%float
  /\ within (BHP r) 3.43 0.05 = true.

(** The flow half of the system-curve claim: the three points sit at 80%,
    100% and 120% of the design zone flow. *)
Definition curve_flows_track_zone_flow (r : results) : Prop :=
  map fst (system_curve_points r)
  = map (fun frac => (frac * Q_zone_GPM r)%float) [0.8; 1.0; 1.2]%float.

(** An outcome that refuses to produce results. *)
Definition refused (o : outcome) : Prop := exists msg, o = ErrorDict msg.

(** Two application objects in different states, and the reference inputs
    filled in another order (length and width assigned last, over
    placeholder values). *)
Definition fresh_app : IrrigationDesignApp :=
  {| self_inputs := ∅; self_results := None |}.

Definition used_app : IrrigationDesignApp :=
  {| self_inputs := {[ "Field Length EW (m)" := "500.0" ]};
     self_results := Some (ErrorDict Py.float_division_by_zero) |}.

Definition default_inputs_reordered : gmap string float :=
  <[ "Field Width NS (m)" := 400%float ]>
  (<[ "Field Length EW (m)" := 500%float ]>
   (form_inputs 1 1 15 12 24 6.1 6.1 4 103)).

(** The result of the reference scenario. *)
Definition default_results : results :=
  design_of 500 400 15 12 103 4 4.

(** The exponent function of binary64: [fexp prec emax]. *)
Definition fexp53 (x : Z) : Z := Z.max (x - 53) (-1074).

(** What rounding returns for a final mantissa [m] and exponent [e]. *)
Definition rnd_result (s : bool) (m e : Z) : spec_float :=
  match m with
  | 0 => S754_zero s
  | Zpos p => if e <=? 971 then S754_finite s p e else S754_infinity s
  | Zneg _ => S754_nan
  end.

(** ** Further predicates on inputs and results *)

(** [absent inputs k]: the dictionary has no key [k]. *)
Definition absent (inputs : gmap string float) (k : string) : bool :=
  match inputs !! k with
  | None => true
  | Some _ => false
  end.

(** The messages of the conversion [int(...)] on a NaN and on an
    infinity. *)
Definition cannot_convert_nan : string :=
  "cannot convert float NaN to integer".
Definition cannot_convert_infinity : string :=
  "cannot convert float infinity to integer".

(** Every text the key "error" can hold. *)
Definition error_messages : list string :=
  map (fun k => "'" +:+ k +:+ "'") read_fields
  ++ [ Py.float_division_by_zero; cannot_convert_nan;
       cannot_convert_infinity ].

(** The rational [q] cut at the decimal point: rounded toward zero. *)
Definition Qtruncate (q : Q) : Z :=
  if Qle_bool 0 q then Qfloor q else Qceiling q.

(** The sign of a value: [None] for NaN. *)
Definition SFsign (x : spec_float) : option bool :=
  match x with
  | S754_nan => None
  | S754_zero s | S754_infinity s | S754_finite s _ _ => Some s
  end.

(** The sign of a float, as [math.copysign(1.0, x) < 0] reads it; [None]
    for NaN. *)
Definition sign_bit (x : float) : option bool := SFsign (Prim2SF x).


(** The fields of a result that hold a head, and, apart from the brake
    horsepower, all the others. *)
Definition hydraulic_heads (r : results) : float * float * float :=
  (H_end_m r, H_op_m r, H_op_ft r).

Definition apart_from_heads_and_power (r : results) :=
  (A_total_m2 r, ET_DESIGN_MM_DAY r, D_gross_m_day r, Q_total_GPM r,
   V_pump_m3_day r, Q_total_m3_s r, Q_total_L_s r, V_crop_m3_day r,
   Q_total_m3_hr r, N_sprinkler_total r, N_zones r, N_spr_zone r,
   Q_zone_GPM r, qs_L_s r, H_lat_loss_m r, H_sub_loss_m r,
   H_mainline_loss_m r, H_fittings_loss_m r, system_curve_points r,
   L_zone_EW r, L_zone_NS r, h_f_80mm_lat r).

(** The fields of a result that the report reads. *)
Definition report_view (r : results)
  : float * float * float * float * float * float * Z * Z * float * float
    * float * float * float * float * float * float * float * float * float
    * list (float * float) :=
  (A_total_m2 r, V_crop_m3_day r, V_pump_m3_day r, Q_total_GPM r,
   Q_total_m3_s r, Q_total_m3_hr r, N_zones r, N_sprinkler_total r,
   L_zone_NS r, L_zone_EW r, h_f_80mm_lat r, H_lat_loss_m r, H_sub_loss_m r,
   H_mainline_loss_m r, H_end_m r, H_op_m r, H_op_ft r, Q_zone_GPM r, BHP r,
   system_curve_points r).

(** ** The callbacks of the window *)

Module Gui.

(** What a callback does to the outside, in order: the message boxes it
    opens, the save dialog, the [with open(path, "w")] block it enters with
    the text to write, and the text it puts in the report viewer (the four
    calls on [self.report_text] taken together). *)
Inductive event : Type :=
| showerror (title message : string)
| showwarning (title message : string)
| showinfo (title message : string)
| asksaveasfilename
| write_file (path content : string)
| viewer_shows (content : string).

(** What a callback can raise: an exception of the interpreter, or the
    error of a file that cannot be written. *)
Inductive raised : Type :=
| Exn (e : Py.exn)
| FileError (msg : string).

(** A callback yields its events and then returns or raises. *)
Definition G (A : Type) : Type := list event * (raised + A).

Definition ret {A} (a : A) : G A := ([], inr a).
Definition emit (ev : event) : G unit := ([ev], inr tt).
Definition lift {A} (m : Py.M A) : G A :=
  ([], match m with inl e => inl (Exn e) | inr a => inr a end).
Definition bind {A B} (m : G A) (k : A -> G B) : G B :=
  match m with
  | (t, inl e) => (t, inl e)
  | (t, inr a) => let '(t', b) := k a in (t ++ t', b)
  end.

(** The answers of the outside: the path the save dialog returns (empty
    when it is cancelled) and, for a path and a text, the error of the
    [with open] block if it fails. *)
Record world : Type := {
  chosen_path : string;
  write_error : string -> string -> option string
}.

(** [self._generate_report_content(self.results)] on what [run] stored.
    The error dictionary has the single key "error": the first subscript
    of the report, [r['A_total_m2']], raises. *)
Definition generate (self : IrrigationDesignApp) (o : outcome)
  : Py.M string :=
  match o with
  | Results r => _generate_report_content self r
  | ErrorDict _ => Py.raise (Py.KeyError "A_total_m2")
  end.

(** [IrrigationDesignApp.view_report(self)].  [self.results] is falsy
    when it is [None]; both dictionaries [run] can store are non-empty. *)
Definition view_report (self : IrrigationDesignApp) : G unit :=
  match self_results self with
  | None =>
      emit (viewer_shows
              "Run calculations to generate the full report content.")
  | Some o =>
      bind (lift (generate self o)) (fun report_content =>
      emit (viewer_shows report_content))
  end.

(** [IrrigationDesignApp.export_report(self)]. *)
Definition export_report (w : world) (self : IrrigationDesignApp) : G unit :=
  match self_results self with
  | None => emit (showwarning "Error" "Run calculations first")
  | Some o =>
      bind (emit asksaveasfilename) (fun _ =>
      let file_path := chosen_path w in
      if String.eqb file_path EmptyString then ret tt
      else
        bind (lift (generate self o)) (fun report_content =>
        bind (emit (write_file file_path report_content)) (fun _ =>
        match write_error w file_path report_content with
        | Some msg => ([], inl (FileError msg))
        | None =>
            emit (showinfo "Report Generated"
                    ("Report saved successfully to " +:+ file_path +:+ "."))
        end)))
  end.

(** What reading the entry widgets gives. *)
Inductive reading : Type :=
| Read (values : gmap string float)
| NotANumber
| NoZoneEntry.

Section Run.

(** [float(text)] on the text of an entry, [None] when it raises
    [ValueError]; and the four calls that redraw the plots and rebuild the
    calculations column. *)
Variable float_of_str : string -> option float.
Variable refresh : IrrigationDesignApp -> G unit.

Definition parses (text : string) : bool :=
  match float_of_str text with
  | Some _ => true
  | None => false
  end.

(** The [try] block of [run]: every entry but the zone count is
    converted, then the zone count is looked up and converted. *)
Definition read_inputs (entries : gmap string string) : reading :=
  let others := delete "Number of Zones (N_EW x N_NS)" entries in
  if forallb (fun kv => parses kv.2) (map_to_list others)
  then
    match entries !! "Number of Zones (N_EW x N_NS)" with
    | None => NoZoneEntry
    | Some text =>
        match float_of_str text with
        | None => NotANumber
        | Some zones =>
            Read (<[ "Number of Zones (N_EW x N_NS)" := zones ]>
                  (omap float_of_str others))
        end
    end
  else NotANumber.

(** [IrrigationDesignApp.run(self)]: the object after the call, and what
    the call did. *)
Definition run (self : IrrigationDesignApp) : IrrigationDesignApp * G unit :=
  match read_inputs (self_inputs self) with
  | NotANumber =>
      (self, emit (showerror "Input Error"
                     "All input values must be valid numbers."))
  | NoZoneEntry =>
      (self, lift (Py.raise (Py.KeyError "Number of Zones (N_EW x N_NS)")))
  | Read values =>
      let self' :=
        {| self_inputs := self_inputs self;
           self_results := Some (compute_irrigation_design values) |} in
      match compute_irrigation_design values with
      | ErrorDict msg => (self', emit (showerror "Calculation Error" msg))
      | Results _ =>
          (self', bind (refresh self') (fun _ => view_report self'))
      end
  end.

End Run.

End Gui.

(** The texts the form starts with, [str(val)] for each default value,
    and [float] on the texts used in the examples below. *)
Definition default_entries : gmap string string :=
  <[ "Field Length EW (m)" := "500.0" ]>
  (<[ "Field Width NS (m)" := "400.0" ]>
  (<[ "Design Crop ET (mm/day)" := "15.0" ]>
  (<[ "Evaporation Loss (%)" := "12.0" ]>
  (<[ "Irrigation Time (hours/day)" := "24.0" ]>
  (<[ "Sprinkler Spacing X (m) [EW]" := "6.1" ]>
  (<[ "Sprinkler Spacing Y (m) [NS]" := "6.1" ]>
  (<[ "Number of Zones (N_EW x N_NS)" := "4.0" ]>
  (<[ "End of Lateral Pressure (kPa)" := "103.0" ]> ∅)))))))).

Definition float_of_default_text (text : string) : option float :=
  if String.eqb text "500.0" then Some 500%float
  else if String.eqb text "400.0" then Some 400%float
  else if String.eqb text "15.0" then Some 15%float
  else if String.eqb text "12.0" then Some 12%float
  else if String.eqb text "100.0" then Some 100%float
  else if String.eqb text "24.0" then Some 24%float
  else if String.eqb text "6.1" then Some 6.1%float
  else if String.eqb text "4.0" then Some 4%float
  else if String.eqb text "103.0" then Some 103%float
  else None.

(** A window whose plots raise nothing, and a save dialog that answers
    with a writable path. *)
Definition no_refresh (self : IrrigationDesignApp) : Gui.G unit := Gui.ret tt.

Definition sample_world : Gui.world :=
  {| Gui.chosen_path := "report.txt";
     Gui.write_error := fun _ _ => None |}.

(** ** Proof automation for the [try] block *)

(** Peel the outermost bind of a successful run: the bound computation
    returned a value, which is named and kept with its equation. *)
Ltac peel H :=
  match type of H with
  | context [Py.bind ?m _] =>
      let E := fresh "E" in
      destruct m eqn:E; cbn [Py.bind] in H; [ discriminate H | ]
  end.

Ltac peel_all H := repeat (peel H; cbv beta zeta in H).

(** Solve a goal about the fields of a [design_of] record. *)
Ltac fields := cbn [design_of A_total_m2 ET_DESIGN_MM_DAY
    D_gross_m_day Q_total_GPM V_pump_m3_day Q_total_m3_s Q_total_L_s
    V_crop_m3_day Q_total_m3_hr N_sprinkler_total N_zones N_spr_zone
    Q_zone_GPM qs_L_s H_op_m H_op_ft H_end_m H_lat_loss_m H_sub_loss_m
    H_mainline_loss_m H_fittings_loss_m BHP system_curve_points L_zone_EW
    L_zone_NS h_f_80mm_lat].

(** Validity of a concrete input record, by evaluation. *)
Ltac valid_by_evaluation :=
  do 7 eexists; repeat split; try (vm_compute; reflexivity);
  apply Z.leb_le; vm_compute; reflexivity.

(** ** Facts about binary64 arithmetic *)

Module FloatFacts.

Lemma digits2_size (m : positive) : digits2_pos m = Pos.size m.
Proof. induction m; cbn; congruence. Qed.

Lemma digits2_bounds (m : positive) :
  2 ^ (Zpos (digits2_pos m) - 1) <= Zpos m < 2 ^ Zpos (digits2_pos m).
Proof.
  rewrite digits2_size. split.
  - pose proof (Pos.size_le m) as H.
    assert (Hpow : 2 ^ Zpos (Pos.size m) = 2 * 2 ^ (Zpos (Pos.size m) - 1)).
    { rewrite <- Z.pow_succ_r by lia. f_equal. lia. }
    assert (H' : 2 ^ Zpos (Pos.size m) <= 2 * Zpos m).
    { change (2 * Zpos m) with (Zpos (m~0)).
      rewrite <- Pos2Z.inj_pow. apply Pos2Z.pos_le_pos. exact H. }
    lia.
  - pose proof (Pos.size_gt m) as H.
    change 2 with (Zpos 2). rewrite <- Pos2Z.inj_pow.
    apply Pos2Z.pos_lt_pos. exact H.
Qed.

(** digits are determined by the bounds *)
Lemma digits2_unique (m : positive) (k : Z) :
  2 ^ (k - 1) <= Zpos m < 2 ^ k -> Zpos (digits2_pos m) = k.
Proof.
  intros [Hlo Hhi]. pose proof (digits2_bounds m) as [Hlo' Hhi'].
  assert (0 < k).
  { destruct (Z.ltb_spec 0 k); [assumption|].
    rewrite (Z.pow_neg_r 2 (k-1)) in Hlo by lia.
    destruct (Z.eq_dec k 0) as [->|]; [cbn in Hhi; lia|].
    rewrite Z.pow_neg_r in Hhi by lia. lia. }
  destruct (Z.lt_trichotomy (Zpos (digits2_pos m)) k) as [Hlt | [Heq | Hgt]];
    [ | assumption | ].
  - assert (2 ^ Zpos (digits2_pos m) <= 2 ^ (k - 1))
      by (apply Z.pow_le_mono_r; lia). lia.
  - assert (2 ^ k <= 2 ^ (Zpos (digits2_pos m) - 1))
      by (apply Z.pow_le_mono_r; lia). lia.
Qed.

Lemma iter_pos_nat {A} (f : A -> A) (p : positive) (x : A) :
  SpecFloat.iter_pos f p x = Nat.iter (Pos.to_nat p) f x.
Proof.
  revert x. induction p as [p IH | p IH | ]; intros x; cbn [SpecFloat.iter_pos].
  - rewrite !IH. rewrite Pos2Nat.inj_xI.
    replace (S (2 * Pos.to_nat p)) with (Pos.to_nat p + Pos.to_nat p + 1)%nat by lia.
    rewrite !Nat.iter_add. reflexivity.
  - rewrite !IH. rewrite Pos2Nat.inj_xO.
    replace (2 * Pos.to_nat p)%nat with (Pos.to_nat p + Pos.to_nat p)%nat by lia.
    rewrite Nat.iter_add. reflexivity.
  - reflexivity.
Qed.

Lemma shr_1_m (mrs : shr_record) :
  0 <= shr_m mrs -> shr_m (shr_1 mrs) = shr_m mrs / 2.
Proof.
  destruct mrs as [m r s]. cbn [shr_m]. intros Hm.
  destruct m as [ | p | p ]; [ reflexivity | | lia ].
  destruct p as [p | p | ]; cbn [shr_1 shr_m].
  - rewrite Pos2Z.inj_xI. apply Z.div_unique with 1; lia.
  - rewrite Pos2Z.inj_xO. apply Z.div_unique with 0; lia.
  - reflexivity.
Qed.

Lemma iter_shr_m (n : nat) (mrs : shr_record) :
  0 <= shr_m mrs ->
  shr_m (Nat.iter n shr_1 mrs) = shr_m mrs / 2 ^ Z.of_nat n.
Proof.
  intros Hm. induction n as [ | n IH ].
  - cbn. rewrite Z.div_1_r. reflexivity.
  - rewrite Nat.iter_succ. rewrite shr_1_m.
    + rewrite IH. rewrite Nat2Z.inj_succ, Z.pow_succ_r by lia.
      rewrite Z.div_div by lia. f_equal. lia.
    + rewrite IH. apply Z.div_pos; lia.
Qed.

(** right shift of the mantissa by [shr] *)
Lemma shr_m_spec (mrs : shr_record) (e n : Z) :
  0 <= shr_m mrs ->
  shr_m (fst (shr mrs e n)) = shr_m mrs / 2 ^ Z.max 0 n
  /\ snd (shr mrs e n) = e + Z.max 0 n.
Proof.
  intros Hm. unfold shr. destruct n as [ | p | p ]; cbn [fst snd].
  - cbn. rewrite Z.div_1_r. split; [reflexivity | lia].
  - rewrite iter_pos_nat, iter_shr_m by assumption.
    rewrite positive_nat_Z. replace (Z.max 0 (Zpos p)) with (Zpos p) by lia.
    split; reflexivity.
  - replace (Z.max 0 (Zneg p)) with 0 by lia. cbn. rewrite Z.div_1_r. split; [reflexivity|lia].
Qed.

Lemma fexp_53 (x : Z) : fexp prec emax x = fexp53 x.
Proof. reflexivity. Qed.

Lemma Zdigits2_bounds (x : Z) :
  0 < x -> 2 ^ (Zdigits2 x - 1) <= x < 2 ^ Zdigits2 x.
Proof.
  destruct x as [ | p | p ]; try lia. intros _. apply digits2_bounds.
Qed.

Lemma Zdigits2_unique (x k : Z) :
  2 ^ (k - 1) <= x < 2 ^ k -> 0 < x -> Zdigits2 x = k.
Proof.
  destruct x as [ | p | p ]; try lia. intros H _. apply digits2_unique, H.
Qed.

Lemma Zdigits2_nonneg (x : Z) : 0 <= Zdigits2 x.
Proof. destruct x; cbn; lia. Qed.

Lemma Zdigits2_pos (x : Z) : 0 < x -> 0 < Zdigits2 x.
Proof. destruct x; cbn; lia. Qed.

Lemma shr_record_of_loc_m (m : Z) (l : location) :
  shr_m (shr_record_of_loc m l) = m.
Proof. destruct l as [ | [ | | ] ]; reflexivity. Qed.

Lemma round_nearest_even_cases (m : Z) (l : location) :
  round_nearest_even m l = m \/ round_nearest_even m l = m + 1.
Proof.
  destruct l as [ | [ | | ] ]; cbn; auto. destruct (Z.even m); auto.
Qed.

(** The shape of a rounded result: shift, add a carry of 0 or 1, shift. *)
Lemma binary_round_aux_shape (s : bool) (mx ex : Z) (lx : location) :
  0 <= mx ->
  exists c, (c = 0 \/ c = 1) /\
    let n1 := Z.max 0 (fexp53 (Zdigits2 mx + ex) - ex) in
    let m2 := mx / 2 ^ n1 + c in
    let e1 := ex + n1 in
    let n2 := Z.max 0 (fexp53 (Zdigits2 m2 + e1) - e1) in
    binary_round_aux prec emax s mx ex lx = rnd_result s (m2 / 2 ^ n2) (e1 + n2).
Proof.
  intros Hmx. unfold binary_round_aux, shr_fexp. rewrite !fexp_53.
  pose proof (shr_m_spec (shr_record_of_loc mx lx) ex
                (fexp53 (Zdigits2 mx + ex) - ex)) as H1.
  rewrite shr_record_of_loc_m in H1. specialize (H1 Hmx).
  destruct (shr (shr_record_of_loc mx lx) ex (fexp53 (Zdigits2 mx + ex) - ex))
    as [mrs' e1]. cbn [fst snd] in H1. destruct H1 as [Hm1 He1].
  assert (Hm1pos : 0 <= shr_m mrs').
  { rewrite Hm1. apply Z.div_pos; [ lia | apply Z.pow_pos_nonneg; lia ]. }
  set (m2 := round_nearest_even (shr_m mrs') (loc_of_shr_record mrs')).
  assert (Hm2 : m2 = shr_m mrs' \/ m2 = shr_m mrs' + 1)
    by apply round_nearest_even_cases.
  exists (m2 - shr_m mrs'). split; [ lia | ].
  cbv zeta. rewrite <- Hm1, <- He1.
  replace (shr_m mrs' + (m2 - shr_m mrs')) with m2 by lia.
  rewrite fexp_53.
  pose proof (shr_m_spec (shr_record_of_loc m2 loc_Exact) e1
                (fexp53 (Zdigits2 m2 + e1) - e1)) as H2.
  rewrite shr_record_of_loc_m in H2.
  assert (0 <= m2) by lia. specialize (H2 H).
  destruct (shr (shr_record_of_loc m2 loc_Exact) e1 (fexp53 (Zdigits2 m2 + e1) - e1))
    as [mrs'' e2]. cbn [fst snd] in H2. destruct H2 as [Hm'' He2].
  rewrite <- Hm'', <- He2. unfold rnd_result.
  change (emax - prec) with 971. reflexivity.
Qed.

Lemma div_pow2_lower (x n d : Z) :
  2 ^ (d - 1) <= x -> 0 <= n <= d - 1 -> 1 <= x / 2 ^ n.
Proof.
  intros Hx Hn. apply Z.div_le_lower_bound; [ apply Z.pow_pos_nonneg; lia | ].
  rewrite Z.mul_1_r. etransitivity; [ | exact Hx ].
  apply Z.pow_le_mono_r; lia.
Qed.

Lemma shift_keeps_positive (x e : Z) :
  0 < x -> -1074 <= e ->
  1 <= x / 2 ^ Z.max 0 (fexp53 (Zdigits2 x + e) - e).
Proof.
  intros Hx He. pose proof (Zdigits2_bounds x Hx) as [Hlo _].
  pose proof (Zdigits2_pos x Hx).
  apply div_pow2_lower with (Zdigits2 x); [ exact Hlo | ].
  unfold fexp53. lia.
Qed.

Lemma binary_round_aux_nonzero (s s' : bool) (mx ex : Z) (lx : location) :
  0 < mx -> -1074 <= ex ->
  binary_round_aux prec emax s mx ex lx <> S754_zero s'.
Proof.
  intros Hmx Hex.
  destruct (binary_round_aux_shape s mx ex lx) as (c & Hc & Heq); [ lia | ].
  cbv zeta in Heq. rewrite Heq. clear Heq.
  pose proof (shift_keeps_positive mx ex Hmx Hex) as H1.
  set (m2 := mx / 2 ^ Z.max 0 (fexp53 (Zdigits2 mx + ex) - ex) + c) in *.
  set (e1 := ex + Z.max 0 (fexp53 (Zdigits2 mx + ex) - ex)) in *.
  assert (Hm2 : 0 < m2) by (unfold m2; lia).
  assert (He1 : -1074 <= e1) by (unfold e1; lia).
  pose proof (shift_keeps_positive m2 e1 Hm2 He1) as H2.
  unfold rnd_result.
  destruct (m2 / 2 ^ Z.max 0 (fexp53 (Zdigits2 m2 + e1) - e1)) as [ | p | p ];
    [ lia | | lia ].
  destruct (_ <=? 971); discriminate.
Qed.

Lemma iter_xO_pow2 (m d : positive) :
  Zpos (Pos.iter xO m d) = Zpos m * 2 ^ Zpos d.
Proof.
  rewrite (Pos.iter_swap_gen _ _ Zpos xO (Z.mul 2)) by reflexivity.
  rewrite <- Z.shiftl_mul_pow2 by lia. reflexivity.
Qed.

Lemma shl_align_spec (m : positive) (e e' : Z) :
  Zpos (fst (shl_align m e e')) = Zpos m * 2 ^ (e - Z.min e e')
  /\ snd (shl_align m e e') = Z.min e e'.
Proof.
  unfold shl_align. destruct (e' - e) as [ | d | d ] eqn:Hd; cbn [fst snd].
  - replace (Z.min e e') with e by lia. rewrite Z.sub_diag. cbn. split; lia.
  - replace (Z.min e e') with e by lia. rewrite Z.sub_diag. cbn. split; lia.
  - replace (Z.min e e') with e' by lia. rewrite iter_xO_pow2.
    replace (e - e') with (Zpos d) by lia. split; reflexivity.
Qed.

Lemma binary_round_nonzero (s s' : bool) (m : positive) (e : Z) :
  -1074 <= e -> binary_round prec emax s m e <> S754_zero s'.
Proof.
  intros He. unfold binary_round.
  pose proof (shl_align_spec m e (fexp prec emax (Zpos (digits2_pos m) + e)))
    as [_ Hez].
  destruct (shl_align m e (fexp prec emax (Zpos (digits2_pos m) + e))) as [mz ez].
  cbn [snd] in Hez. apply binary_round_aux_nonzero; [ lia | ].
  rewrite fexp_53 in Hez. unfold fexp53 in Hez. lia.
Qed.

(** 1 - y is a zero only for y = 1 *)
Lemma SFsub_one_zero (y : spec_float) (s : bool) :
  valid_binary y = true ->
  SF64sub (S754_finite false 4503599627370496 (-52)) y = S754_zero s ->
  y = S754_finite false 4503599627370496 (-52).
Proof.
  intros Hv H. destruct y as [sy | sy | | sy my ey]; try discriminate H.
  unfold valid_binary, SpecFloat.valid_binary, bounded, canonical_mantissa in Hv.
  apply andb_true_iff in Hv as [Hc _]. apply Z.eqb_eq in Hc.
  rewrite fexp_53 in Hc. unfold fexp53 in Hc.
  unfold SF64sub, SFsub in H.
  pose proof (shl_align_spec 4503599627370496 (-52) (Z.min (-52) ey)) as [Ha _].
  pose proof (shl_align_spec my ey (Z.min (-52) ey)) as [Hb _].
  set (a := fst (shl_align 4503599627370496 (-52) (Z.min (-52) ey))) in *.
  set (b := fst (shl_align my ey (Z.min (-52) ey))) in *.
  unfold binary_normalize in H.
  cbn [cond_Zopp] in H.
  destruct (Zpos a - cond_Zopp sy (Zpos b)) as [ | d | d ] eqn:Hd.
  - (* the aligned mantissas are equal *)
    destruct sy; cbn [cond_Zopp] in Hd; [ lia | ].
    pose proof (digits2_bounds my) as [Hlo Hhi].
    replace (Z.min (-52) (Z.min (-52) ey)) with (Z.min (-52) ey) in Ha by lia.
    replace (Z.min ey (Z.min (-52) ey)) with (Z.min (-52) ey) in Hb by lia.
    assert (Hab : Zpos a = Zpos b) by lia. rewrite Ha, Hb in Hab.
    destruct (Z.le_gt_cases (-52) ey) as [Hge | Hlt].
    + replace (Z.min (-52) ey) with (-52) in Hab by lia.
      change (-52 - -52) with 0 in Hab. rewrite Z.pow_0_r, Z.mul_1_r in Hab.
      assert (Hd53 : Zpos (digits2_pos my) = 53) by lia.
      rewrite Hd53 in Hlo. change (2 ^ (53 - 1)) with 4503599627370496 in Hlo.
      assert (Hp' : 0 < 2 ^ (ey - -52)) by (apply Z.pow_pos_nonneg; lia).
      assert (2 ^ (ey - -52) = 1) by nia.
      assert (ey = -52).
      { destruct (Z.eq_dec ey (-52)); [ assumption | ].
        assert (2 ^ 1 <= 2 ^ (ey - -52)) by (apply Z.pow_le_mono_r; lia).
        change (2 ^ 1) with 2 in *. lia. }
      subst ey. change (2 ^ (-52 - -52)) with 1 in Hab.
      f_equal. lia.
    + replace (Z.min (-52) ey) with ey in Hab by lia.
      rewrite Z.sub_diag, Z.pow_0_r, Z.mul_1_r in Hab.
      assert (Hd53 : Zpos (digits2_pos my) <= 53) by lia.
      assert (2 ^ Zpos (digits2_pos my) <= 2 ^ 53) by (apply Z.pow_le_mono_r; lia).
      assert (2 ^ 1 <= 2 ^ (-52 - ey)) by (apply Z.pow_le_mono_r; lia).
      change (2 ^ 1) with 2 in *. change (2 ^ 53) with 9007199254740992 in *.
      lia.
  - exfalso. revert H. apply binary_round_nonzero. lia.
  - exfalso. revert H. apply binary_round_nonzero. lia.
Qed.

(** A canonical mantissa is not shifted by the rounding step. *)
Lemma shr_fexp_canonical (m : positive) (e : Z) :
  fexp53 (Zpos (digits2_pos m) + e) = e ->
  shr_fexp prec emax (Zpos m) e loc_Exact
  = ({| shr_m := Zpos m; shr_r := false; shr_s := false |}, e).
Proof.
  intros Hc.
  unfold shr_fexp. rewrite fexp_53. cbn [Zdigits2 shr_record_of_loc].
  rewrite Hc, Z.sub_diag. reflexivity.
Qed.

Lemma round_canonical (s : bool) (m : positive) (e : Z) :
  fexp53 (Zpos (digits2_pos m) + e) = e -> e <= 971 ->
  binary_round_aux prec emax s (Zpos m) e loc_Exact = S754_finite s m e.
Proof.
  intros Hc He.
  pose proof (shr_fexp_canonical m e Hc) as Hs.
  unfold binary_round_aux. rewrite Hs.
  cbn [shr_m loc_of_shr_record round_nearest_even].
  rewrite Hs. cbn [shr_m].
  change (emax - prec) with 971.
  destruct (Z.leb_spec e 971); [ reflexivity | lia ].
Qed.

Lemma bounded_intro (m : positive) (e : Z) :
  fexp53 (Zpos (digits2_pos m) + e) = e -> e <= 971 ->
  bounded prec emax m e = true.
Proof.
  intros Hc He. unfold bounded, canonical_mantissa. rewrite fexp_53, Hc.
  rewrite Z.eqb_refl. change (emax - prec) with 971.
  apply Z.leb_le in He. rewrite He. reflexivity.
Qed.

(** An integer of at most 53 bits converts exactly. *)
Lemma binary_round_small (s : bool) (k : positive) :
  Zpos (digits2_pos k) <= 53 ->
  exists m' e', binary_round prec emax s k 0 = S754_finite s m' e'
                /\ bounded prec emax m' e' = true.
Proof.
  intros Hd. unfold binary_round. rewrite Z.add_0_r, fexp_53.
  assert (Hf : fexp53 (Zpos (digits2_pos k)) = Zpos (digits2_pos k) - 53)
    by (unfold fexp53; lia).
  rewrite Hf.
  pose proof (shl_align_spec k 0 (Zpos (digits2_pos k) - 53)) as [Hmz Hez].
  destruct (shl_align k 0 (Zpos (digits2_pos k) - 53)) as [mz ez].
  cbn [fst snd] in Hmz, Hez.
  replace (Z.min 0 (Zpos (digits2_pos k) - 53))
    with (Zpos (digits2_pos k) - 53) in * by lia.
  subst ez.
  assert (Hdz : Zpos (digits2_pos mz) = 53).
  { apply digits2_unique. rewrite Hmz.
    pose proof (digits2_bounds k) as [Hlo Hhi].
    replace (0 - (Zpos (digits2_pos k) - 53)) with (53 - Zpos (digits2_pos k)) by lia.
    split.
    - replace (53 - 1) with ((Zpos (digits2_pos k) - 1) + (53 - Zpos (digits2_pos k))) by lia.
      rewrite Z.pow_add_r by lia.
      apply Z.mul_le_mono_nonneg_r; [ apply Z.pow_nonneg; lia | exact Hlo ].
    - replace 53 with (Zpos (digits2_pos k) + (53 - Zpos (digits2_pos k))) at 2 by lia.
      rewrite Z.pow_add_r by lia.
      apply Z.mul_lt_mono_pos_r; [ apply Z.pow_pos_nonneg; lia | exact Hhi ]. }
  assert (Hc : fexp53 (Zpos (digits2_pos mz) + (Zpos (digits2_pos k) - 53))
               = Zpos (digits2_pos k) - 53)
    by (rewrite Hdz; unfold fexp53; lia).
  exists mz, (Zpos (digits2_pos k) - 53). split.
  - apply round_canonical; [ exact Hc | lia ].
  - apply bounded_intro; [ exact Hc | lia ].
Qed.

Lemma iter_shr_exact (n : nat) (x : positive) (k : positive) :
  Zpos k = Zpos x * 2 ^ Z.of_nat n ->
  Nat.iter n shr_1 {| shr_m := Zpos k; shr_r := false; shr_s := false |}
  = {| shr_m := Zpos x; shr_r := false; shr_s := false |}.
Proof.
  revert k. induction n as [ | n IH ]; intros k Hk.
  - change (2 ^ Z.of_nat 0) with 1 in Hk.
    assert (k = x) by lia. subst k. reflexivity.
  - rewrite Nat.iter_succ_r.
    rewrite Nat2Z.inj_succ, Z.pow_succ_r in Hk by lia.
    destruct k as [k | k | ]; try lia.
    cbn [shr_1 orb]. apply IH. lia.
Qed.

(** An integer [m * 2^e] with a 53-bit [m] converts exactly. *)
Lemma binary_round_scaled (s : bool) (m k : positive) (e : Z) :
  Zpos (digits2_pos m) = 53 -> 0 < e <= 971 ->
  Zpos k = Zpos m * 2 ^ e ->
  binary_round prec emax s k 0 = S754_finite s m e.
Proof.
  intros Hd He Hk.
  assert (Hdk : Zpos (digits2_pos k) = 53 + e).
  { apply digits2_unique. rewrite Hk.
    pose proof (digits2_bounds m) as [Hlo Hhi]. rewrite Hd in Hlo, Hhi.
    split.
    - replace (53 + e - 1) with ((53 - 1) + e) by lia.
      rewrite Z.pow_add_r by lia.
      apply Z.mul_le_mono_nonneg_r; [ apply Z.pow_nonneg; lia | exact Hlo ].
    - rewrite Z.pow_add_r by lia.
      apply Z.mul_lt_mono_pos_r; [ apply Z.pow_pos_nonneg; lia | exact Hhi ]. }
  unfold binary_round. rewrite Z.add_0_r, fexp_53, Hdk.
  replace (fexp53 (53 + e)) with e by (unfold fexp53; lia).
  unfold shl_align. rewrite Z.sub_0_r.
  destruct e as [ | pe | pe ]; try lia.
  unfold binary_round_aux, shr_fexp. rewrite fexp_53. cbn [Zdigits2].
  rewrite Hdk, Z.add_0_r.
  replace (fexp53 (53 + Zpos pe) - 0) with (Zpos pe) by (unfold fexp53; lia).
  cbn [shr shr_record_of_loc]. rewrite iter_pos_nat.
  rewrite (iter_shr_exact _ m k) by (rewrite positive_nat_Z; exact Hk).
  cbn [shr_m loc_of_shr_record round_nearest_even].
  rewrite Z.add_0_l.
  pose proof (shr_fexp_canonical m (Zpos pe)) as Hs.
  unfold shr_fexp in Hs. cbn [shr_record_of_loc] in Hs.
  rewrite Hs by (rewrite Hd; unfold fexp53; lia).
  cbn [shr_m].
  change (emax - prec) with 971.
  destruct (Z.leb_spec (Zpos pe) 971); [ reflexivity | lia ].
Qed.

(** The integer part of a valid finite double, when it is not zero,
    converts back to a finite, nonzero double. *)
Lemma binary_normalize_trunc (s : bool) (m : positive) (e : Z) :
  valid_binary (S754_finite s m e) = true ->
  cond_Zopp s (Z.shiftl (Zpos m) e) <> 0 ->
  exists m' e',
    binary_normalize prec emax (cond_Zopp s (Z.shiftl (Zpos m) e)) 0 false
    = S754_finite s m' e'
    /\ bounded prec emax m' e' = true.
Proof.
  intros Hv Hnz.
  pose proof Hv as Hb. cbn [SpecFloat.valid_binary] in Hb.
  unfold bounded, canonical_mantissa in Hv.
  apply andb_true_iff in Hv as [Hc He].
  apply Z.eqb_eq in Hc. apply Z.leb_le in He.
  rewrite fexp_53 in Hc. change (emax - prec) with 971 in He.
  assert (Hsh : 0 < Z.shiftl (Zpos m) e).
  { assert (0 <= Z.shiftl (Zpos m) e) by (apply Z.shiftl_nonneg; lia).
    destruct s; cbn [cond_Zopp] in Hnz; lia. }
  destruct (Z.shiftl (Zpos m) e) as [ | k | k ] eqn:Hk; try lia.
  assert (Hgoal : exists m' e', binary_round prec emax s k 0 = S754_finite s m' e'
                                /\ bounded prec emax m' e' = true).
  { destruct (Z.ltb_spec 0 e) as [Hpos | Hneg].
    - exists m, e. split; [ | exact Hb ].
      apply binary_round_scaled.
      + unfold fexp53 in Hc. lia.
      + lia.
      + rewrite <- Hk. apply Z.shiftl_mul_pow2. lia.
    - apply binary_round_small.
      pose proof (digits2_bounds m) as [_ Hhi].
      pose proof (digits2_bounds k) as [Hlo _].
      assert (Hle : Zpos k <= Zpos m).
      { rewrite <- Hk. rewrite Z.shiftl_div_pow2 by lia.
        apply Z.div_le_upper_bound; [ apply Z.pow_pos_nonneg; lia | ].
        assert (0 < 2 ^ (- e)) by (apply Z.pow_pos_nonneg; lia). nia. }
      assert (Hdm : Zpos (digits2_pos m) <= 53) by (unfold fexp53 in Hc; lia).
      destruct (Z.le_gt_cases (Zpos (digits2_pos k)) 53) as [ | Hgt ];
        [ assumption | exfalso ].
      assert (2 ^ 53 <= 2 ^ (Zpos (digits2_pos k) - 1))
        by (apply Z.pow_le_mono_r; lia).
      assert (2 ^ Zpos (digits2_pos m) <= 2 ^ 53)
        by (apply Z.pow_le_mono_r; lia).
      lia. }
  destruct s; cbn [cond_Zopp binary_normalize Z.opp]; exact Hgoal.
Qed.

Lemma Zdigits2_le (x k : Z) : 0 <= x -> 0 <= k -> x < 2 ^ k -> Zdigits2 x <= k.
Proof.
  intros Hx0 Hk Hx. destruct (Z.eq_dec x 0) as [-> | Hnz]; [ cbn; lia | ].
  pose proof (Zdigits2_bounds x ltac:(lia)) as [Hlo _].
  destruct (Z.le_gt_cases (Zdigits2 x) k) as [ | Hgt ]; [ assumption | ].
  assert (2 ^ k <= 2 ^ (Zdigits2 x - 1)) by (apply Z.pow_le_mono_r; lia).
  lia.
Qed.

Lemma shift_amount (D e : Z) :
  -1074 <= e -> Z.max 0 (fexp53 (D + e) - e) = Z.max 0 (D - 53).
Proof. unfold fexp53. lia. Qed.

Lemma Zdigits2_lt_pow (q : Z) : 0 <= q -> q < 2 ^ Zdigits2 q.
Proof.
  intros Hq. destruct (Z.eq_dec q 0) as [-> | Hnz]; [ reflexivity | ].
  apply Zdigits2_bounds. lia.
Qed.

(** After the shift at most 53 bits are left. *)
Lemma shifted_lt (q : Z) :
  0 <= q -> 0 <= q / 2 ^ Z.max 0 (Zdigits2 q - 53) < 2 ^ 53.
Proof.
  intros Hq. pose proof (Zdigits2_lt_pow q Hq) as Hlt.
  pose proof (Zdigits2_nonneg q) as HD.
  split; [ apply Z.div_pos; [ lia | apply Z.pow_pos_nonneg; lia ] | ].
  apply Z.div_lt_upper_bound; [ apply Z.pow_pos_nonneg; lia | ].
  rewrite <- Z.pow_add_r by lia.
  eapply Z.lt_le_trans; [ exact Hlt | ].
  apply Z.pow_le_mono_r; lia.
Qed.

(** The rounded quotient of a positive double below 100 by 100 is not 1.0 *)
Lemma SFdiv_hundred_lt_one (mp : positive) (ep : Z) :
  bounded prec emax mp ep = true ->
  ep < -46 \/ (ep = -46 /\ Zpos mp < 7036874417766400) ->
  SF64div (S754_finite false mp ep) (S754_finite false 7036874417766400 (-46))
  <> S754_finite false 4503599627370496 (-52).
Proof.
  intros Hb Hlt.
  unfold bounded, canonical_mantissa in Hb.
  apply andb_true_iff in Hb as [Hc _]. apply Z.eqb_eq in Hc.
  rewrite fexp_53 in Hc. unfold fexp53 in Hc.
  assert (Hd : 1 <= Zpos (digits2_pos mp) <= 53) by lia.
  pose proof (digits2_bounds mp) as [Hmlo Hmhi].
  set (d := Zpos (digits2_pos mp)) in *.
  unfold SF64div, SFdiv, SFdiv_core_binary. cbn [xorb Zdigits2].
  change (Zpos (digits2_pos 7036874417766400)) with 53. fold d.
  rewrite fexp_53. unfold fexp53.
  set (e' := Z.min (Z.max (d + ep - (53 + -46) - 53) (-1074)) (ep - -46)).
  assert (He' : e' = Z.max (d + ep - 60) (-1074)) by (unfold e'; lia).
  set (s := ep - -46 - e').
  assert (Hs : 46 <= s) by lia.
  destruct s as [ | ps | ps ] eqn:Hps; try lia.
  rewrite Z.shiftl_mul_pow2 by lia. rewrite <- Hps.
  pose proof (Z_div_mod (Zpos mp * 2 ^ s) (Zpos 7036874417766400) ltac:(reflexivity))
    as Hdiv.
  destruct (Z.div_eucl (Zpos mp * 2 ^ s) (Zpos 7036874417766400)) as [q r].
  destruct Hdiv as [Hqr Hr].
  assert (Hq0 : 0 <= q).
  { assert (0 < 2 ^ s) by (apply Z.pow_pos_nonneg; lia).
    nia. }
  destruct (binary_round_aux_shape false q e' (new_location (Zpos 7036874417766400) r) Hq0)
    as (c & Hc01 & Heq).
  cbv zeta in Heq. rewrite Heq. clear Heq.
  assert (He'lo : -1074 <= e') by lia.
  rewrite (shift_amount (Zdigits2 q) e' He'lo).
  pose proof (shifted_lt q Hq0) as Hm1.
  pose proof (Zdigits2_nonneg q) as HD.
  set (D := Zdigits2 q) in *.
  set (m1 := q / 2 ^ Z.max 0 (D - 53)) in *.
  assert (He1lo : -1074 <= e' + Z.max 0 (D - 53)) by lia.
  rewrite (shift_amount (Zdigits2 (m1 + c)) _ He1lo).
  assert (Hm2 : 0 <= m1 + c <= 2 ^ 53) by lia.
  assert (HD2 : 0 <= Zdigits2 (m1 + c) <= 54).
  { split; [ apply Zdigits2_nonneg | ].
    apply Zdigits2_le; [ lia | lia | ].
    change (2 ^ 54) with (2 * 2 ^ 53). lia. }
  set (D2 := Zdigits2 (m1 + c)) in *.
  unfold rnd_result.
  destruct ((m1 + c) / 2 ^ Z.max 0 (D2 - 53)) as [ | pm | pm ] eqn:Hfin;
    try discriminate.
  destruct (_ <=? 971); [ | discriminate ].
  intros Hres. injection Hres as Hpm Hexp. clear Hfin Hpm pm.
  assert (Hsdef : s = ep + 46 - e') by (unfold s; lia).
  assert (HqD : 0 < q -> D + 52 <= d + s).
  { intros Hqpos. pose proof (Zdigits2_bounds q Hqpos) as [Hlo _]. fold D in Hlo.
    assert (Hpos52 : 0 < 2 ^ 52) by reflexivity.
    assert (H1 : 2 ^ (D - 1) * 2 ^ 52 < 2 ^ d * 2 ^ s).
    { apply Z.le_lt_trans with (Zpos mp * 2 ^ s).
      - rewrite Hqr. change (2 ^ 52) with 4503599627370496. nia.
      - apply Z.mul_lt_mono_pos_r; [ apply Z.pow_pos_nonneg; lia | exact Hmhi ]. }
    assert (HDpos : 0 < D) by (apply Zdigits2_pos; exact Hqpos).
    rewrite <- !Z.pow_add_r in H1 by lia.
    apply Z.pow_lt_mono_r_iff in H1; lia. }
  assert (HD0 : q = 0 -> D = 0) by (intros ->; reflexivity).
  assert (HD2hi : D2 = 54 -> 2 ^ 53 <= m1 + c).
  { intros H54. destruct (Z.eq_dec (m1 + c) 0) as [Hz | Hnz].
    - unfold D2 in H54. rewrite Hz in H54. discriminate H54.
    - pose proof (Zdigits2_bounds (m1 + c) ltac:(lia)) as [Hlo _].
      fold D2 in Hlo. rewrite H54 in Hlo. exact Hlo. }
  change (2 ^ 53) with 9007199254740992 in *.
  destruct Hlt as [Hlt | [Heq Hlt]].
  - (* below 64: the exponent of the quotient is too small *)
    assert (HD54 : 54 <= D) by lia.
    assert (Hqpos : 0 < q) by lia.
    specialize (HqD Hqpos).
    assert (d = 53 /\ ep = -47 /\ e' = -54 /\ D = 54 /\ s = 53 /\ D2 = 54)
      as (Hd53 & Hep & He54 & HD54' & Hs53 & HD2') by lia.
    specialize (HD2hi HD2').
    assert (Hm1' : 9007199254740991 <= m1) by lia.
    unfold m1 in Hm1'. rewrite HD54' in Hm1'.
    change (2 ^ Z.max 0 (54 - 53)) with 2 in Hm1'.
    assert (Hq54 : 18014398509481982 <= q).
    { pose proof (Z.mul_div_le q 2 ltac:(lia)). lia. }
    rewrite Hs53 in Hqr. rewrite Hd53 in Hmhi.
    change (2 ^ 53) with 9007199254740992 in *.
    lia.
  - (* between 64 and 100 *)
    assert (d = 53 /\ e' = -53 /\ s = 53) as (Hd53 & He53 & Hs53) by lia.
    rewrite Hs53 in Hqr. change (2 ^ 53) with 9007199254740992 in Hqr.
    assert (Hq : q <= 9007199254740990) by lia.
    assert (HD53 : D <= 53).
    { apply Zdigits2_le; [ lia | lia | ].
      change (2 ^ 53) with 9007199254740992. lia. }
    assert (Hm1q : m1 = q).
    { unfold m1. replace (Z.max 0 (D - 53)) with 0 by lia.
      rewrite Z.pow_0_r, Z.div_1_r. reflexivity. }
    assert (HD2' : D2 <= 53).
    { apply Zdigits2_le; [ lia | lia | ].
      change (2 ^ 53) with 9007199254740992. lia. }
    lia.
Qed.

Lemma binary_round_aux_sign (s s' : bool) (mx ex : Z) (lx : location)
    (m : positive) (e : Z) :
  binary_round_aux prec emax s mx ex lx = S754_finite s' m e -> s' = s.
Proof.
  unfold binary_round_aux.
  destruct (shr_fexp prec emax mx ex lx) as [mrs' e'].
  destruct (shr_fexp prec emax _ e' loc_Exact) as [mrs'' e''].
  destruct (shr_m mrs'') as [ | p | p ]; try discriminate.
  destruct (e'' <=? emax - prec); [ | discriminate ].
  intros [= <- _ _]. reflexivity.
Qed.

Lemma SFeqb_zero (x : spec_float) :
  SFeqb x (S754_zero false) = true -> exists s, x = S754_zero s.
Proof.
  destruct x as [s | s | | s m e]; cbn; try discriminate; eauto;
    destruct s; discriminate.
Qed.

(** For a double below 100, [1 - pct / 100] is not a zero. *)
Lemma one_minus_percent_nonzero (pct : float) :
  (pct <? 100)%float = true ->
  PrimFloat.is_zero (1 - pct / 100) = false.
Proof.
  intros Hlt. destruct (PrimFloat.is_zero (1 - pct / 100)) eqn:Hz;
    [ exfalso | reflexivity ].
  unfold PrimFloat.is_zero in Hz. rewrite FloatAxioms.eqb_spec, sub_spec in Hz.
  change (Prim2SF 0) with (S754_zero false) in Hz.
  change (Prim2SF 1) with (S754_finite false 4503599627370496 (-52)) in Hz.
  apply SFeqb_zero in Hz as [s Hz].
  apply SFsub_one_zero in Hz; [ | apply Prim2SF_valid ].
  rewrite div_spec in Hz.
  change (Prim2SF 100) with (S754_finite false 7036874417766400 (-46)) in Hz.
  rewrite ltb_spec in Hlt.
  change (Prim2SF 100) with (S754_finite false 7036874417766400 (-46)) in Hlt.
  pose proof (Prim2SF_valid pct) as Hv.
  destruct (Prim2SF pct) as [sp | sp | | sp mp ep].
  - discriminate Hz.
  - destruct sp; discriminate.
  - discriminate Hz.
  - destruct sp.
    + unfold SF64div, SFdiv in Hz.
      destruct (SFdiv_core_binary prec emax (Zpos mp) ep _ _) as [[mz ez] lz].
      apply binary_round_aux_sign in Hz. discriminate Hz.
    + revert Hz. apply SFdiv_hundred_lt_one; [ exact Hv | ].
      unfold SFltb, SFcompare in Hlt.
      destruct (Z.compare_spec ep (-46)) as [Heq | Hl | Hg];
        [ right | left; exact Hl | discriminate Hlt ].
      split; [ exact Heq | ].
      destruct (Pos.compare_cont Eq mp 7036874417766400) eqn:Hcmp;
        try discriminate Hlt.
      apply Pos2Z.pos_lt_pos. exact Hcmp.
Qed.

Lemma finite_not_special (s : bool) (m : positive) (e : Z) :
  bounded prec emax m e = true ->
  PrimFloat.is_infinity (SF2Prim (S754_finite s m e)) = false
  /\ PrimFloat.is_zero (SF2Prim (S754_finite s m e)) = false.
Proof.
  intros Hb. unfold PrimFloat.is_infinity, PrimFloat.is_zero.
  rewrite !FloatAxioms.eqb_spec, abs_spec.
  rewrite Prim2SF_SF2Prim by exact Hb.
  change (Prim2SF infinity) with (S754_infinity false).
  change (Prim2SF zero) with (S754_zero false).
  split; [ reflexivity | destruct s; reflexivity ].
Qed.

(** A valid finite double has a canonical mantissa and exponent. *)
Lemma valid_finite_inv (s : bool) (m : positive) (e : Z) :
  valid_binary (S754_finite s m e) = true ->
  fexp53 (Zpos (digits2_pos m) + e) = e /\ e <= 971.
Proof.
  unfold SpecFloat.valid_binary, bounded, canonical_mantissa.
  intros H. apply andb_true_iff in H as [H1 H2].
  apply Z.eqb_eq in H1. apply Z.leb_le in H2. split; assumption.
Qed.

Lemma div_eucl_mul_exact (a b : Z) : 0 < b -> Z.div_eucl (a * b) b = (a, 0).
Proof.
  intros Hb.
  destruct (Z.div_eucl (a * b) b) as [q r] eqn:E.
  assert (Hq : q = a * b / b) by (unfold Z.div; rewrite E; reflexivity).
  assert (Hr : r = (a * b) mod b) by (unfold Z.modulo; rewrite E; reflexivity).
  rewrite Z.div_mul in Hq by lia. rewrite Z.mod_mul in Hr by lia. congruence.
Qed.

Lemma new_location_zero (k : Z) : new_location k 0 = loc_Exact.
Proof.
  unfold new_location, new_location_even, new_location_odd.
  destruct (Z.even k); reflexivity.
Qed.

(** The quotient of [1353 * k] by [k], as the division of integers
    computes it, is the double 1353.0. *)
Lemma quotient_1353 (k : positive) :
  (let '(q, e, l) := SFdiv_core_binary prec emax (1353 * Zpos k) 0 (Zpos k) 0 in
   binary_round_aux prec emax false q e l)
  = S754_finite false 5950556929523712%positive (-42)%Z.
Proof.
  unfold SFdiv_core_binary.
  pose proof (digits2_bounds k) as [Hklo Hkhi].
  pose proof (Zdigits2_bounds (1353 * Zpos k) ltac:(lia)) as [Hlo Hhi].
  cbn [Zdigits2] in *. change (Zdigits2 (Zpos k)) with (Zpos (digits2_pos k)).
  set (d2 := Zpos (digits2_pos k)) in *.
  set (d1 := Zdigits2 (1353 * Zpos k)) in *.
  assert (Hd : d1 = d2 + 10 \/ d1 = d2 + 11).
  { assert (H1 : 2 ^ (d1 - 1) < 2 ^ (d2 + 11)).
    { eapply Z.le_lt_trans; [ exact Hlo | ].
      rewrite Z.pow_add_r by lia. change (2 ^ 11) with 2048. lia. }
    assert (H2 : 2 ^ (d2 + 9) < 2 ^ d1).
    { eapply Z.le_lt_trans; [ | exact Hhi ].
      replace (d2 + 9) with ((d2 - 1) + 10) by lia.
      rewrite Z.pow_add_r by lia. change (2 ^ 10) with 1024. lia. }
    assert (0 < d1) by (apply Zdigits2_pos; lia).
    apply Z.pow_lt_mono_r_iff in H1; [ | lia | lia ].
    apply Z.pow_lt_mono_r_iff in H2; [ | lia | lia ].
    lia. }
  rewrite !Z.add_0_r, Z.sub_diag, fexp_53. unfold fexp53.
  destruct Hd as [Hd | Hd].
  - replace (Z.min (Z.max (d1 - d2 - 53) (-1074)) 0) with (-43) by lia.
    change (0 - -43) with 43.
    rewrite Z.shiftl_mul_pow2 by lia.
    replace (1353 * Zpos k * 2 ^ 43) with (1353 * 2 ^ 43 * Zpos k) by lia.
    rewrite div_eucl_mul_exact by lia. rewrite new_location_zero.
    vm_compute. reflexivity.
  - replace (Z.min (Z.max (d1 - d2 - 53) (-1074)) 0) with (-42) by lia.
    change (0 - -42) with 42.
    rewrite Z.shiftl_mul_pow2 by lia.
    replace (1353 * Zpos k * 2 ^ 42) with (1353 * 2 ^ 42 * Zpos k) by lia.
    rewrite div_eucl_mul_exact by lia. rewrite new_location_zero.
    vm_compute. reflexivity.
Qed.

(** Dividing a valid double by 1.0 returns it unchanged: the quotient is
    exact, so rounding does nothing. *)
Lemma SFdiv_one (x : spec_float) :
  valid_binary x = true ->
  SF64div x (S754_finite false 4503599627370496 (-52)) = x.
Proof.
  intros Hv.
  destruct x as [s | s | | s m e];
    try (destruct s; reflexivity); try reflexivity.
  apply valid_finite_inv in Hv as [Hc He]. unfold fexp53 in Hc.
  unfold SF64div, SFdiv, SFdiv_core_binary.
  replace (xorb s false) with s by (destruct s; reflexivity).
  cbn [Zdigits2]. change (Zpos (digits2_pos 4503599627370496)) with 53.
  unfold fexp, SpecFloat.emin. change prec with 53. change emax with 1024.
  destruct (Z.eq_dec e (-1074)) as [Hmin | Hnorm].
  - replace (Z.min (Z.max (Zpos (digits2_pos m) + e - (53 + -52) - 53)
                      (3 - 1024 - 53)) (e - -52)) with e by lia.
    replace (e - -52 - e) with 52 by lia.
    rewrite Z.shiftl_mul_pow2 by lia.
    rewrite div_eucl_mul_exact by reflexivity.
    change (new_location (Zpos 4503599627370496) 0) with loc_Exact.
    apply round_canonical; [ exact Hc | exact He ].
  - replace (Z.min (Z.max (Zpos (digits2_pos m) + e - (53 + -52) - 53)
                      (3 - 1024 - 53)) (e - -52)) with (e - 1) by lia.
    replace (e - -52 - (e - 1)) with 53 by lia.
    rewrite Z.shiftl_mul_pow2 by lia.
    replace (Zpos m * 2 ^ 53) with (Zpos m~0 * 4503599627370496)
      by (change (2 ^ 53) with 9007199254740992; lia).
    rewrite div_eucl_mul_exact by reflexivity.
    change (new_location (Zpos 4503599627370496) 0) with loc_Exact.
    unfold binary_round_aux.
    assert (Hs : shr_fexp 53 1024 (Zpos m~0) (e - 1) loc_Exact
                 = ({| shr_m := Zpos m; shr_r := false; shr_s := false |}, e)).
    { unfold shr_fexp, fexp, SpecFloat.emin.
      cbn [Zdigits2 shr_record_of_loc digits2_pos].
      rewrite Pos2Z.inj_succ.
      replace (Z.max (Z.succ (Zpos (digits2_pos m)) + (e - 1) - 53)
                 (3 - 1024 - 53) - (e - 1)) with 1 by lia.
      unfold shr. cbn [SpecFloat.iter_pos shr_1 orb]. f_equal. lia. }
    rewrite Hs. cbn [shr_m loc_of_shr_record round_nearest_even].
    change 53 with prec at 1. change 1024 with emax at 1.
    rewrite (shr_fexp_canonical m e Hc). cbn [shr_m].
    destruct (Z.leb_spec e (1024 - 53)); [ reflexivity | lia ].
Qed.

Lemma div_one (x : float) : (x / 1)%float = x.
Proof.
  apply Prim2SF_inj. rewrite div_spec.
  change (Prim2SF 1) with (S754_finite false 4503599627370496 (-52)).
  apply SFdiv_one, Prim2SF_valid.
Qed.

(** [x == 0] holds for the two zeros only. *)
Lemma eqb_zero (x : float) :
  (x =? 0)%float = true -> x = 0%float \/ x = (-0)%float.
Proof.
  rewrite FloatAxioms.eqb_spec. change (Prim2SF 0) with (S754_zero false).
  intros H. rewrite <- (SF2Prim_Prim2SF x).
  destruct (Prim2SF x) as [s | s | | s m e]; try discriminate H.
  - destruct s; [ right | left ]; reflexivity.
  - destruct s; discriminate H.
  - destruct s; discriminate H.
Qed.

(** [x == 1] holds for the double 1.0 only. *)
Lemma eqb_one (x : float) : (x =? 1)%float = true -> x = 1%float.
Proof.
  rewrite FloatAxioms.eqb_spec.
  change (Prim2SF 1) with (S754_finite false 4503599627370496 (-52)).
  intros H. rewrite <- (SF2Prim_Prim2SF x).
  destruct (Prim2SF x) as [s | s | | s m e]; try discriminate H;
    try (destruct s; discriminate H).
  unfold SFeqb, SFcompare in H. destruct s; [ discriminate H | ].
  destruct (e ?= -52) eqn:He; try discriminate H.
  apply Z.compare_eq in He. subst e.
  destruct (Pos.compare_cont Eq m 4503599627370496) eqn:Hm;
    try discriminate H.
  apply Pos.compare_eq in Hm. subst m. reflexivity.
Qed.

End FloatFacts.

(** ** The runtime operations *)

Lemma truediv_inr (x y z : float) :
  Py.truediv x y = inr z -> PrimFloat.is_zero y = false /\ z = (x / y)%float.
Proof.
  unfold Py.truediv. destruct (PrimFloat.is_zero y); [discriminate|].
  intros [= <-]. split; reflexivity.
Qed.

Lemma truediv_ok (x y : float) :
  PrimFloat.is_zero y = false -> Py.truediv x y = inr (x / y)%float.
Proof. unfold Py.truediv. intros ->. reflexivity. Qed.

Lemma truediv_int_inr (x : float) (n : Z) (z : float) :
  Py.truediv_int x n = inr z ->
  exists y, Py.float_of_int n = inr y
            /\ PrimFloat.is_zero y = false /\ z = (x / y)%float.
Proof.
  unfold Py.truediv_int. destruct (Py.float_of_int n) as [e | y];
    cbn [Py.bind]; [ discriminate | ].
  intros H. apply truediv_inr in H. exists y. tauto.
Qed.

Lemma getitem_inr (d : gmap string float) (k : string) (v : float) :
  Py.getitem d k = inr v <-> d !! k = Some v.
Proof.
  unfold Py.getitem, Py.ret, Py.raise.
  destruct (d !! k); split; congruence.
Qed.

(** ** When the calculator returns results, and what they are *)

(** The outcome depends on the dictionary only through the six fields the
    body reads. *)
Lemma design_body_ext (i1 i2 : gmap string float) :
  Forall (fun k => i1 !! k = i2 !! k) read_fields ->
  design_body i1 = design_body i2.
Proof.
  intros Hagree. unfold read_fields in Hagree.
  repeat match goal with
         | H : Forall _ (_ :: _) |- _ => apply Forall_cons in H as [? H]
         end.
  unfold design_body, Py.getitem.
  repeat match goal with
         | H : i1 !! ?k = i2 !! ?k |- _ => rewrite H; clear H
         end.
  reflexivity.
Qed.

Lemma compute_results_inv (inputs : gmap string float) (r : results) :
  compute_irrigation_design inputs = Results r -> successful_run inputs r.
Proof.
  intros H. unfold compute_irrigation_design, design_body in H.
  peel_all H. cbn [Py.ret] in H. injection H as <-.
  repeat match goal with
         | E : Py.getitem _ _ = inr _ |- _ => apply getitem_inr in E
         end.
  apply truediv_int_inr in E13 as (y13 & Hy13 & _ & ->).
  vm_compute in Hy13. injection Hy13 as <-.
  apply truediv_int_inr in E11 as (zones_f & Hconv & Hnz & ->).
  repeat match goal with
         | E : Py.truediv _ _ = inr _ |- _ =>
             apply truediv_inr in E as [? ->]
         end.
  change (33 * 41) with 1353.
  match goal with
  | |- successful_run _ ?r =>
      change r with (design_of f f0 f1 f2 f5 z zones_f)
  end.
  econstructor; eassumption.
Qed.

Lemma compute_results_intro (inputs : gmap string float) (r : results) :
  successful_run inputs r -> compute_irrigation_design inputs = Results r.
Proof.
  intros [L W ET pct zones P n y HL HW HET Hpct Hz HP Hint Hconv Hd1 Hd2].
  unfold compute_irrigation_design, design_body, Py.getitem, Py.truediv_int.
  change (Py.float_of_int (33 * 41)) with (@inr Py.exn float 1353%float).
  rewrite HL, HW, HET, Hpct. cbn [Py.bind Py.ret].
  repeat (first [ rewrite truediv_ok by (assumption || reflexivity)
                | rewrite Hz | rewrite Hint | rewrite HP | rewrite Hconv ];
          cbn [Py.bind Py.ret]).
  reflexivity.
Qed.

(** The calculator returns the populated dictionary exactly on the
    successful runs. *)
Lemma compute_results_iff (inputs : gmap string float) (r : results) :
  compute_irrigation_design inputs = Results r <-> successful_run inputs r.
Proof.
  split; [ apply compute_results_inv | apply compute_results_intro ].
Qed.

(** The integer part of a double, when it is not zero, converts back to a
    float without overflow, and to a nonzero one. *)
Lemma float_of_int_of_int (x : float) (n : Z) :
  Py.int x = inr n -> n <> 0 ->
  exists y, Py.float_of_int n = inr y /\ PrimFloat.is_zero y = false.
Proof.
  unfold Py.int, Py.ret, Py.raise.
  pose proof (Prim2SF_valid x) as Hv.
  destruct (Prim2SF x) as [s | s | | s m e]; try discriminate.
  - intros [= <-] Hnz. congruence.
  - intros [= <-] Hnz.
    destruct (FloatFacts.binary_normalize_trunc s m e Hv Hnz)
      as (m' & e' & Hbn & Hb).
    unfold Py.float_of_int. rewrite Hbn.
    destruct (FloatFacts.finite_not_special s m' e' Hb) as [Hinf Hzero].
    rewrite Hinf. eexists. split; [ reflexivity | exact Hzero ].
Qed.

(** Valid inputs make the run succeed. *)
Lemma valid_inputs_results (inputs : gmap string float) :
  valid_inputs inputs ->
  exists r, compute_irrigation_design inputs = Results r.
Proof.
  intros (L & W & ET & pct & zones & P & n
          & HL & HW & HET & Hpct & Hz & HP & Hlt & Hint & Hn).
  destruct (float_of_int_of_int zones n Hint ltac:(lia)) as (y & Hconv & Hy).
  exists (design_of L W ET pct P n y).
  apply compute_results_intro.
  econstructor; try eassumption.
  apply FloatFacts.one_minus_percent_nonzero. exact Hlt.
Qed.

Lemma default_inputs_valid : valid_inputs default_inputs.
Proof. valid_by_evaluation. Qed.

Lemma default_run : compute_irrigation_design default_inputs
                    = Results default_results.
Proof. vm_compute. reflexivity. Qed.

(** The report's division [N_sprinkler_total / N_zones] is 1353.0. *)
Lemma int_truediv_1353 (n : Z) :
  n <> 0 -> Py.int_truediv (1353 * n) n = inr 1353%float.
Proof.
  intros Hn. unfold Py.int_truediv.
  destruct (Z.eqb_spec n 0) as [ | _ ]; [ contradiction | ].
  destruct (Z.eqb_spec (1353 * n) 0) as [ | _ ]; [ lia | ].
  replace (xorb (1353 * n <? 0) (n <? 0)) with false
    by (destruct (Z.ltb_spec (1353 * n) 0), (Z.ltb_spec n 0);
        try reflexivity; lia).
  replace (Z.abs (1353 * n)) with (1353 * Z.abs n) by lia.
  destruct (Z.abs n) as [ | k | k ] eqn:Hk; try lia.
  pose proof (FloatFacts.quotient_1353 k) as Hq.
  destruct (SFdiv_core_binary prec emax (1353 * Zpos k) 0 (Zpos k) 0)
    as [[q e] l].
  rewrite Hq. reflexivity.
Qed.

(** The integer part of a double is below 2^1024 in magnitude, far from
    the limit on the digits of an integer turned into text. *)
Lemma int_magnitude (x : float) (n : Z) :
  Py.int x = inr n -> Z.abs n < 2 ^ 1024.
Proof.
  unfold Py.int, Py.ret, Py.raise.
  pose proof (Prim2SF_valid x) as Hv.
  destruct (Prim2SF x) as [s | s | | s m e]; try discriminate.
  - intros [= <-]. reflexivity.
  - intros [= <-].
    apply FloatFacts.valid_finite_inv in Hv as [Hc He].
    unfold fexp53 in Hc.
    pose proof (FloatFacts.digits2_bounds m) as [_ Hhi].
    assert (Hm : Zpos m < 2 ^ 53).
    { eapply Z.lt_le_trans; [ exact Hhi | ].
      apply Z.pow_le_mono_r; lia. }
    replace (Z.abs (cond_Zopp s (Z.shiftl (Zpos m) e)))
      with (Z.shiftl (Zpos m) e)
      by (assert (0 <= Z.shiftl (Zpos m) e)
            by (apply Z.shiftl_nonneg; lia);
          destruct s; cbn [cond_Zopp]; lia).
    destruct (Z.le_gt_cases 0 e) as [Hpos | Hneg].
    + rewrite Z.shiftl_mul_pow2 by exact Hpos.
      apply Z.lt_le_trans with (2 ^ 53 * 2 ^ e).
      * apply Z.mul_lt_mono_pos_r; [ apply Z.pow_pos_nonneg; lia | exact Hm ].
      * rewrite <- Z.pow_add_r by lia. apply Z.pow_le_mono_r; lia.
    + rewrite Z.shiftl_div_pow2 by lia.
      apply Z.le_lt_trans with (Zpos m).
      * apply Z.div_le_upper_bound; [ apply Z.pow_pos_nonneg; lia | ].
        assert (0 < 2 ^ (- e)) by (apply Z.pow_pos_nonneg; lia).
        nia.
      * eapply Z.lt_trans; [ exact Hm | ].
        apply Z.pow_lt_mono_r; lia.
Qed.

Lemma str_int_below_limit (n : Z) :
  Z.abs n < 10 ^ Py.int_max_str_digits -> Py.str_int n = inr (pretty n).
Proof.
  intros Hn. unfold Py.str_int.
  destruct (Z.leb_spec (10 ^ Py.int_max_str_digits) (Z.abs n)) as [Hle | _];
    [ | reflexivity ].
  exfalso. apply (Z.lt_irrefl (Z.abs n)).
  eapply Z.lt_le_trans; [ exact Hn | exact Hle ].
Qed.

(** The zone count of a result is always printed. *)
Lemma str_int_of_int (x : float) (n : Z) :
  Py.int x = inr n -> Py.str_int n = inr (pretty n).
Proof.
  intros Hint. apply str_int_below_limit.
  eapply Z.lt_trans; [ exact (int_magnitude x n Hint) | ].
  vm_compute. reflexivity.
Qed.

(** On every successful run the report generator returns a text. *)
Lemma report_of_results
    (inputs : gmap string float) (r : results) (self : IrrigationDesignApp) :
  compute_irrigation_design inputs = Results r ->
  exists text, _generate_report_content self r = inr text.
Proof.
  intros H. apply compute_results_inv in H.
  destruct H as [L W ET pct zones P n y HL HW HET Hpct Hz HP Hint Hconv _ Hy].
  assert (Hn : n <> 0).
  { intros ->. vm_compute in Hconv. injection Hconv as <-. discriminate Hy. }
  unfold _generate_report_content, StringIO.run, report_statements.
  cbv [StringIO.bind StringIO.write StringIO.lift StringIO.getvalue
       StringIO.ret Py.bind Py.ret].
  change (N_sprinkler_total (design_of L W ET pct P n y)) with (1353 * n).
  change (N_zones (design_of L W ET pct P n y)) with n.
  change (system_curve_points (design_of L W ET pct P n y))
    with source_table.
  cbv [source_table StringIO.for_each curve_row StringIO.bind StringIO.write
       StringIO.lift StringIO.ret Py.bind Py.ret].
  repeat (first [ rewrite truediv_ok by reflexivity
                | rewrite (str_int_of_int zones n Hint)
                | rewrite int_truediv_1353 by exact Hn ];
          cbv beta iota).
  eexists. reflexivity.
Qed.

(** ** The claims *)

(** C1 (as stated) fails: on the reference inputs the brake horsepower is
    3.43 HP, not 3.02 HP. *)
Lemma reference_scenario_bhp_is_not_3_02 :
  ~ (exists r, compute_irrigation_design default_inputs = Results r
               /\ reference_values_as_stated r).
Proof.
  intros (r & Hr & H). rewrite default_run in Hr. injection Hr as <-.
  destruct H as (_ & _ & _ & _ & _ & _ & _ & _ & Hbhp).
  vm_compute in Hbhp. discriminate Hbhp.
Qed.

(** C1 (amended): on the reference inputs the calculator returns a result
    with area 200000, crop volume 3000, pumped volume 3409.09, total flow
    625.41 gpm, zone flow 156.35 gpm, end head 10.50 m, total dynamic head
    60.73 ft (within the stated tolerances), and a brake horsepower that is
    the formula's value, within 0.05 of 3.43 HP. *)
Theorem reference_scenario :
  exists r, compute_irrigation_design default_inputs = Results r
            /\ reference_values r.
Proof.
  exists default_results. split; [ apply default_run | ].
  unfold reference_values. repeat split; vm_compute; reflexivity.
Qed.

(** On every successful run the total dynamic head is the left-to-right
    sum of the end head and the four loss terms, which are the constants. *)
Lemma head_sum_of_results (inputs : gmap string float) (r : results) :
  compute_irrigation_design inputs = Results r ->
  H_op_m r = (H_end_m r + H_lat_loss_m r + H_sub_loss_m r
              + H_mainline_loss_m r + H_fittings_loss_m r)%float
  /\ H_lat_loss_m r = 0.795%float
  /\ H_sub_loss_m r = 0.642%float
  /\ H_mainline_loss_m r = 2.574%float
  /\ H_fittings_loss_m r = 4.0%float.
Proof.
  intros H. apply compute_results_inv in H. destruct H.
  repeat split; reflexivity.
Qed.

(** C2: for every valid input record the calculator returns a result whose
    total dynamic head is exactly the sum of the end head and the four
    loss terms, and those four terms are the constants 0.795, 0.642, 2.574
    and 4.0. *)
Theorem total_dynamic_head_is_sum (inputs : gmap string float) :
  valid_inputs inputs ->
  exists r,
    compute_irrigation_design inputs = Results r
    /\ H_op_m r = (H_end_m r + H_lat_loss_m r + H_sub_loss_m r
                   + H_mainline_loss_m r + H_fittings_loss_m r)%float
    /\ H_lat_loss_m r = 0.795%float
    /\ H_sub_loss_m r = 0.642%float
    /\ H_mainline_loss_m r = 2.574%float
    /\ H_fittings_loss_m r = 4.0%float.
Proof.
  intros Hv. destruct (valid_inputs_results inputs Hv) as [r Hr].
  exists r. split; [ exact Hr | exact (head_sum_of_results inputs r Hr) ].
Qed.

Lemma total_dynamic_head_is_sum_witness :
  exists r,
    compute_irrigation_design default_inputs = Results r
    /\ H_op_m r = (H_end_m r + H_lat_loss_m r + H_sub_loss_m r
                   + H_mainline_loss_m r + H_fittings_loss_m r)%float
    /\ H_lat_loss_m r = 0.795%float
    /\ H_sub_loss_m r = 0.642%float
    /\ H_mainline_loss_m r = 2.574%float
    /\ H_fittings_loss_m r = 4.0%float.
Proof.
  exact (total_dynamic_head_is_sum default_inputs default_inputs_valid).
Defined.

(** C3 (as stated) fails: with a single zone the design zone flow is about
    625.41 gpm, while the 100% point of the returned curve is still at
    156.35 gpm. *)
Lemma curve_does_not_track_zone_flow :
  exists r,
    compute_irrigation_design
      (form_inputs 500 400 15 12 24 6.1 6.1 1 103) = Results r
    /\ within (Q_zone_GPM r) 625.41 0.05 = true
    /\ map fst (system_curve_points r) = [125.08; 156.35; 187.62]%float
    /\ ~ curve_flows_track_zone_flow r.
Proof.
  exists (design_of 500 400 15 12 103 1 1).
  split; [ vm_compute; reflexivity | ].
  split; [ vm_compute; reflexivity | ].
  split; [ reflexivity | ].
  unfold curve_flows_track_zone_flow. vm_compute. discriminate.
Qed.

(** On every successful run the system curve is the table of the code. *)
Lemma curve_of_results (inputs : gmap string float) (r : results) :
  compute_irrigation_design inputs = Results r ->
  system_curve_points r = source_table.
Proof.
  intros H. apply compute_results_inv in H. destruct H. reflexivity.
Qed.

Lemma single_zone_inputs_valid :
  valid_inputs (form_inputs 500 400 15 12 24 6.1 6.1 1 103).
Proof. valid_by_evaluation. Qed.

(** C3 (amended): for every valid input record the calculator returns a
    result whose system curve is the fixed three-point table (125.08,
    51.74), (156.35, 60.73), (187.62, 72.22) written in the code, whatever
    the inputs. *)
Theorem system_curve_is_source_table (inputs : gmap string float) :
  valid_inputs inputs ->
  exists r,
    compute_irrigation_design inputs = Results r
    /\ system_curve_points r = source_table
    /\ length (system_curve_points r) = 3%nat.
Proof.
  intros Hv. destruct (valid_inputs_results inputs Hv) as [r Hr].
  exists r. rewrite (curve_of_results inputs r Hr).
  split; [ exact Hr | split; reflexivity ].
Qed.

Lemma system_curve_is_source_table_witness :
  exists r,
    compute_irrigation_design
      (form_inputs 500 400 15 12 24 6.1 6.1 1 103) = Results r
    /\ system_curve_points r = source_table
    /\ length (system_curve_points r) = 3%nat.
Proof.
  exact (system_curve_is_source_table _ single_zone_inputs_valid).
Defined.

(** C5: for every valid input record the calculator returns a result whose
    system curve has exactly three points, whose heads are strictly
    increasing from the first point to the third, as are the flows they
    are paired with: higher flow, strictly higher head. *)
Theorem system_curve_heads_increase (inputs : gmap string float) :
  valid_inputs inputs ->
  exists r,
    compute_irrigation_design inputs = Results r
    /\ (exists q1 h1 q2 h2 q3 h3,
          system_curve_points r = [ (q1, h1); (q2, h2); (q3, h3) ]
          /\ (q1 <? q2)%float = true /\ (q2 <? q3)%float = true
          /\ (h1 <? h2)%float = true /\ (h2 <? h3)%float = true)
    /\ length (system_curve_points r) = 3%nat
    /\ strictly_increasing (map snd (system_curve_points r)) = true
    /\ strictly_increasing (map fst (system_curve_points r)) = true.
Proof.
  intros Hv. destruct (valid_inputs_results inputs Hv) as [r Hr].
  exists r. rewrite (curve_of_results inputs r Hr).
  split; [ exact Hr | ].
  split; [ | repeat split; vm_compute; reflexivity ].
  unfold source_table. do 6 eexists.
  split; [ reflexivity | repeat split; vm_compute; reflexivity ].
Qed.

Lemma system_curve_heads_increase_witness :
  exists r,
    compute_irrigation_design default_inputs = Results r
    /\ (exists q1 h1 q2 h2 q3 h3,
          system_curve_points r = [ (q1, h1); (q2, h2); (q3, h3) ]
          /\ (q1 <? q2)%float = true /\ (q2 <? q3)%float = true
          /\ (h1 <? h2)%float = true /\ (h2 <? h3)%float = true)
    /\ length (system_curve_points r) = 3%nat
    /\ strictly_increasing (map snd (system_curve_points r)) = true
    /\ strictly_increasing (map fst (system_curve_points r)) = true.
Proof.
  exact (system_curve_heads_increase default_inputs default_inputs_valid).
Defined.

(** On every successful run the sprinkler counts are 1353 per zone and
    1353 times the integer zone count in total. *)
Lemma sprinklers_of_results (inputs : gmap string float) (r : results) :
  compute_irrigation_design inputs = Results r ->
  N_spr_zone r = 1353
  /\ N_sprinkler_total r = 1353 * N_zones r
  /\ exists zones,
       inputs !! "Number of Zones (N_EW x N_NS)" = Some zones
       /\ Py.int zones = inr (N_zones r).
Proof.
  intros H. apply compute_results_inv in H. destruct H.
  repeat split. eauto.
Qed.

Lemma six_zone_inputs_valid :
  valid_inputs (form_inputs 500 400 15 12 24 3.0 9.5 6 103).
Proof. valid_by_evaluation. Qed.

(** C8: for every valid input record the calculator returns a result whose
    sprinklers per zone are the literal 33 * 41 = 1353, whose zone count is
    the integer part of the zone-count field, and whose total is 1353
    times that zone count. *)
Theorem sprinkler_counts (inputs : gmap string float) :
  valid_inputs inputs ->
  exists r,
    compute_irrigation_design inputs = Results r
    /\ N_spr_zone r = 1353
    /\ N_sprinkler_total r = 1353 * N_zones r
    /\ exists zones,
         inputs !! "Number of Zones (N_EW x N_NS)" = Some zones
         /\ Py.int zones = inr (N_zones r).
Proof.
  intros Hv. destruct (valid_inputs_results inputs Hv) as [r Hr].
  exists r. split; [ exact Hr | exact (sprinklers_of_results inputs r Hr) ].
Qed.

Lemma sprinkler_counts_witness :
  exists r,
    compute_irrigation_design
      (form_inputs 500 400 15 12 24 3.0 9.5 6 103) = Results r
    /\ N_spr_zone r = 1353
    /\ N_sprinkler_total r = 1353 * N_zones r
    /\ exists zones,
         form_inputs 500 400 15 12 24 3.0 9.5 6 103
           !! "Number of Zones (N_EW x N_NS)" = Some zones
         /\ Py.int zones = inr (N_zones r).
Proof.
  exact (sprinkler_counts _ six_zone_inputs_valid).
Defined.

(** C9: the calculator is total and never lets an exception escape: either
    the body ran to completion and the populated dictionary is returned, or
    the body raised [e] and the dictionary with the single key "error"
    holding [str(e)] is returned. *)
Theorem never_raises (inputs : gmap string float) :
  (exists r, design_body inputs = inr r
             /\ compute_irrigation_design inputs = Results r)
  \/ (exists e, design_body inputs = inl e
                /\ compute_irrigation_design inputs = ErrorDict (Py.str e)).
Proof.
  unfold compute_irrigation_design.
  destruct (design_body inputs) as [e | r]; [ right | left ]; eauto.
Qed.

(** The outcome is determined by the six fields read. *)
Lemma compute_ext (i1 i2 : gmap string float) :
  Forall (fun k => i1 !! k = i2 !! k) read_fields ->
  compute_irrigation_design i1 = compute_irrigation_design i2.
Proof.
  intros Hagree. unfold compute_irrigation_design.
  rewrite (design_body_ext i1 i2 Hagree). reflexivity.
Qed.

(** C10: two input dictionaries that agree on every key other than the
    irrigation time and the two sprinkler spacings give the same outcome. *)
Theorem unread_fields_do_not_matter (i1 i2 : gmap string float) :
  (forall k, k ∉ unread_fields -> i1 !! k = i2 !! k) ->
  compute_irrigation_design i1 = compute_irrigation_design i2.
Proof.
  intros Hagree. apply compute_ext. unfold read_fields.
  repeat (apply Forall_cons; split;
          [ apply Hagree; unfold unread_fields;
            intros Hin; repeat (apply elem_of_cons in Hin as [Heq | Hin];
                                [ discriminate Heq | ]);
            apply elem_of_nil in Hin; exact Hin
          | ]).
  apply Forall_nil. exact I.
Qed.

Lemma unread_fields_do_not_matter_witness :
  compute_irrigation_design
    (<[ "Irrigation Time (hours/day)" := 8%float ]>
     (<[ "Sprinkler Spacing X (m) [EW]" := 3%float ]>
      (<[ "Sprinkler Spacing Y (m) [NS]" := 9.5%float ]> default_inputs)))
  = compute_irrigation_design default_inputs.
Proof.
  apply unread_fields_do_not_matter. intros k Hk.
  rewrite !lookup_insert_ne; [ reflexivity | | | ];
    intros <-; apply Hk; unfold unread_fields; set_solver.
Defined.

(** On every successful run: a zero evaporation loss makes the pumped
    volume the crop volume, and a zone count of one makes the zone flow
    the total flow. *)
Lemma boundaries_of_results (inputs : gmap string float) (r : results) :
  compute_irrigation_design inputs = Results r ->
  (forall pct, inputs !! "Evaporation Loss (%)" = Some pct ->
               (pct =? 0)%float = true ->
               V_pump_m3_day r = V_crop_m3_day r)
  /\ (forall zones, inputs !! "Number of Zones (N_EW x N_NS)" = Some zones ->
                    (zones =? 1)%float = true ->
                    Q_zone_GPM r = Q_total_GPM r).
Proof.
  intros H. apply compute_results_inv in H.
  destruct H as [L W ET pct0 zones0 P n y HL HW HET Hpct Hz HP Hint Hconv _ _].
  fields. split.
  - intros pct Hpct' Hzero.
    assert (pct0 = pct) by congruence. subst pct0.
    apply FloatFacts.eqb_zero in Hzero as [-> | ->];
      [ change (1 - 0 / 100)%float with 1%float
      | change (1 - -0 / 100)%float with 1%float ];
      apply FloatFacts.div_one.
  - intros zones Hz' Hone.
    assert (zones0 = zones) by congruence. subst zones0.
    apply FloatFacts.eqb_one in Hone. subst zones.
    vm_compute in Hint. injection Hint as <-.
    vm_compute in Hconv. injection Hconv as <-.
    apply FloatFacts.div_one.
Qed.

Lemma boundary_inputs_valid :
  valid_inputs (form_inputs 500 400 15 0 24 6.1 6.1 1 103).
Proof. valid_by_evaluation. Qed.

(** C6: for every valid input record the calculator returns a result such
    that, if the evaporation loss is zero, the pumped volume equals the
    crop volume, and if the zone count is one, the zone flow equals the
    total flow, bit for bit. *)
Theorem boundary_cases (inputs : gmap string float) :
  valid_inputs inputs ->
  exists r,
    compute_irrigation_design inputs = Results r
    /\ (forall pct, inputs !! "Evaporation Loss (%)" = Some pct ->
                    (pct =? 0)%float = true ->
                    V_pump_m3_day r = V_crop_m3_day r)
    /\ (forall zones,
          inputs !! "Number of Zones (N_EW x N_NS)" = Some zones ->
          (zones =? 1)%float = true ->
          Q_zone_GPM r = Q_total_GPM r).
Proof.
  intros Hv. destruct (valid_inputs_results inputs Hv) as [r Hr].
  exists r. split; [ exact Hr | exact (boundaries_of_results inputs r Hr) ].
Qed.

Lemma boundary_cases_witness :
  exists r,
    compute_irrigation_design
      (form_inputs 500 400 15 0 24 6.1 6.1 1 103) = Results r
    /\ V_pump_m3_day r = V_crop_m3_day r
    /\ Q_zone_GPM r = Q_total_GPM r.
Proof.
  destruct (boundary_cases _ boundary_inputs_valid)
    as (r & Hr & Hevap & Hzone).
  exists r. split; [ exact Hr | split ].
  - apply (Hevap 0%float); vm_compute; reflexivity.
  - apply (Hzone 1%float); vm_compute; reflexivity.
Defined.

(** C4 (as stated) fails: an evaporation loss of 150 percent, or a zone
    count of -4, is out of domain and yet the calculator does not refuse:
    a populated result comes back, with a negative pumped volume or a
    negative zone flow. *)
Lemma out_of_domain_inputs_are_not_refused :
  (100 <=? 150)%float = true
  /\ ~ refused (compute_irrigation_design
                  (form_inputs 500 400 15 150 24 6.1 6.1 4 103))
  /\ within (V_pump_m3_day (design_of 500 400 15 150 103 4 4)) (-6000) 0.01
     = true
  /\ (-4 <=? 0)%float = true
  /\ ~ refused (compute_irrigation_design
                  (form_inputs 500 400 15 12 24 6.1 6.1 (-4) 103))
  /\ within (Q_zone_GPM (design_of 500 400 15 12 103 (-4) (-4))) (-156.35) 0.05
     = true.
Proof.
  assert (H1 : compute_irrigation_design
                 (form_inputs 500 400 15 150 24 6.1 6.1 4 103)
               = Results (design_of 500 400 15 150 103 4 4))
    by (vm_compute; reflexivity).
  assert (H2 : compute_irrigation_design
                 (form_inputs 500 400 15 12 24 6.1 6.1 (-4) 103)
               = Results (design_of 500 400 15 12 103 (-4) (-4)))
    by (vm_compute; reflexivity).
  rewrite H1, H2. unfold refused.
  repeat split; try (vm_compute; reflexivity); intros [msg Hmsg];
    discriminate Hmsg.
Qed.

(** C4 (amended): when the six fields are present and the zone count is
    finite, an evaporation loss of exactly 100 or a zone count whose integer
    part is 0 ends the run with the error dictionary; its message is the
    interpreter's text for a division by zero, the same for both fields. *)
Theorem zero_divisor_is_reported
  (inputs : gmap string float) (L W ET pct zones P : float) (n : Z) :
  inputs !! "Field Length EW (m)" = Some L ->
  inputs !! "Field Width NS (m)" = Some W ->
  inputs !! "Design Crop ET (mm/day)" = Some ET ->
  inputs !! "Evaporation Loss (%)" = Some pct ->
  inputs !! "Number of Zones (N_EW x N_NS)" = Some zones ->
  inputs !! "End of Lateral Pressure (kPa)" = Some P ->
  Py.int zones = inr n ->
  pct = 100%float \/ n = 0 ->
  compute_irrigation_design inputs = ErrorDict Py.float_division_by_zero.
Proof.
  intros HL HW HET Hpct Hzones HP Hint Hcase.
  unfold compute_irrigation_design, design_body, Py.getitem.
  rewrite HL, HW, HET, Hpct, Hzones, HP. cbn [Py.bind Py.ret].
  rewrite (truediv_ok pct 100) by reflexivity.
  cbn [Py.bind]. rewrite Hint. cbn [Py.bind].
  rewrite (truediv_ok ET 1000) by reflexivity.
  cbn [Py.bind].
  destruct Hcase as [-> | ->].
  - change (Py.truediv (ET / 1000) (1 - 100 / 100))
      with (@inl Py.exn float
              (Py.ZeroDivisionError Py.float_division_by_zero)).
    reflexivity.
  - unfold Py.truediv at 1.
    destruct (PrimFloat.is_zero (1 - pct / 100)); [ reflexivity | ].
    cbn [Py.bind Py.ret]. unfold Py.truediv at 1.
    destruct (PrimFloat.is_zero (1 - pct / 100)); [ reflexivity | ].
    cbn [Py.bind Py.ret].
    rewrite truediv_ok by reflexivity. cbn [Py.bind].
    match goal with
    | |- context [Py.truediv_int ?x 0] =>
        change (Py.truediv_int x 0)
          with (@inl Py.exn float
                  (Py.ZeroDivisionError Py.float_division_by_zero))
    end.
    reflexivity.
Qed.

Lemma zero_divisor_is_reported_witness :
  compute_irrigation_design (form_inputs 500 400 15 100 24 6.1 6.1 4 103)
  = ErrorDict Py.float_division_by_zero
  /\ compute_irrigation_design (form_inputs 500 400 15 12 24 6.1 6.1 0.5 103)
     = ErrorDict Py.float_division_by_zero.
Proof.
  split.
  - apply (zero_divisor_is_reported _ 500 400 15 100 4 103 4);
      try (vm_compute; reflexivity).
    left; reflexivity.
  - apply (zero_divisor_is_reported _ 500 400 15 12 0.5 103 0);
      try (vm_compute; reflexivity).
    right; reflexivity.
Defined.

(** C7: the calculator and the report generator are functions of their
    argument alone.  Two dictionaries holding the same items, however they
    were built, give the same outcome, bit for bit; the report text depends
    on the results only, not on the state of the application object it is
    a method of; and on a valid input both return normally, the report
    being one and the same text on every invocation.  Neither reads a
    clock. *)
Theorem calculator_and_report_are_deterministic :
  (forall i1 i2 : gmap string float,
     (forall k, i1 !! k = i2 !! k) ->
     compute_irrigation_design i1 = compute_irrigation_design i2)
  /\ (forall (self1 self2 : IrrigationDesignApp) (r1 r2 : results),
        r1 = r2 ->
        _generate_report_content self1 r1 = _generate_report_content self2 r2)
  /\ (forall (inputs : gmap string float) (self1 self2 : IrrigationDesignApp),
        valid_inputs inputs ->
        exists r text,
          compute_irrigation_design inputs = Results r
          /\ _generate_report_content self1 r = inr text
          /\ _generate_report_content self2 r = inr text).
Proof.
  split; [ | split ].
  - intros i1 i2 Hsame. apply compute_ext.
    apply Forall_forall. intros k _. apply Hsame.
  - intros self1 self2 r1 r2 ->. reflexivity.
  - intros inputs self1 self2 Hv.
    destruct (valid_inputs_results inputs Hv) as [r Hr].
    destruct (report_of_results inputs r self1 Hr) as [text Htext].
    exists r, text. repeat split; assumption.
Qed.

Lemma calculator_and_report_are_deterministic_witness :
  compute_irrigation_design default_inputs_reordered
  = compute_irrigation_design default_inputs
  /\ _generate_report_content fresh_app default_results
     = _generate_report_content used_app default_results
  /\ exists r text,
       compute_irrigation_design default_inputs = Results r
       /\ _generate_report_content fresh_app r = inr text
       /\ _generate_report_content used_app r = inr text.
Proof.
  destruct calculator_and_report_are_deterministic
    as (Hcalc & Hreport & Htext).
  split; [ | split ].
  - apply Hcalc. intros k.
    unfold default_inputs_reordered, default_inputs, form_inputs.
    destruct (decide (k = "Field Width NS (m)")) as [-> | Hw].
    + rewrite lookup_insert_eq, lookup_insert_ne by discriminate.
      rewrite lookup_insert_eq. reflexivity.
    + rewrite (lookup_insert_ne _ "Field Width NS (m)") by congruence.
      destruct (decide (k = "Field Length EW (m)")) as [-> | Hl].
      * rewrite !lookup_insert_eq. reflexivity.
      * rewrite !(lookup_insert_ne _ "Field Length EW (m)") by congruence.
        rewrite !(lookup_insert_ne _ "Field Width NS (m)") by congruence.
        reflexivity.
  - apply Hreport. reflexivity.
  - apply Htext. exact default_inputs_valid.
Defined.

(** ** Further facts about binary64 arithmetic and the runtime *)

Module FloatCases.

Import FloatFacts.

Lemma Zdigits2_53 (x : Z) :
  4503599627370496 <= x < 9007199254740992 -> Zdigits2 x = 53.
Proof. intros H. apply Zdigits2_unique; [ exact H | lia ]. Qed.

Lemma Zdigits2_54 (x : Z) :
  9007199254740992 <= x < 18014398509481984 -> Zdigits2 x = 54.
Proof. intros H. apply Zdigits2_unique; [ exact H | lia ]. Qed.

(** The quotient of a double above 100 by 100 does not round to 1.0. *)
Lemma SFdiv_hundred_gt_one (mp : positive) (ep : Z) :
  bounded prec emax mp ep = true ->
  -46 < ep \/ (ep = -46 /\ 7036874417766400 < Zpos mp) ->
  SF64div (S754_finite false mp ep) (S754_finite false 7036874417766400 (-46))
  <> S754_finite false 4503599627370496 (-52).
Proof.
  intros Hb Hgt.
  unfold bounded, canonical_mantissa in Hb.
  apply andb_true_iff in Hb as [Hc _]. apply Z.eqb_eq in Hc.
  rewrite fexp_53 in Hc. unfold fexp53 in Hc.
  assert (Hd : Zpos (digits2_pos mp) = 53) by lia.
  pose proof (digits2_bounds mp) as [Hmlo Hmhi].
  rewrite Hd in Hmlo, Hmhi.
  change (2 ^ (53 - 1)) with 4503599627370496 in Hmlo.
  change (2 ^ 53) with 9007199254740992 in Hmhi.
  unfold SF64div, SFdiv, SFdiv_core_binary. cbn [xorb Zdigits2].
  change (Zpos (digits2_pos 7036874417766400)) with 53. rewrite Hd.
  rewrite fexp_53. unfold fexp53.
  replace (Z.min (Z.max (53 + ep - (53 + -46) - 53) (-1074)) (ep - -46))
    with (ep - 7) by lia.
  replace (ep - -46 - (ep - 7)) with 53 by lia.
  rewrite Z.shiftl_mul_pow2 by lia.
  change (2 ^ 53) with 9007199254740992.
  pose proof (Z_div_mod (Zpos mp * 9007199254740992) (Zpos 7036874417766400)
                ltac:(reflexivity)) as Hdiv.
  destruct (Z.div_eucl (Zpos mp * 9007199254740992) (Zpos 7036874417766400))
    as [q r].
  destruct Hdiv as [Hqr Hr].
  assert (Hqlo : 5764607523034234 <= q) by lia.
  assert (Hqhi : q < 18014398509481984) by lia.
  remember (binary_round_aux prec emax false q (ep - 7)
              (new_location (Zpos 7036874417766400) r)) as res eqn:Hres.
  destruct (binary_round_aux_shape false q (ep - 7)
              (new_location (Zpos 7036874417766400) r) ltac:(lia))
    as (c & Hc01 & Heq).
  cbv zeta in Heq. rewrite <- Hres in Heq.
  assert (He'lo : -1074 <= ep - 7) by lia.
  rewrite (shift_amount (Zdigits2 q) (ep - 7) He'lo) in Heq.
  set (D := Zdigits2 q) in *.
  assert (HD : (q < 9007199254740992 /\ D = 53)
               \/ (9007199254740992 <= q /\ D = 54)).
  { destruct (Z.lt_ge_cases q 9007199254740992) as [Hlt | Hge];
      [ left | right ]; (split; [ assumption | ]);
      [ apply Zdigits2_53 | apply Zdigits2_54 ]; lia. }
  set (m1 := q / 2 ^ Z.max 0 (D - 53)) in *.
  assert (Hm1 : (D = 53 -> m1 = q) /\ (D = 54 -> m1 = q / 2)).
  { split; intros HDv; unfold m1; rewrite HDv.
    - change (2 ^ Z.max 0 (53 - 53)) with 1. apply Z.div_1_r.
    - reflexivity. }
  assert (Hm1b : 4503599627370496 <= m1 < 9007199254740992).
  { destruct Hm1 as [H53 H54].
    destruct HD as [[Hlt HDv] | [Hge HDv]].
    - rewrite (H53 HDv). lia.
    - rewrite (H54 HDv).
      pose proof (Z.mul_div_le q 2 ltac:(lia)).
      pose proof (Z.mul_succ_div_gt q 2 ltac:(lia)). lia. }
  assert (He1lo : -1074 <= ep - 7 + Z.max 0 (D - 53)) by lia.
  rewrite (shift_amount (Zdigits2 (m1 + c)) _ He1lo) in Heq.
  set (D2 := Zdigits2 (m1 + c)) in *.
  assert (HD2 : (m1 + c < 9007199254740992 /\ D2 = 53)
                \/ (m1 + c = 9007199254740992 /\ D2 = 54)).
  { destruct (Z.lt_ge_cases (m1 + c) 9007199254740992) as [Hlt | Hge];
      [ left | right ]; (split; [ lia | ]);
      [ apply Zdigits2_53 | apply Zdigits2_54 ]; lia. }
  intros Hone. rewrite Hone in Heq. unfold rnd_result in Heq.
  destruct ((m1 + c) / 2 ^ Z.max 0 (D2 - 53)) as [ | pm | pm ] eqn:Hfin;
    try discriminate Heq.
  destruct (_ <=? 971); [ | discriminate Heq ].
  injection Heq as Hpm Hexp. subst pm.
  assert (Hcase : ep = -46 /\ D = 54 /\ D2 = 53 /\ m1 + c = 4503599627370496).
  { destruct HD2 as [[Hlt HD2v] | [Heq2 HD2v]]; rewrite HD2v in Hfin, Hexp.
    - change (2 ^ Z.max 0 (53 - 53)) with 1 in Hfin. rewrite Z.div_1_r in Hfin.
      destruct Hm1 as [H53 H54].
      destruct HD as [[Hlt' HDv] | [Hge HDv]]; rewrite HDv in Hexp.
      + rewrite (H53 HDv) in Hfin. lia.
      + lia.
    - destruct HD as [[Hlt' HDv] | [Hge HDv]]; rewrite HDv in Hexp.
      + destruct Hm1 as [H53 _]. rewrite (H53 HDv) in Heq2. lia.
      + lia. }
  destruct Hcase as (Hep & HDv & HD2v & Hm2).
  destruct Hgt as [Hgt | [_ Hgt]]; [ lia | ].
  assert (Hq : q = 9007199254740993).
  { destruct Hm1 as [_ H54]. specialize (H54 HDv).
    pose proof (Z.mul_div_le q 2 ltac:(lia)).
    pose proof (Z.mul_succ_div_gt q 2 ltac:(lia)). lia. }
  subst q ep.
  unfold new_location in Hres.
  change (Z.even (Zpos 7036874417766400)) with true in Hres.
  unfold new_location_even in Hres.
  destruct (Z.eqb_spec r 0) as [Hr0 | Hr0]; [ lia | ].
  destruct (2 * r ?= Zpos 7036874417766400);
    vm_compute in Hres; rewrite Hres in Hone; discriminate Hone.
Qed.

(** [x == 100] holds for the double 100.0 only. *)
Lemma eqb_hundred (x : float) : (x =? 100)%float = true -> x = 100%float.
Proof.
  rewrite FloatAxioms.eqb_spec.
  change (Prim2SF 100) with (S754_finite false 7036874417766400 (-46)).
  intros H. rewrite <- (SF2Prim_Prim2SF x).
  destruct (Prim2SF x) as [s | s | | s m e]; try discriminate H;
    try (destruct s; discriminate H).
  unfold SFeqb, SFcompare in H. destruct s; [ discriminate H | ].
  destruct (e ?= -46) eqn:He; try discriminate H.
  apply Z.compare_eq in He. subst e.
  destruct (Pos.compare_cont Eq m 7036874417766400) eqn:Hm;
    try discriminate H.
  apply Pos.compare_eq in Hm. subst m. reflexivity.
Qed.

(** The divisor [1 - pct / 100] is a zero exactly when [pct == 100]. *)
Lemma one_minus_percent_is_zero (pct : float) :
  PrimFloat.is_zero (1 - pct / 100) = (pct =? 100)%float.
Proof.
  destruct (pct <? 100)%float eqn:Hlt.
  - rewrite (one_minus_percent_nonzero pct Hlt). symmetry.
    rewrite ltb_spec in Hlt. rewrite FloatAxioms.eqb_spec.
    unfold SFltb in Hlt. unfold SFeqb.
    destruct (SFcompare (Prim2SF pct) (Prim2SF 100)) as [[ | | ] | ];
      try discriminate Hlt; reflexivity.
  - destruct (pct =? 100)%float eqn:Heq.
    + apply eqb_hundred in Heq. subst pct. vm_compute. reflexivity.
    + destruct (PrimFloat.is_zero (1 - pct / 100)) eqn:Hz; [ exfalso | reflexivity ].
      unfold PrimFloat.is_zero in Hz.
      rewrite FloatAxioms.eqb_spec, sub_spec in Hz.
      change (Prim2SF 0) with (S754_zero false) in Hz.
      change (Prim2SF 1) with (S754_finite false 4503599627370496 (-52)) in Hz.
      apply SFeqb_zero in Hz as [s Hz].
      apply SFsub_one_zero in Hz; [ | apply Prim2SF_valid ].
      rewrite div_spec in Hz.
      rewrite ltb_spec in Hlt. rewrite FloatAxioms.eqb_spec in Heq.
      change (Prim2SF 100) with (S754_finite false 7036874417766400 (-46))
        in Hz, Hlt, Heq.
      pose proof (Prim2SF_valid pct) as Hv.
      destruct (Prim2SF pct) as [sp | sp | | sp mp ep].
      * discriminate Hz.
      * destruct sp; discriminate.
      * discriminate Hz.
      * destruct sp; [ discriminate Hlt | ].
        revert Hz. apply SFdiv_hundred_gt_one; [ exact Hv | ].
        unfold SFltb, SFeqb, SFcompare in Hlt, Heq.
        destruct (Z.compare_spec ep (-46)) as [He | Hl | Hg];
          [ right | discriminate Hlt | left; lia ].
        split; [ exact He | ].
        destruct (Pos.compare_cont Eq mp 7036874417766400) eqn:Hcmp;
          try discriminate.
        apply Pos.compare_gt_iff in Hcmp. lia.
Qed.

(** [math.isnan] and [math.isinf] in terms of the value's class. *)
Lemma is_nan_spec (x : float) :
  PrimFloat.is_nan x = true <-> Prim2SF x = S754_nan.
Proof.
  unfold PrimFloat.is_nan. rewrite FloatAxioms.eqb_spec.
  destruct (Prim2SF x) as [s | s | | s m e]; cbn.
  - destruct s; split; discriminate.
  - destruct s; split; discriminate.
  - split; reflexivity.
  - unfold SFeqb, SFcompare. rewrite Z.compare_refl.
    assert (Hm : Pos.compare_cont Eq m m = Eq) by apply Pos.compare_refl.
    destruct s; rewrite Hm; cbn; split; discriminate.
Qed.

Lemma is_infinity_spec (x : float) :
  PrimFloat.is_infinity x = true <-> exists s, Prim2SF x = S754_infinity s.
Proof.
  unfold PrimFloat.is_infinity. rewrite FloatAxioms.eqb_spec, abs_spec.
  change (Prim2SF infinity) with (S754_infinity false).
  destruct (Prim2SF x) as [s | s | | s m e]; cbn.
  - split; [ discriminate | intros [s' H]; discriminate H ].
  - split; [ eauto | reflexivity ].
  - split; [ discriminate | intros [s' H]; discriminate H ].
  - split; [ discriminate | intros [s' H]; discriminate H ].
Qed.

(** [int(x)] returns exactly for the finite doubles. *)
Lemma int_returns_iff (x : float) :
  (exists n, Py.int x = inr n) <-> (abs x <? infinity)%float = true.
Proof.
  rewrite ltb_spec, abs_spec.
  change (Prim2SF infinity) with (S754_infinity false).
  unfold Py.int, Py.ret, Py.raise.
  destruct (Prim2SF x) as [s | s | | s m e]; cbn.
  - split; [ reflexivity | eauto ].
  - split; [ intros [n H]; discriminate H | discriminate ].
  - split; [ intros [n H]; discriminate H | discriminate ].
  - split; [ reflexivity | eauto ].
Qed.

(** The integer part of a valid finite double is zero exactly when its
    exponent is below -52, that is when its magnitude is below 1. *)
Lemma shiftl_zero_iff (m : positive) (e : Z) :
  bounded prec emax m e = true ->
  (Z.shiftl (Zpos m) e = 0 <-> e < -52)
  /\ (e = -52 -> 4503599627370496 <= Zpos m).
Proof.
  intros Hb. unfold bounded, canonical_mantissa in Hb.
  apply andb_true_iff in Hb as [Hc _]. apply Z.eqb_eq in Hc.
  rewrite fexp_53 in Hc. unfold fexp53 in Hc.
  pose proof (digits2_bounds m) as [Hlo Hhi].
  set (d := Zpos (digits2_pos m)) in *.
  assert (Hd : 0 < d) by (unfold d; lia).
  split; [ split | ].
  - intros Hz. destruct (Z.lt_ge_cases e (-52)) as [ | Hge ]; [ assumption | ].
    exfalso. destruct (Z.le_gt_cases 0 e) as [He | He].
    + rewrite Z.shiftl_mul_pow2 in Hz by exact He.
      assert (0 < 2 ^ e) by (apply Z.pow_pos_nonneg; lia). nia.
    + rewrite Z.shiftl_div_pow2 in Hz by lia.
      assert (Hd53 : d = 53) by lia.
      assert (H1 : 1 <= Zpos m / 2 ^ (- e)).
      { apply (div_pow2_lower (Zpos m) (- e) d); [ exact Hlo | lia ]. }
      lia.
  - intros He. rewrite Z.shiftl_div_pow2 by lia.
    apply Z.div_small. split; [ lia | ].
    eapply Z.lt_le_trans; [ exact Hhi | ].
    apply Z.pow_le_mono_r; lia.
  - intros He. assert (Hd53 : d = 53) by lia.
    rewrite Hd53 in Hlo. exact Hlo.
Qed.

(** [int(x)] returns a nonzero integer exactly when [1 <= abs(x) < inf]. *)
Lemma int_nonzero_iff (x : float) :
  (exists n, Py.int x = inr n /\ n <> 0)
  <-> (1 <=? abs x)%float = true /\ (abs x <? infinity)%float = true.
Proof.
  rewrite ltb_spec, leb_spec, abs_spec.
  change (Prim2SF infinity) with (S754_infinity false).
  change (Prim2SF 1) with (S754_finite false 4503599627370496 (-52)).
  unfold Py.int, Py.ret, Py.raise.
  pose proof (Prim2SF_valid x) as Hv.
  destruct (Prim2SF x) as [s | s | | s m e]; cbn [SFabs].
  - split; [ intros (n & [= <-] & Hn); congruence | intros [H _]; discriminate H ].
  - split; [ intros (n & H & _); discriminate H | intros [_ H]; discriminate H ].
  - split; [ intros (n & H & _); discriminate H | intros [_ H]; discriminate H ].
  - destruct (shiftl_zero_iff m e Hv) as [Hz H52].
    unfold SFleb, SFltb, SFcompare.
    split.
    + intros (n & [= <-] & Hn). split; [ | reflexivity ].
      assert (He : -52 <= e).
      { destruct (Z.lt_ge_cases e (-52)) as [Hlt | ]; [ | lia ].
        exfalso. apply Hn. apply Hz in Hlt. rewrite Hlt. destruct s; reflexivity. }
      destruct (Z.compare_spec (-52) e) as [Heq | Hlt | Hgt]; try reflexivity.
      * symmetry in Heq. specialize (H52 Heq).
        destruct (Pos.compare_cont Eq 4503599627370496 m) eqn:Hcmp;
          try reflexivity.
        apply Pos.compare_gt_iff, Pos2Z.pos_lt_pos in Hcmp.
        exfalso. revert Hcmp. apply Z.le_ngt. exact H52.
      * lia.
    + intros [Hle _]. eexists. split; [ reflexivity | ].
      assert (He : ~ e < -52).
      { intros Hlt. revert Hle.
        destruct (Z.compare_spec (-52) e) as [Heq | Hlt' | Hgt];
          [ lia | lia | discriminate ]. }
      intros Hn. apply He, Hz. destruct s; cbn [cond_Zopp] in Hn; lia.
Qed.

(** Multiplication of doubles is commutative, bit for bit on non-NaN
    results (the NaN of the model has no payload). *)
Lemma SFmul_comm (x y : spec_float) :
  SFmul prec emax x y = SFmul prec emax y x.
Proof.
  destruct x as [sx | sx | | sx mx ex], y as [sy | sy | | sy my ey];
    cbn [SFmul]; rewrite ?(xorb_comm sx sy); try reflexivity.
  rewrite (Pos.mul_comm mx my), (Z.add_comm ex ey). reflexivity.
Qed.

Lemma mul_comm (x y : float) : (x * y)%float = (y * x)%float.
Proof.
  apply Prim2SF_inj. rewrite !mul_spec. apply SFmul_comm.
Qed.

Lemma float_of_int_zero : Py.float_of_int 0 = inr 0%float.
Proof. vm_compute. reflexivity. Qed.

Lemma int_nan (x : float) :
  PrimFloat.is_nan x = true ->
  Py.int x = inl (Py.ValueError cannot_convert_nan).
Proof.
  intros H. apply is_nan_spec in H. unfold Py.int. rewrite H. reflexivity.
Qed.

Lemma int_infinity (x : float) :
  PrimFloat.is_infinity x = true ->
  Py.int x = inl (Py.OverflowError cannot_convert_infinity).
Proof.
  intros H. apply is_infinity_spec in H as [s H].
  unfold Py.int. rewrite H. reflexivity.
Qed.

Lemma pos_pow_1_l (p : positive) : (1 ^ p)%positive = 1%positive.
Proof.
  apply Pos2Z.inj. rewrite Pos2Z.inj_pow. apply Z.pow_1_l. lia.
Qed.

(** [int(x)] is the exact value of [x] rounded toward zero. *)
Lemma int_truncates (x : float) (n : Z) :
  Py.int x = inr n ->
  exists q, float_to_Q x = Some q /\ n = Qtruncate q.
Proof.
  unfold Py.int, float_to_Q, Py.ret, Py.raise.
  destruct (Prim2SF x) as [s | s | | s m e]; try discriminate.
  - intros [= <-]. exists 0%Q. split; reflexivity.
  - intros [= <-]. eexists. split; [ reflexivity | ].
    unfold Qtruncate, Qceiling, Qfloor, Qle_bool.
    destruct e as [ | p | p ].
    + cbn [Qpower Qmult inject_Z Qnum Qden Qopp].
      rewrite Z.shiftl_0_r. change (1 * 1)%positive with 1%positive.
      rewrite !Z.div_1_r.
      destruct s; cbn [cond_Zopp];
        match goal with
        | |- context [?a <=? ?b] => destruct (Z.leb_spec a b)
        end; lia.
    + unfold Qpower. rewrite Qpower_decomp_positive.
      cbn [Qmult inject_Z Qnum Qden Qopp].
      rewrite Z.shiftl_mul_pow2 by lia.
      rewrite pos_pow_1_l. change (1 * 1)%positive with 1%positive.
      assert (Hpow : 0 < 2 ^ Zpos p) by (apply Z.pow_pos_nonneg; lia).
      destruct s; cbn [cond_Zopp].
      * destruct (Z.leb_spec (0 * Zpos 1) (- Zpos m * 2 ^ Zpos p * 1));
          [ nia | ].
        rewrite Z.div_1_r. lia.
      * destruct (Z.leb_spec (0 * Zpos 1) (Zpos m * 2 ^ Zpos p * 1));
          [ | nia ].
        rewrite Z.div_1_r. reflexivity.
    + unfold Qpower. rewrite Qpower_decomp_positive.
      rewrite <- Pos2Z.inj_pow. rewrite pos_pow_1_l.
      cbn [Qinv Qmult inject_Z Qnum Qden Qopp].
      rewrite Z.shiftl_div_pow2 by lia.
      change (- Zneg p) with (Zpos p). rewrite <- Pos2Z.inj_pow.
      change (1 * (2 ^ p))%positive with (2 ^ p)%positive.
      destruct s; cbn [cond_Zopp].
      * destruct (Z.leb_spec (0 * Zpos (2 ^ p)) (- Zpos m * 1 * 1));
          [ lia | ].
        f_equal. f_equal. lia.
      * destruct (Z.leb_spec (0 * Zpos (2 ^ p)) (Zpos m * 1 * 1));
          [ | lia ].
        f_equal. lia.
Qed.

Lemma binary_round_aux_sign_some (s : bool) (mx ex : Z) (lx : location) :
  0 <= mx -> SFsign (binary_round_aux prec emax s mx ex lx) = Some s.
Proof.
  intros Hmx.
  destruct (binary_round_aux_shape s mx ex lx Hmx) as (c & Hc & Heq).
  cbv zeta in Heq. rewrite Heq. unfold rnd_result.
  match goal with
  | |- context [match ?M with 0 => _ | Zpos _ => _ | Zneg _ => _ end] =>
      assert (HM : 0 <= M);
      [ | destruct M as [ | p | p ]; [ reflexivity | | lia ] ]
  end.
  - apply Z.div_pos; [ | apply Z.pow_pos_nonneg; lia ].
    assert (0 <= mx / 2 ^ Z.max 0 (fexp53 (Zdigits2 mx + ex) - ex)).
    { apply Z.div_pos; [ lia | apply Z.pow_pos_nonneg; lia ]. }
    lia.
  - destruct (_ <=? 971); reflexivity.
Qed.

Lemma binary_round_sign_bit (s : bool) (m : positive) (e : Z) :
  SFsign (binary_round prec emax s m e) = Some s.
Proof.
  unfold binary_round.
  destruct (shl_align m e (fexp prec emax (Zpos (digits2_pos m) + e)))
    as [mz ez].
  apply binary_round_aux_sign_some. lia.
Qed.

(** The quotient of two finite doubles carries the product of the
    signs. *)
Lemma SFdiv_finite_sign (sx sy : bool) (mx my : positive) (ex ey : Z) :
  SFsign (SF64div (S754_finite sx mx ex) (S754_finite sy my ey))
  = Some (xorb sx sy).
Proof.
  unfold SF64div, SFdiv, SFdiv_core_binary.
  set (m' := match _ - _ - _ with
             | 0 => Zpos mx
             | Zpos _ => Z.shiftl (Zpos mx) _
             | Zneg _ => 0
             end).
  assert (Hm' : 0 <= m').
  { unfold m'.
    destruct (_ - _ - _) as [ | p | p ]; [ lia | | lia ].
    apply Z.shiftl_nonneg. lia. }
  pose proof (Z_div_mod m' (Zpos my) ltac:(reflexivity)) as Hdiv.
  destruct (Z.div_eucl m' (Zpos my)) as [q r].
  destruct Hdiv as [Hqr Hr].
  apply binary_round_aux_sign_some. nia.
Qed.

(** The sign of a quotient that is a number is the product of the signs
    of its operands, which are numbers too. *)
Lemma SFdiv_sign (x y : spec_float) (s : bool) :
  SFsign (SF64div x y) = Some s ->
  exists sx sy, SFsign x = Some sx /\ SFsign y = Some sy /\ s = xorb sx sy.
Proof.
  destruct x as [sx | sx | | sx mx ex], y as [sy | sy | | sy my ey];
    try discriminate;
    try (intros [= <-]; exists sx, sy; repeat split; fail).
  rewrite SFdiv_finite_sign. intros [= <-]. exists sx, sy. repeat split.
Qed.

(** The sign of [1 - y] for [y] below and above 1. *)
Lemma SFsub_one_sign (y : spec_float) :
  valid_binary y = true ->
  (SFltb y (S754_finite false 4503599627370496 (-52)) = true ->
   SFsign (SF64sub (S754_finite false 4503599627370496 (-52)) y) = Some false)
  /\ (SFltb (S754_finite false 4503599627370496 (-52)) y = true ->
      SFsign (SF64sub (S754_finite false 4503599627370496 (-52)) y) = Some true).
Proof.
  intros Hv. destruct y as [sy | sy | | sy my ey].
  - split; [ reflexivity | destruct sy; discriminate ].
  - destruct sy; split; try reflexivity; discriminate.
  - split; discriminate.
  - unfold valid_binary, SpecFloat.valid_binary, bounded, canonical_mantissa in Hv.
    apply andb_true_iff in Hv as [Hc _]. apply Z.eqb_eq in Hc.
    rewrite fexp_53 in Hc. unfold fexp53 in Hc.
    pose proof (digits2_bounds my) as [Hlo Hhi].
    set (d := Zpos (digits2_pos my)) in *.
    unfold SF64sub, SFsub.
    pose proof (shl_align_spec 4503599627370496 (-52) (Z.min (-52) ey)) as [Ha _].
    pose proof (shl_align_spec my ey (Z.min (-52) ey)) as [Hb _].
    set (a := fst (shl_align 4503599627370496 (-52) (Z.min (-52) ey))) in *.
    set (b := fst (shl_align my ey (Z.min (-52) ey))) in *.
    replace (Z.min (-52) (Z.min (-52) ey)) with (Z.min (-52) ey) in Ha by lia.
    replace (Z.min ey (Z.min (-52) ey)) with (Z.min (-52) ey) in Hb by lia.
    cbn [cond_Zopp].
    assert (Hsign : forall D, D <> 0 ->
              SFsign (binary_normalize prec emax D (Z.min (-52) ey) false)
              = Some (D <? 0)).
    { intros [ | p | p ] HD; [ contradiction | | ];
        cbn [binary_normalize]; apply binary_round_sign_bit. }
    unfold SFltb, SFcompare.
    split.
    + intros Hlt.
      assert (HD : 0 < Zpos a - cond_Zopp sy (Zpos b)).
      { destruct sy; cbn [cond_Zopp]; [ lia | ].
        destruct (Z.compare_spec ey (-52)) as [He | He | He];
          try discriminate Hlt.
        - subst ey. change (Z.min (-52) (-52)) with (-52) in Ha, Hb.
          change (2 ^ (-52 - -52)) with 1 in Ha, Hb.
          destruct (Pos.compare_cont Eq my 4503599627370496) eqn:Hcmp;
            try discriminate Hlt.
          apply Pos2Z.pos_lt_pos in Hcmp. lia.
        - replace (Z.min (-52) ey) with ey in Ha, Hb by lia.
          rewrite Z.sub_diag, Z.pow_0_r, Z.mul_1_r in Hb.
          assert (Hd53 : d <= 53) by lia.
          assert (H1 : 2 ^ d <= 2 ^ 53) by (apply Z.pow_le_mono_r; lia).
          assert (H2 : 2 ^ 1 <= 2 ^ (-52 - ey))
            by (apply Z.pow_le_mono_r; lia).
          change (2 ^ 1) with 2 in H2.
          change (2 ^ 53) with 9007199254740992 in H1.
          nia. }
      rewrite Hsign by lia.
      destruct (Z.ltb_spec (Zpos a - cond_Zopp sy (Zpos b)) 0);
        [ lia | reflexivity ].
    + intros Hlt. destruct sy; [ discriminate Hlt | ]. cbn [cond_Zopp].
      assert (HD : Zpos a - Zpos b < 0).
      { destruct (Z.compare_spec (-52) ey) as [He | He | He];
          try discriminate Hlt.
        - subst ey. change (Z.min (-52) (-52)) with (-52) in Ha, Hb.
          change (2 ^ (-52 - -52)) with 1 in Ha, Hb.
          destruct (Pos.compare_cont Eq 4503599627370496 my) eqn:Hcmp;
            try discriminate Hlt.
          apply Pos2Z.pos_lt_pos in Hcmp. lia.
        - replace (Z.min (-52) ey) with (-52) in Ha, Hb by lia.
          change (2 ^ (-52 - -52)) with 1 in Ha.
          assert (Hd53 : d = 53) by lia. rewrite Hd53 in Hlo.
          change (2 ^ (53 - 1)) with 4503599627370496 in Hlo.
          assert (H2 : 2 ^ 1 <= 2 ^ (ey - -52))
            by (apply Z.pow_le_mono_r; lia).
          change (2 ^ 1) with 2 in H2.
          nia. }
      rewrite Hsign by lia.
      destruct (Z.ltb_spec (Zpos a - Zpos b) 0); [ reflexivity | lia ].
Qed.

(** The quotient of a double above 100 by 100 is a double that is at
    least 1. *)
Lemma SFdiv_hundred_above_shape (mp : positive) (ep : Z) :
  bounded prec emax mp ep = true ->
  -46 < ep \/ (ep = -46 /\ 7036874417766400 < Zpos mp) ->
  exists pm E,
    SF64div (S754_finite false mp ep) (S754_finite false 7036874417766400 (-46))
    = S754_finite false pm E
    /\ -52 <= E /\ 4503599627370496 <= Zpos pm.
Proof.
  intros Hb Hgt.
  unfold bounded, canonical_mantissa in Hb.
  apply andb_true_iff in Hb as [Hc Hemax]. apply Z.eqb_eq in Hc.
  apply Z.leb_le in Hemax. change (emax - prec) with 971 in Hemax.
  rewrite fexp_53 in Hc. unfold fexp53 in Hc.
  assert (Hd : Zpos (digits2_pos mp) = 53) by lia.
  pose proof (digits2_bounds mp) as [Hmlo Hmhi].
  rewrite Hd in Hmlo, Hmhi.
  change (2 ^ (53 - 1)) with 4503599627370496 in Hmlo.
  change (2 ^ 53) with 9007199254740992 in Hmhi.
  unfold SF64div, SFdiv, SFdiv_core_binary. cbn [xorb Zdigits2].
  change (Zpos (digits2_pos 7036874417766400)) with 53. rewrite Hd.
  rewrite fexp_53. unfold fexp53.
  replace (Z.min (Z.max (53 + ep - (53 + -46) - 53) (-1074)) (ep - -46))
    with (ep - 7) by lia.
  replace (ep - -46 - (ep - 7)) with 53 by lia.
  rewrite Z.shiftl_mul_pow2 by lia.
  change (2 ^ 53) with 9007199254740992.
  pose proof (Z_div_mod (Zpos mp * 9007199254740992) (Zpos 7036874417766400)
                ltac:(reflexivity)) as Hdiv.
  destruct (Z.div_eucl (Zpos mp * 9007199254740992) (Zpos 7036874417766400))
    as [q r].
  destruct Hdiv as [Hqr Hr].
  assert (Hqlo : 5764607523034234 <= q) by lia.
  assert (Hqhi : q < 18014398509481984) by lia.
  destruct (binary_round_aux_shape false q (ep - 7)
              (new_location (Zpos 7036874417766400) r) ltac:(lia))
    as (c & Hc01 & Heq).
  cbv zeta in Heq. rewrite Heq. clear Heq.
  assert (He'lo : -1074 <= ep - 7) by lia.
  rewrite (shift_amount (Zdigits2 q) (ep - 7) He'lo).
  set (D := Zdigits2 q) in *.
  assert (HD : (q < 9007199254740992 /\ D = 53)
               \/ (9007199254740992 <= q /\ D = 54)).
  { destruct (Z.lt_ge_cases q 9007199254740992) as [Hlt | Hge];
      [ left | right ]; (split; [ assumption | ]);
      [ apply Zdigits2_53 | apply Zdigits2_54 ]; lia. }
  set (m1 := q / 2 ^ Z.max 0 (D - 53)) in *.
  assert (Hm1 : (D = 53 -> m1 = q) /\ (D = 54 -> m1 = q / 2)).
  { split; intros HDv; unfold m1; rewrite HDv.
    - change (2 ^ Z.max 0 (53 - 53)) with 1. apply Z.div_1_r.
    - reflexivity. }
  assert (Hm1b : 4503599627370496 <= m1 < 9007199254740992).
  { destruct Hm1 as [H53 H54].
    destruct HD as [[Hlt HDv] | [Hge HDv]].
    - rewrite (H53 HDv). lia.
    - rewrite (H54 HDv).
      pose proof (Z.mul_div_le q 2 ltac:(lia)).
      pose proof (Z.mul_succ_div_gt q 2 ltac:(lia)). lia. }
  assert (He1lo : -1074 <= ep - 7 + Z.max 0 (D - 53)) by lia.
  rewrite (shift_amount (Zdigits2 (m1 + c)) _ He1lo).
  set (D2 := Zdigits2 (m1 + c)) in *.
  assert (HD2 : (m1 + c < 9007199254740992 /\ D2 = 53)
                \/ (m1 + c = 9007199254740992 /\ D2 = 54)).
  { destruct (Z.lt_ge_cases (m1 + c) 9007199254740992) as [Hlt | Hge];
      [ left | right ]; (split; [ lia | ]);
      [ apply Zdigits2_53 | apply Zdigits2_54 ]; lia. }
  assert (HE : -52 <= ep - 7 + Z.max 0 (D - 53)).
  { destruct Hgt as [Hgt | [Hep Hgt]]; [ lia | ].
    destruct HD as [[Hlt HDv] | [Hge HDv]]; lia. }
  assert (HM : 4503599627370496
               <= (m1 + c) / 2 ^ Z.max 0 (D2 - 53) < 9007199254740992).
  { destruct HD2 as [[Hlt HD2v] | [Heq2 HD2v]]; rewrite HD2v.
    - change (2 ^ Z.max 0 (53 - 53)) with 1. rewrite Z.div_1_r. lia.
    - rewrite Heq2. change (2 ^ Z.max 0 (54 - 53)) with 2.
      change (9007199254740992 / 2) with 4503599627370496. lia. }
  unfold rnd_result.
  destruct ((m1 + c) / 2 ^ Z.max 0 (D2 - 53)) as [ | pm | pm ]; try lia.
  assert (HEmax : ep - 7 + Z.max 0 (D - 53) + Z.max 0 (D2 - 53) <= 971).
  { destruct HD as [[_ HDv] | [_ HDv]], HD2 as [[_ HD2v] | [_ HD2v]]; lia. }
  destruct (Z.leb_spec (ep - 7 + Z.max 0 (D - 53) + Z.max 0 (D2 - 53)) 971);
    [ | lia ].
  eexists _, _. split; [ reflexivity | ]. lia.
Qed.

Lemma SFdiv_hundred_above (mp : positive) (ep : Z) :
  bounded prec emax mp ep = true ->
  -46 < ep \/ (ep = -46 /\ 7036874417766400 < Zpos mp) ->
  SFltb (S754_finite false 4503599627370496 (-52))
    (SF64div (S754_finite false mp ep)
       (S754_finite false 7036874417766400 (-46))) = true.
Proof.
  intros Hb Hgt.
  pose proof (SFdiv_hundred_gt_one mp ep Hb Hgt) as Hne.
  destruct (SFdiv_hundred_above_shape mp ep Hb Hgt)
    as (pm & E & Heq & HE & Hpm).
  rewrite Heq in Hne |- *. unfold SFltb, SFcompare.
  destruct (Z.compare_spec (-52) E) as [He | He | He];
    [ | reflexivity | lia ].
  subst E.
  destruct (Pos.compare_cont Eq 4503599627370496 pm) eqn:Hcmp.
  - apply Pos.compare_eq in Hcmp. subst pm. contradiction.
  - reflexivity.
  - apply Pos.compare_gt_iff, Pos2Z.pos_lt_pos in Hcmp.
    exfalso. revert Hcmp. apply Z.le_ngt. exact Hpm.
Qed.

(** The quotient of a positive double below 100 by 100 rounds to a zero
    or to a double whose exponent is below that of 1. *)
Lemma SFdiv_hundred_below_shape (mp : positive) (ep : Z) :
  bounded prec emax mp ep = true ->
  ep < -46 \/ (ep = -46 /\ Zpos mp < 7036874417766400) ->
  exists M E,
    SF64div (S754_finite false mp ep) (S754_finite false 7036874417766400 (-46))
    = rnd_result false M E
    /\ 0 <= M /\ (0 < M -> E <= -53).
Proof.
  intros Hb Hlt.
  unfold bounded, canonical_mantissa in Hb.
  apply andb_true_iff in Hb as [Hc _]. apply Z.eqb_eq in Hc.
  rewrite fexp_53 in Hc. unfold fexp53 in Hc.
  assert (Hd : 1 <= Zpos (digits2_pos mp) <= 53) by lia.
  pose proof (digits2_bounds mp) as [Hmlo Hmhi].
  set (d := Zpos (digits2_pos mp)) in *.
  unfold SF64div, SFdiv, SFdiv_core_binary. cbn [xorb Zdigits2].
  change (Zpos (digits2_pos 7036874417766400)) with 53. fold d.
  rewrite fexp_53. unfold fexp53.
  set (e' := Z.min (Z.max (d + ep - (53 + -46) - 53) (-1074)) (ep - -46)).
  assert (He' : e' = Z.max (d + ep - 60) (-1074)) by (unfold e'; lia).
  set (s := ep - -46 - e').
  assert (Hs : 46 <= s) by lia.
  destruct s as [ | ps | ps ] eqn:Hps; try lia.
  rewrite Z.shiftl_mul_pow2 by lia. rewrite <- Hps.
  pose proof (Z_div_mod (Zpos mp * 2 ^ s) (Zpos 7036874417766400) ltac:(reflexivity))
    as Hdiv.
  destruct (Z.div_eucl (Zpos mp * 2 ^ s) (Zpos 7036874417766400)) as [q r].
  destruct Hdiv as [Hqr Hr].
  assert (Hq0 : 0 <= q).
  { assert (0 < 2 ^ s) by (apply Z.pow_pos_nonneg; lia).
    nia. }
  destruct (binary_round_aux_shape false q e' (new_location (Zpos 7036874417766400) r) Hq0)
    as (c & Hc01 & Heq).
  cbv zeta in Heq. rewrite Heq. clear Heq.
  assert (He'lo : -1074 <= e') by lia.
  rewrite (shift_amount (Zdigits2 q) e' He'lo).
  pose proof (shifted_lt q Hq0) as Hm1.
  pose proof (Zdigits2_nonneg q) as HD.
  set (D := Zdigits2 q) in *.
  set (m1 := q / 2 ^ Z.max 0 (D - 53)) in *.
  assert (He1lo : -1074 <= e' + Z.max 0 (D - 53)) by lia.
  rewrite (shift_amount (Zdigits2 (m1 + c)) _ He1lo).
  assert (Hm2 : 0 <= m1 + c <= 2 ^ 53) by lia.
  assert (HD2 : 0 <= Zdigits2 (m1 + c) <= 54).
  { split; [ apply Zdigits2_nonneg | ].
    apply Zdigits2_le; [ lia | lia | ].
    change (2 ^ 54) with (2 * 2 ^ 53). lia. }
  set (D2 := Zdigits2 (m1 + c)) in *.
  eexists _, _. split; [ reflexivity | ].
  split; [ apply Z.div_pos; [ lia | apply Z.pow_pos_nonneg; lia ] | ].
  intros _.
  match goal with
  | |- ?Y <= -53 =>
      destruct (Z.le_gt_cases Y (-53)) as [ | Hexp ];
      [ assumption | exfalso ]
  end.
  assert (Hsdef : s = ep + 46 - e') by (unfold s; lia).
  assert (HqD : 0 < q -> D + 52 <= d + s).
  { intros Hqpos. pose proof (Zdigits2_bounds q Hqpos) as [Hlo _]. fold D in Hlo.
    assert (Hpos52 : 0 < 2 ^ 52) by reflexivity.
    assert (H1 : 2 ^ (D - 1) * 2 ^ 52 < 2 ^ d * 2 ^ s).
    { apply Z.le_lt_trans with (Zpos mp * 2 ^ s).
      - rewrite Hqr. change (2 ^ 52) with 4503599627370496. nia.
      - apply Z.mul_lt_mono_pos_r; [ apply Z.pow_pos_nonneg; lia | exact Hmhi ]. }
    assert (HDpos : 0 < D) by (apply Zdigits2_pos; exact Hqpos).
    rewrite <- !Z.pow_add_r in H1 by lia.
    apply Z.pow_lt_mono_r_iff in H1; lia. }
  assert (HD0 : q = 0 -> D = 0) by (intros ->; reflexivity).
  assert (HD2hi : D2 = 54 -> 2 ^ 53 <= m1 + c).
  { intros H54. destruct (Z.eq_dec (m1 + c) 0) as [Hz | Hnz].
    - unfold D2 in H54. rewrite Hz in H54. discriminate H54.
    - pose proof (Zdigits2_bounds (m1 + c) ltac:(lia)) as [Hlo _].
      fold D2 in Hlo. rewrite H54 in Hlo. exact Hlo. }
  change (2 ^ 53) with 9007199254740992 in *.
  destruct Hlt as [Hlt | [Heq Hlt]].
  - (* below 64: the exponent of the quotient is too small *)
    assert (HD54 : 54 <= D) by lia.
    assert (Hqpos : 0 < q) by lia.
    specialize (HqD Hqpos).
    assert (d = 53 /\ ep = -47 /\ e' = -54 /\ D = 54 /\ s = 53 /\ D2 = 54)
      as (Hd53 & Hep & He54 & HD54' & Hs53 & HD2') by lia.
    specialize (HD2hi HD2').
    assert (Hm1' : 9007199254740991 <= m1) by lia.
    unfold m1 in Hm1'. rewrite HD54' in Hm1'.
    change (2 ^ Z.max 0 (54 - 53)) with 2 in Hm1'.
    assert (Hq54 : 18014398509481982 <= q).
    { pose proof (Z.mul_div_le q 2 ltac:(lia)). lia. }
    rewrite Hs53 in Hqr. rewrite Hd53 in Hmhi.
    change (2 ^ 53) with 9007199254740992 in *.
    lia.
  - (* between 64 and 100 *)
    assert (d = 53 /\ e' = -53 /\ s = 53) as (Hd53 & He53 & Hs53) by lia.
    rewrite Hs53 in Hqr. change (2 ^ 53) with 9007199254740992 in Hqr.
    assert (Hq : q <= 9007199254740990) by lia.
    assert (HD53 : D <= 53).
    { apply Zdigits2_le; [ lia | lia | ].
      change (2 ^ 53) with 9007199254740992. lia. }
    assert (Hm1q : m1 = q).
    { unfold m1. replace (Z.max 0 (D - 53)) with 0 by lia.
      rewrite Z.pow_0_r, Z.div_1_r. reflexivity. }
    assert (HD2' : D2 <= 53).
    { apply Zdigits2_le; [ lia | lia | ].
      change (2 ^ 53) with 9007199254740992. lia. }
    lia.
Qed.

Lemma SFdiv_hundred_below (mp : positive) (ep : Z) :
  bounded prec emax mp ep = true ->
  ep < -46 \/ (ep = -46 /\ Zpos mp < 7036874417766400) ->
  SFltb (SF64div (S754_finite false mp ep)
           (S754_finite false 7036874417766400 (-46)))
    (S754_finite false 4503599627370496 (-52)) = true.
Proof.
  intros Hb Hlt.
  destruct (SFdiv_hundred_below_shape mp ep Hb Hlt) as (M & E & -> & HM & HE).
  unfold rnd_result. destruct M as [ | pm | pm ]; [ reflexivity | | lia ].
  specialize (HE ltac:(lia)).
  destruct (Z.leb_spec E 971); [ | lia ].
  unfold SFltb, SFcompare.
  destruct (Z.compare_spec E (-52)) as [He | He | He];
    [ lia | reflexivity | lia ].
Qed.

(** Dividing by 100 keeps a double on its side of 1. *)
Lemma div_hundred_side (pct : float) :
  ((pct <? 100)%float = true -> (pct / 100 <? 1)%float = true)
  /\ ((100 <? pct)%float = true -> (1 <? pct / 100)%float = true).
Proof.
  rewrite !ltb_spec, div_spec.
  change (Prim2SF 100) with (S754_finite false 7036874417766400 (-46)).
  change (Prim2SF 1) with (S754_finite false 4503599627370496 (-52)).
  pose proof (Prim2SF_valid pct) as Hv.
  destruct (Prim2SF pct) as [sp | sp | | sp mp ep].
  - split; [ destruct sp; reflexivity | destruct sp; discriminate ].
  - destruct sp; split; try reflexivity; discriminate.
  - split; discriminate.
  - destruct sp.
    + split; [ intros _ | discriminate ].
      pose proof (SFdiv_finite_sign true false mp 7036874417766400 ep (-46))
        as Hs.
      destruct (SF64div (S754_finite true mp ep)
                  (S754_finite false 7036874417766400 (-46)))
        as [s | s | | s m e]; cbn [SFsign xorb] in Hs;
        try discriminate Hs; injection Hs as ->; reflexivity.
    + unfold SFltb at 1 3. unfold SFcompare.
      split; intros H.
      * apply SFdiv_hundred_below; [ exact Hv | ].
        destruct (Z.compare_spec ep (-46)) as [He | He | He];
          [ right | left; exact He | discriminate H ].
        split; [ exact He | ].
        destruct (Pos.compare_cont Eq mp 7036874417766400) eqn:Hcmp;
          try discriminate H.
        apply Pos2Z.pos_lt_pos. exact Hcmp.
      * apply SFdiv_hundred_above; [ exact Hv | ].
        destruct (Z.compare_spec (-46) ep) as [He | He | He];
          [ right | left; exact He | discriminate H ].
        split; [ symmetry; exact He | ].
        destruct (Pos.compare_cont Eq 7036874417766400 mp) eqn:Hcmp;
          try discriminate H.
        apply Pos2Z.pos_lt_pos. exact Hcmp.
Qed.

(** A double that is a number is below, equal to or above 100, and only
    one of the three. *)
Lemma hundred_cases (pct : float) :
  Prim2SF pct = S754_nan
  \/ ((pct <? 100)%float = true /\ (100 <? pct)%float = false)
  \/ (pct =? 100)%float = true
  \/ ((100 <? pct)%float = true /\ (pct <? 100)%float = false).
Proof.
  rewrite !ltb_spec, FloatAxioms.eqb_spec.
  change (Prim2SF 100) with (S754_finite false 7036874417766400 (-46)).
  destruct (Prim2SF pct) as [s | s | | s m e].
  - right. left. destruct s; split; reflexivity.
  - destruct s; [ right; left | right; right; right ]; split; reflexivity.
  - left. reflexivity.
  - right. destruct s; [ left; split; reflexivity | ].
    unfold SFltb, SFeqb, SFcompare.
    rewrite (Z.compare_antisym e (-46)).
    assert (Hanti : Pos.compare_cont Eq 7036874417766400 m
                    = CompOpp (Pos.compare_cont Eq m 7036874417766400))
      by (rewrite Pos.compare_cont_antisym; reflexivity).
    rewrite Hanti.
    destruct (e ?= -46); cbn [CompOpp];
      [ destruct (Pos.compare_cont Eq m 7036874417766400); cbn [CompOpp] | | ];
      tauto.
Qed.

(** The sign of the divisor [1 - pct / 100] when it is a number other than
    zero: negative exactly when [pct] is above 100. *)
Lemma divisor_sign (pct : float) (sd : bool) :
  SFsign (Prim2SF (1 - pct / 100)) = Some sd ->
  PrimFloat.is_zero (1 - pct / 100) = false ->
  sd = (100 <? pct)%float.
Proof.
  intros Hs Hz. rewrite one_minus_percent_is_zero in Hz.
  rewrite sub_spec in Hs.
  change (Prim2SF 1) with (S754_finite false 4503599627370496 (-52)) in Hs.
  destruct (SFsub_one_sign (Prim2SF (pct / 100)) (Prim2SF_valid _))
    as [Hbelow Habove].
  destruct (div_hundred_side pct) as [Hlt Hgt].
  rewrite !ltb_spec in Hlt, Hgt.
  change (Prim2SF 1) with (S754_finite false 4503599627370496 (-52))
    in Hlt, Hgt.
  destruct (hundred_cases pct) as [Hnan | [[H1 H2] | [Heq | [H1 H2]]]].
  - rewrite div_spec, Hnan in Hs. discriminate Hs.
  - rewrite ltb_spec in H1. rewrite H2.
    rewrite (Hbelow (Hlt H1)) in Hs. congruence.
  - congruence.
  - rewrite H1. rewrite ltb_spec in H1.
    rewrite (Habove (Hgt H1)) in Hs. congruence.
Qed.

(** The integer part of a double, converted back, keeps its sign. *)
Lemma float_of_int_sign (x : float) (n : Z) (y : float) :
  Py.int x = inr n -> n <> 0 -> Py.float_of_int n = inr y ->
  sign_bit y = Some (n <? 0).
Proof.
  unfold Py.int, Py.ret, Py.raise.
  pose proof (Prim2SF_valid x) as Hv.
  destruct (Prim2SF x) as [s | s | | s m e]; try discriminate.
  - intros [= <-] Hn. congruence.
  - intros [= <-] Hn.
    destruct (binary_normalize_trunc s m e Hv Hn) as (m' & e' & Hbn & Hb).
    unfold Py.float_of_int. rewrite Hbn.
    destruct (finite_not_special s m' e' Hb) as [Hinf _]. rewrite Hinf.
    intros Hy. unfold Py.ret in Hy. cbv beta iota zeta in Hy.
    assert (Hy' : SF2Prim (S754_finite s m' e') = y) by congruence.
    rewrite <- Hy'. unfold sign_bit. rewrite Prim2SF_SF2Prim by exact Hb.
    cbn [SFsign]. f_equal.
    assert (Hpos : 0 <= Z.shiftl (Zpos m) e) by (apply Z.shiftl_nonneg; lia).
    destruct s; cbn [cond_Zopp] in *.
    + symmetry. apply Z.ltb_lt. lia.
    + symmetry. apply Z.ltb_ge. lia.
Qed.

End FloatCases.

(** ** Further properties of the calculator *)

(** With the six fields present, the body of the [try] block comes down
    to three tests: the conversion of the zone count, the divisor
    [1 - EVAP_LOSS], and the zone count as a divisor. *)
Lemma design_body_present
    (inputs : gmap string float) (L W ET pct zones P : float) :
  inputs !! "Field Length EW (m)" = Some L ->
  inputs !! "Field Width NS (m)" = Some W ->
  inputs !! "Design Crop ET (mm/day)" = Some ET ->
  inputs !! "Evaporation Loss (%)" = Some pct ->
  inputs !! "Number of Zones (N_EW x N_NS)" = Some zones ->
  inputs !! "End of Lateral Pressure (kPa)" = Some P ->
  design_body inputs
  = (n <- Py.int zones ;;
     if PrimFloat.is_zero (1 - pct / 100)
     then Py.raise (Py.ZeroDivisionError Py.float_division_by_zero)
     else
       y <- Py.float_of_int n ;;
       if PrimFloat.is_zero y
       then Py.raise (Py.ZeroDivisionError Py.float_division_by_zero)
       else Py.ret (design_of L W ET pct P n y)).
Proof.
  intros HL HW HET Hpct Hz HP.
  unfold design_body, Py.getitem, Py.truediv_int.
  change (Py.float_of_int (33 * 41)) with (@inr Py.exn float 1353%float).
  rewrite HL, HW, HET, Hpct, Hz, HP. cbn [Py.bind Py.ret].
  rewrite (truediv_ok pct 100) by reflexivity. cbn [Py.bind].
  destruct (Py.int zones) as [e | n]; cbn [Py.bind]; [ reflexivity | ].
  rewrite (truediv_ok ET 1000) by reflexivity. cbn [Py.bind].
  destruct (PrimFloat.is_zero (1 - pct / 100)) eqn:Hd.
  - unfold Py.truediv at 1. rewrite Hd. reflexivity.
  - rewrite !(truediv_ok _ (1 - pct / 100)) by exact Hd. cbn [Py.bind].
    rewrite (truediv_ok _ (24 * 3600)) by reflexivity. cbn [Py.bind].
    destruct (Py.float_of_int n) as [e | y]; cbn [Py.bind]; [ reflexivity | ].
    destruct (PrimFloat.is_zero y) eqn:Hy.
    + unfold Py.truediv at 1. rewrite Hy. reflexivity.
    + rewrite (truediv_ok _ y) by exact Hy. cbn [Py.bind].
      repeat (rewrite truediv_ok by reflexivity; cbn [Py.bind]).
      reflexivity.
Qed.

(** X1: the first absent field, in the order the body reads them, is the one
    reported. *)
Theorem first_missing_field_is_reported
    (inputs : gmap string float) (k : string) :
  List.find (absent inputs) read_fields = Some k ->
  (k = "End of Lateral Pressure (kPa)" ->
   forall zones, inputs !! "Number of Zones (N_EW x N_NS)" = Some zones ->
                 (abs zones <? infinity)%float = true) ->
  compute_irrigation_design inputs = ErrorDict ("'" +:+ k +:+ "'").
Proof.
  unfold compute_irrigation_design, design_body, Py.getitem.
  cbn [List.find read_fields]. unfold absent.
  destruct (inputs !! "Field Length EW (m)") as [L | ];
    [ | intros [= <-] _; reflexivity ].
  destruct (inputs !! "Field Width NS (m)") as [W | ];
    [ | intros [= <-] _; reflexivity ].
  destruct (inputs !! "Design Crop ET (mm/day)") as [ET | ];
    [ | intros [= <-] _; reflexivity ].
  destruct (inputs !! "Evaporation Loss (%)") as [pct | ];
    [ | intros [= <-] _; reflexivity ].
  cbn [Py.bind Py.ret].
  rewrite (truediv_ok pct 100) by reflexivity. cbn [Py.bind].
  destruct (inputs !! "Number of Zones (N_EW x N_NS)") as [zones | ];
    [ | intros [= <-] _; reflexivity ].
  destruct (inputs !! "End of Lateral Pressure (kPa)") as [P | ];
    [ discriminate | ].
  intros [= <-] Hfin. cbn [Py.bind Py.ret].
  specialize (Hfin eq_refl zones eq_refl).
  apply FloatCases.int_returns_iff in Hfin as [n Hn]. rewrite Hn. reflexivity.
Qed.

Lemma first_missing_field_is_reported_witness :
  compute_irrigation_design (delete "Design Crop ET (mm/day)" default_inputs)
  = ErrorDict "'Design Crop ET (mm/day)'"
  /\ compute_irrigation_design ∅ = ErrorDict "'Field Length EW (m)'"
  /\ compute_irrigation_design
       (delete "End of Lateral Pressure (kPa)" default_inputs)
     = ErrorDict "'End of Lateral Pressure (kPa)'".
Proof.
  split; [ | split ].
  - apply (first_missing_field_is_reported _ "Design Crop ET (mm/day)");
      [ vm_compute; reflexivity | discriminate ].
  - apply (first_missing_field_is_reported ∅ "Field Length EW (m)");
      [ vm_compute; reflexivity | discriminate ].
  - apply (first_missing_field_is_reported _ "End of Lateral Pressure (kPa)");
      [ vm_compute; reflexivity | ].
    intros _ zones Hz. vm_compute in Hz. injection Hz as <-.
    vm_compute. reflexivity.
Defined.

(** X2: a zone count that is NaN or infinite is reported with the text of
    the failed conversion, whatever the evaporation loss and whether or not
    the end pressure is present. *)
Theorem zone_count_must_be_finite
    (inputs : gmap string float) (L W ET pct zones : float) :
  inputs !! "Field Length EW (m)" = Some L ->
  inputs !! "Field Width NS (m)" = Some W ->
  inputs !! "Design Crop ET (mm/day)" = Some ET ->
  inputs !! "Evaporation Loss (%)" = Some pct ->
  inputs !! "Number of Zones (N_EW x N_NS)" = Some zones ->
  (PrimFloat.is_nan zones = true ->
   compute_irrigation_design inputs = ErrorDict cannot_convert_nan)
  /\ (PrimFloat.is_infinity zones = true ->
      compute_irrigation_design inputs = ErrorDict cannot_convert_infinity).
Proof.
  intros HL HW HET Hpct Hz.
  unfold compute_irrigation_design, design_body, Py.getitem.
  rewrite HL, HW, HET, Hpct, Hz. cbn [Py.bind Py.ret].
  rewrite (truediv_ok pct 100) by reflexivity. cbn [Py.bind].
  split; intros H;
    [ rewrite (FloatCases.int_nan zones H) | rewrite (FloatCases.int_infinity zones H) ];
    reflexivity.
Qed.

Lemma zone_count_must_be_finite_witness :
  compute_irrigation_design
    (form_inputs 500 400 15 100 24 6.1 6.1 nan 103)
  = ErrorDict cannot_convert_nan
  /\ compute_irrigation_design
       (delete "End of Lateral Pressure (kPa)"
          (form_inputs 500 400 15 12 24 6.1 6.1 neg_infinity 103))
     = ErrorDict cannot_convert_infinity.
Proof.
  split.
  - apply (zone_count_must_be_finite _ 500 400 15 100 nan);
      vm_compute; reflexivity.
  - apply (zone_count_must_be_finite _ 500 400 15 12 neg_infinity);
      vm_compute; reflexivity.
Defined.

(** X3: with the six fields present, the calculator returns results
    exactly when the evaporation loss is not 100 and the zone count is
    finite with magnitude at least 1, whatever the other four fields hold
    (negative numbers, infinities and NaN included). *)
Theorem results_exactly_on_domain
    (inputs : gmap string float) (L W ET pct zones P : float) :
  inputs !! "Field Length EW (m)" = Some L ->
  inputs !! "Field Width NS (m)" = Some W ->
  inputs !! "Design Crop ET (mm/day)" = Some ET ->
  inputs !! "Evaporation Loss (%)" = Some pct ->
  inputs !! "Number of Zones (N_EW x N_NS)" = Some zones ->
  inputs !! "End of Lateral Pressure (kPa)" = Some P ->
  (exists r, compute_irrigation_design inputs = Results r)
  <-> (pct =? 100)%float = false
      /\ (1 <=? abs zones)%float = true
      /\ (abs zones <? infinity)%float = true.
Proof.
  intros HL HW HET Hpct Hz HP. split.
  - intros [r Hr]. apply compute_results_inv in Hr.
    destruct Hr as [L' W' ET' pct' zones' P' n y
                      _ _ _ Hpct' Hz' _ Hint Hconv Hd Hy].
    assert (pct' = pct) by congruence. assert (zones' = zones) by congruence.
    subst pct' zones'.
    rewrite FloatCases.one_minus_percent_is_zero in Hd.
    split; [ exact Hd | ].
    apply FloatCases.int_nonzero_iff. exists n. split; [ exact Hint | ].
    intros ->. rewrite FloatCases.float_of_int_zero in Hconv.
    injection Hconv as <-. discriminate Hy.
  - intros (Hpct100 & Hone & Hfin).
    destruct (proj2 (FloatCases.int_nonzero_iff zones) (conj Hone Hfin))
      as (n & Hint & Hn).
    destruct (float_of_int_of_int zones n Hint Hn) as (y & Hconv & Hy).
    exists (design_of L W ET pct P n y).
    apply compute_results_intro. econstructor; try eassumption.
    rewrite FloatCases.one_minus_percent_is_zero. exact Hpct100.
Qed.

Lemma results_exactly_on_domain_witness :
  ((exists r, compute_irrigation_design default_inputs = Results r)
   <-> (12 =? 100)%float = false
       /\ (1 <=? abs 4)%float = true
       /\ (abs 4 <? infinity)%float = true)
  /\ ((exists r, compute_irrigation_design
                   (form_inputs 500 400 15 12 24 6.1 6.1 0.99 103) = Results r)
      <-> (12 =? 100)%float = false
          /\ (1 <=? abs 0.99)%float = true
          /\ (abs 0.99 <? infinity)%float = true).
Proof.
  split.
  - apply (results_exactly_on_domain default_inputs 500 400 15 12 4 103);
      vm_compute; reflexivity.
  - apply (results_exactly_on_domain _ 500 400 15 12 0.99 103);
      vm_compute; reflexivity.
Defined.

(** X4: whatever the input record, the text under "error" is one of nine:
    the quoted name of one of the six fields read, the text of a float
    division by zero, or the text of a failed conversion of the zone
    count. *)
Theorem error_message_is_known (inputs : gmap string float) (msg : string) :
  compute_irrigation_design inputs = ErrorDict msg ->
  msg ∈ error_messages.
Proof.
  unfold error_messages, read_fields. cbn [map app].
  destruct (inputs !! "Field Length EW (m)") as [L | ] eqn:HL.
  2: { unfold compute_irrigation_design, design_body, Py.getitem.
       rewrite HL. intros [= <-]. set_solver. }
  destruct (inputs !! "Field Width NS (m)") as [W | ] eqn:HW.
  2: { unfold compute_irrigation_design, design_body, Py.getitem.
       rewrite HL, HW. intros [= <-]. set_solver. }
  destruct (inputs !! "Design Crop ET (mm/day)") as [ET | ] eqn:HET.
  2: { unfold compute_irrigation_design, design_body, Py.getitem.
       rewrite HL, HW, HET. intros [= <-]. set_solver. }
  destruct (inputs !! "Evaporation Loss (%)") as [pct | ] eqn:Hpct.
  2: { unfold compute_irrigation_design, design_body, Py.getitem.
       rewrite HL, HW, HET, Hpct. intros [= <-]. set_solver. }
  destruct (inputs !! "Number of Zones (N_EW x N_NS)") as [zones | ] eqn:Hz.
  2: { unfold compute_irrigation_design, design_body, Py.getitem.
       rewrite HL, HW, HET, Hpct, Hz. cbn [Py.bind Py.ret].
       rewrite (truediv_ok pct 100) by reflexivity. cbn [Py.bind].
       intros [= <-]. set_solver. }
  destruct (inputs !! "End of Lateral Pressure (kPa)") as [P | ] eqn:HP.
  2: { unfold compute_irrigation_design, design_body, Py.getitem.
       rewrite HL, HW, HET, Hpct, Hz, HP. cbn [Py.bind Py.ret].
       rewrite (truediv_ok pct 100) by reflexivity. cbn [Py.bind].
       unfold Py.int.
       destruct (Prim2SF zones) as [s | s | | s m e];
         cbn [Py.bind Py.ret Py.raise]; intros [= <-]; set_solver. }
  unfold compute_irrigation_design.
  rewrite (design_body_present inputs L W ET pct zones P HL HW HET Hpct Hz HP).
  destruct (Py.int zones) as [e | n] eqn:Hint; cbn [Py.bind].
  { revert Hint. unfold Py.int.
    destruct (Prim2SF zones) as [s | s | | s m e'];
      cbn [Py.ret Py.raise]; intros [= <-]; intros [= <-]; set_solver. }
  destruct (PrimFloat.is_zero (1 - pct / 100)).
  { intros [= <-]. set_solver. }
  destruct (Z.eq_dec n 0) as [-> | Hn].
  - rewrite FloatCases.float_of_int_zero. cbn [Py.bind].
    change (PrimFloat.is_zero 0) with true. intros [= <-]. set_solver.
  - destruct (float_of_int_of_int zones n Hint Hn) as (y & Hconv & Hy).
    rewrite Hconv. cbn [Py.bind]. rewrite Hy. discriminate.
Qed.

Lemma error_message_is_known_witness :
  "'Field Length EW (m)'" ∈ error_messages
  /\ Py.float_division_by_zero ∈ error_messages.
Proof.
  split.
  - apply (error_message_is_known ∅). vm_compute. reflexivity.
  - apply (error_message_is_known
             (form_inputs 500 400 15 100 24 6.1 6.1 4 103)).
    vm_compute. reflexivity.
Defined.

(** X5: the zone count of a result is the zone-count field rounded toward
    zero: a fractional part is dropped, not rounded. *)
Theorem zone_count_is_truncated
    (inputs : gmap string float) (r : results) (zones : float) :
  compute_irrigation_design inputs = Results r ->
  inputs !! "Number of Zones (N_EW x N_NS)" = Some zones ->
  exists q, float_to_Q zones = Some q /\ N_zones r = Qtruncate q.
Proof.
  intros Hr Hz.
  destruct (sprinklers_of_results inputs r Hr) as (_ & _ & zones' & Hz' & Hint).
  assert (zones' = zones) by congruence. subst zones'.
  apply FloatCases.int_truncates. exact Hint.
Qed.

Lemma zone_count_is_truncated_witness :
  (exists q, float_to_Q 3.99 = Some q
             /\ N_zones (design_of 500 400 15 12 103 3 3) = Qtruncate q)
  /\ (exists q, float_to_Q (-3.99) = Some q
                /\ N_zones (design_of 500 400 15 12 103 (-3) (-3))
                   = Qtruncate q).
Proof.
  split.
  - apply (zone_count_is_truncated
             (form_inputs 500 400 15 12 24 6.1 6.1 3.99 103));
      vm_compute; reflexivity.
  - apply (zone_count_is_truncated
             (form_inputs 500 400 15 12 24 6.1 6.1 (-3.99) 103));
      vm_compute; reflexivity.
Defined.



(** X7: the end-of-lateral pressure reaches four fields of the result and
    no other: the three heads and the brake horsepower.  Two successful
    runs that agree on the other five fields return the same value in each
    of the 22 remaining fields; two that agree on the pressure return the
    same three heads; and two that agree on the pressure and return the
    same zone flow return the same brake horsepower. *)
Theorem pressure_reaches_heads_and_power_only
    (i1 i2 : gmap string float) (r1 r2 : results) :
  compute_irrigation_design i1 = Results r1 ->
  compute_irrigation_design i2 = Results r2 ->
  (Forall (fun k => i1 !! k = i2 !! k)
     [ "Field Length EW (m)"; "Field Width NS (m)";
       "Design Crop ET (mm/day)"; "Evaporation Loss (%)";
       "Number of Zones (N_EW x N_NS)" ] ->
   apart_from_heads_and_power r1 = apart_from_heads_and_power r2)
  /\ (i1 !! "End of Lateral Pressure (kPa)"
      = i2 !! "End of Lateral Pressure (kPa)" ->
      hydraulic_heads r1 = hydraulic_heads r2
      /\ (Q_zone_GPM r1 = Q_zone_GPM r2 -> BHP r1 = BHP r2)).
Proof.
  intros H1 H2.
  apply compute_results_inv in H1, H2.
  destruct H1 as [L1 W1 ET1 pct1 zones1 P1 n1 y1 ? ? ? ? ? ? Hint1 Hconv1 _ _].
  destruct H2 as [L2 W2 ET2 pct2 zones2 P2 n2 y2 ? ? ? ? ? ? Hint2 Hconv2 _ _].
  split.
  - intros Hsame.
    repeat match goal with
           | H : Forall _ (_ :: _) |- _ => apply Forall_cons in H as [? H]
           end.
    assert (L1 = L2) by congruence. assert (W1 = W2) by congruence.
    assert (ET1 = ET2) by congruence. assert (pct1 = pct2) by congruence.
    assert (zones1 = zones2) by congruence. subst.
    assert (n1 = n2) by congruence. subst.
    assert (y1 = y2) by congruence. subst.
    reflexivity.
  - intros Hsame. assert (P1 = P2) by congruence. subst.
    split; [ reflexivity | ].
    fields. intros Hq. rewrite Hq. reflexivity.
Qed.

Lemma pressure_reaches_heads_and_power_only_witness :
  apart_from_heads_and_power (design_of 500 400 15 12 250 4 4)
  = apart_from_heads_and_power default_results
  /\ (BHP (design_of 500 400 15 12 250 4 4) =? BHP default_results)%float
     = false
  /\ hydraulic_heads (design_of 1 1 0 0 103 1 1)
     = hydraulic_heads default_results
  /\ (Q_zone_GPM (design_of 500 400 15 12 103 4 4)
      = Q_zone_GPM default_results ->
      BHP (design_of 500 400 15 12 103 4 4) = BHP default_results).
Proof.
  split; [ | split; [ vm_compute; reflexivity | split ] ].
  - apply (pressure_reaches_heads_and_power_only
             (form_inputs 500 400 15 12 24 6.1 6.1 4 250) default_inputs
             (design_of 500 400 15 12 250 4 4) default_results);
      [ vm_compute; reflexivity | exact default_run | ].
    repeat constructor.
  - apply (pressure_reaches_heads_and_power_only
             (form_inputs 1 1 0 0 24 6.1 6.1 1 103) default_inputs
             (design_of 1 1 0 0 103 1 1) default_results);
      [ vm_compute; reflexivity | exact default_run | ].
    reflexivity.
  - apply (pressure_reaches_heads_and_power_only
             default_inputs default_inputs
             (design_of 500 400 15 12 103 4 4) default_results);
      [ exact default_run | exact default_run | ].
    reflexivity.
Defined.

(** X14: whenever the pumped volume of a result is a number, its sign is
    that of the crop volume if the evaporation loss is below 100 and the
    opposite sign if it is above 100: an evaporation loss above 100 percent
    is not refused, it turns a positive demand into a negative pumped
    volume. *)
Theorem evaporation_above_100_flips_the_sign
    (inputs : gmap string float) (r : results) (pct : float) (s : bool) :
  compute_irrigation_design inputs = Results r ->
  inputs !! "Evaporation Loss (%)" = Some pct ->
  sign_bit (V_pump_m3_day r) = Some s ->
  sign_bit (V_crop_m3_day r) = Some (xorb s (100 <? pct)%float).
Proof.
  intros Hr Hpct Hs. apply compute_results_inv in Hr.
  destruct Hr as [L W ET pct' zones P n y _ _ _ Hpct' _ _ _ _ Hd _].
  assert (pct' = pct) by congruence. subst pct'.
  unfold sign_bit in *. revert Hs. fields. rewrite div_spec. intros Hs.
  apply FloatCases.SFdiv_sign in Hs as (sx & sd & Hx & Hsd & ->).
  rewrite Hx. rewrite (FloatCases.divisor_sign pct sd Hsd Hd).
  destruct sx, (100 <? pct)%float; reflexivity.
Qed.

Lemma evaporation_above_100_flips_the_sign_witness :
  sign_bit (V_crop_m3_day (design_of 500 400 15 150 103 4 4))
  = Some (xorb true (100 <? 150)%float)
  /\ sign_bit (V_crop_m3_day default_results)
     = Some (xorb false (100 <? 12)%float).
Proof.
  split.
  - apply (evaporation_above_100_flips_the_sign
             (form_inputs 500 400 15 150 24 6.1 6.1 4 103));
      vm_compute; reflexivity.
  - apply (evaporation_above_100_flips_the_sign default_inputs);
      vm_compute; reflexivity.
Defined.

(** X15: whenever the zone flow of a result is a number, its sign is that
    of the total flow if the zone count is positive and the opposite sign
    if it is negative: a negative zone count is not refused, it turns a
    positive total flow into a negative zone flow. *)
Theorem negative_zone_count_flips_the_zone_flow
    (inputs : gmap string float) (r : results) (s : bool) :
  compute_irrigation_design inputs = Results r ->
  sign_bit (Q_zone_GPM r) = Some s ->
  sign_bit (Q_total_GPM r) = Some (xorb s (N_zones r <? 0)).
Proof.
  intros Hr Hs. apply compute_results_inv in Hr.
  destruct Hr as [L W ET pct zones P n y _ _ _ _ _ _ Hint Hconv _ Hy].
  assert (Hn : n <> 0).
  { intros ->. rewrite FloatCases.float_of_int_zero in Hconv. injection Hconv as <-.
    discriminate Hy. }
  pose proof (FloatCases.float_of_int_sign zones n y Hint Hn Hconv) as Hsy.
  unfold sign_bit in *. revert Hs. fields. rewrite div_spec. intros Hs.
  apply FloatCases.SFdiv_sign in Hs as (sx & sd & Hx & Hsd & ->).
  rewrite Hx. assert (sd = (n <? 0)) by congruence. subst sd.
  destruct sx, (n <? 0); reflexivity.
Qed.

Lemma negative_zone_count_flips_the_zone_flow_witness :
  sign_bit (Q_total_GPM (design_of 500 400 15 12 103 (-4) (-4)))
  = Some (xorb true (-4 <? 0)).
Proof.
  apply (negative_zone_count_flips_the_zone_flow
           (form_inputs 500 400 15 12 24 6.1 6.1 (-4) 103)
           (design_of 500 400 15 12 103 (-4) (-4)));
    vm_compute; reflexivity.
Defined.

(** ** Further properties of the report generator *)

(** The loop over the curve points never raises, however many points
    there are. *)
Lemma curve_rows_return (l : list (float * float)) (buf : string) :
  exists buf', StringIO.for_each l curve_row buf = inr (tt, buf').
Proof.
  revert buf. induction l as [ | [q h] l IH]; intros buf.
  - eexists. reflexivity.
  - cbn [StringIO.for_each]. unfold StringIO.bind at 1.
    unfold curve_row.
    cbv [StringIO.bind StringIO.write StringIO.lift StringIO.ret].
    rewrite !truediv_ok by reflexivity. cbn [Py.bind Py.ret].
    apply IH.
Qed.

(** The report generator runs to its end unless the conversion of the zone
    count to text or, after it, the division of the sprinkler count by the
    zone count raises. *)
Lemma report_follows_its_two_tests
    (self : IrrigationDesignApp) (r : results) :
  match Py.str_int (N_zones r) with
  | inl e => _generate_report_content self r = inl e
  | inr _ =>
      match Py.int_truediv (N_sprinkler_total r) (N_zones r) with
      | inl e => _generate_report_content self r = inl e
      | inr _ => exists text, _generate_report_content self r = inr text
      end
  end.
Proof.
  unfold _generate_report_content, StringIO.run, report_statements.
  cbv [StringIO.bind StringIO.write StringIO.lift StringIO.getvalue
       StringIO.ret Py.bind Py.ret].
  rewrite truediv_ok by reflexivity. cbv beta iota.
  destruct (Py.str_int (N_zones r)) as [e | zones_text];
    [ reflexivity | ].
  destruct (Py.int_truediv (N_sprinkler_total r) (N_zones r)) as [e | v].
  - reflexivity.
  - match goal with
    | |- context [StringIO.for_each ?l curve_row ?b] =>
        destruct (curve_rows_return l b) as [buf' Hb]; rewrite Hb
    end.
    cbv beta iota. rewrite truediv_ok by reflexivity. cbv beta iota.
    eexists. reflexivity.
Qed.

(** X9: only two statements of the report generator can raise, whatever
    the result dictionary holds and however many curve points it has: the
    replacement field that prints the zone count, which raises
    [ValueError] when the count has more than 4300 digits, and after it
    the division of the sprinkler count by the zone count, which raises
    [ZeroDivisionError] with the text of the integer division when the
    zone count is zero.  A nonzero zone count within the digit limit, with
    1353 sprinklers per zone, gives a text. *)
Theorem report_raises_only_at_two_statements :
  forall (self : IrrigationDesignApp) (r : results),
    (10 ^ Py.int_max_str_digits <= Z.abs (N_zones r) ->
     _generate_report_content self r
     = inl (Py.ValueError Py.exceeds_digit_limit))
    /\ (N_zones r = 0 ->
        _generate_report_content self r
        = inl (Py.ZeroDivisionError Py.division_by_zero))
    /\ (forall e, _generate_report_content self r = inl e ->
                  Py.str_int (N_zones r) = inl e
                  \/ Py.int_truediv (N_sprinkler_total r) (N_zones r)
                     = inl e)
    /\ (N_zones r <> 0 ->
        Z.abs (N_zones r) < 10 ^ Py.int_max_str_digits ->
        N_sprinkler_total r = 1353 * N_zones r ->
        exists text, _generate_report_content self r = inr text).
Proof.
  intros self r. pose proof (report_follows_its_two_tests self r) as H.
  split; [ | split; [ | split ] ].
  - intros Hbig. unfold Py.str_int in H.
    destruct (Z.leb_spec (10 ^ Py.int_max_str_digits) (Z.abs (N_zones r)))
      as [_ | Hlt]; [ exact H | ].
    exfalso. apply (Z.lt_irrefl (Z.abs (N_zones r))).
    eapply Z.lt_le_trans; [ exact Hlt | exact Hbig ].
  - intros Hz. rewrite Hz in H.
    rewrite (str_int_below_limit 0) in H by (vm_compute; reflexivity).
    unfold Py.int_truediv in H. cbn [Z.eqb] in H. exact H.
  - intros e He.
    destruct (Py.str_int (N_zones r)) as [e' | zones_text].
    + left. congruence.
    + right.
      destruct (Py.int_truediv (N_sprinkler_total r) (N_zones r))
        as [e' | v].
      * congruence.
      * destruct H as [text H]. congruence.
  - intros Hn Hlim Htot.
    rewrite (str_int_below_limit _ Hlim) in H.
    rewrite Htot, (int_truediv_1353 _ Hn) in H. exact H.
Qed.

(** X10: the report is a function of the twenty fields it reads: the design
    ET, the gross depth, the total flow in L/s, the sprinklers per zone,
    the sprinkler flow and the fittings loss of the dictionary are never
    printed. *)
Theorem report_reads_twenty_fields
    (self1 self2 : IrrigationDesignApp) (r1 r2 : results) :
  report_view r1 = report_view r2 ->
  _generate_report_content self1 r1 = _generate_report_content self2 r2.
Proof.
  destruct r1, r2. unfold report_view. cbn.
  intros [= -> -> -> -> -> -> -> -> -> -> -> -> -> -> -> -> -> -> -> ->].
  reflexivity.
Qed.

Lemma report_reads_twenty_fields_witness :
  _generate_report_content fresh_app default_results
  = _generate_report_content used_app
      {| A_total_m2 := A_total_m2 default_results;
         ET_DESIGN_MM_DAY := 99;
         D_gross_m_day := nan;
         Q_total_GPM := Q_total_GPM default_results;
         V_pump_m3_day := V_pump_m3_day default_results;
         Q_total_m3_s := Q_total_m3_s default_results;
         Q_total_L_s := 0;
         V_crop_m3_day := V_crop_m3_day default_results;
         Q_total_m3_hr := Q_total_m3_hr default_results;
         N_sprinkler_total := N_sprinkler_total default_results;
         N_zones := N_zones default_results;
         N_spr_zone := 7;
         Q_zone_GPM := Q_zone_GPM default_results;
         qs_L_s := infinity;
         H_op_m := H_op_m default_results;
         H_op_ft := H_op_ft default_results;
         H_end_m := H_end_m default_results;
         H_lat_loss_m := H_lat_loss_m default_results;
         H_sub_loss_m := H_sub_loss_m default_results;
         H_mainline_loss_m := H_mainline_loss_m default_results;
         H_fittings_loss_m := 2.5;
         BHP := BHP default_results;
         system_curve_points := system_curve_points default_results;
         L_zone_EW := L_zone_EW default_results;
         L_zone_NS := L_zone_NS default_results;
         h_f_80mm_lat := h_f_80mm_lat default_results |}.
Proof.
  apply report_reads_twenty_fields. reflexivity.
Defined.

(** ** Properties of the window callbacks *)

(** X11: a refused calculation is stored all the same: [run] shows the
    message and leaves the error dictionary in [self.results], after
    which both report callbacks raise [KeyError] on the first field the
    report reads, the export having asked for a file name and written
    nothing. *)
Theorem refused_run_breaks_the_report_callbacks
    (float_of_str : string -> option float)
    (refresh : IrrigationDesignApp -> Gui.G unit)
    (w : Gui.world) (self : IrrigationDesignApp)
    (values : gmap string float) (msg : string) :
  Gui.read_inputs float_of_str (self_inputs self) = Gui.Read values ->
  compute_irrigation_design values = ErrorDict msg ->
  Gui.chosen_path w <> EmptyString ->
  let self' := fst (Gui.run float_of_str refresh self) in
  Gui.run float_of_str refresh self
  = (self', ([Gui.showerror "Calculation Error" msg], inr tt))
  /\ self_results self' = Some (ErrorDict msg)
  /\ Gui.view_report self'
     = ([], inl (Gui.Exn (Py.KeyError "A_total_m2")))
  /\ Gui.export_report w self'
     = ([Gui.asksaveasfilename], inl (Gui.Exn (Py.KeyError "A_total_m2"))).
Proof.
  intros Hread Hcalc Hpath. unfold Gui.run. rewrite Hread, Hcalc.
  cbn [fst]. cbv zeta. split; [ reflexivity | ]. split; [ reflexivity | ].
  split; [ reflexivity | ].
  unfold Gui.export_report. cbn [self_results].
  destruct (String.eqb_spec (Gui.chosen_path w) EmptyString) as [ | _ ];
    [ contradiction | ].
  reflexivity.
Qed.

Lemma refused_run_breaks_the_report_callbacks_witness :
  let self := {| self_inputs :=
                   <[ "Evaporation Loss (%)" := "100.0" ]> default_entries;
                 self_results := None |} in
  let self' := fst (Gui.run float_of_default_text no_refresh self) in
  Gui.run float_of_default_text no_refresh self
  = (self', ([Gui.showerror "Calculation Error" Py.float_division_by_zero],
             inr tt))
  /\ self_results self' = Some (ErrorDict Py.float_division_by_zero)
  /\ Gui.view_report self'
     = ([], inl (Gui.Exn (Py.KeyError "A_total_m2")))
  /\ Gui.export_report sample_world self'
     = ([Gui.asksaveasfilename], inl (Gui.Exn (Py.KeyError "A_total_m2"))).
Proof.
  apply (refused_run_breaks_the_report_callbacks
           float_of_default_text no_refresh sample_world
           {| self_inputs :=
                <[ "Evaporation Loss (%)" := "100.0" ]> default_entries;
              self_results := None |}
           (<[ "Number of Zones (N_EW x N_NS)" := 4%float ]>
            (omap float_of_default_text
               (delete "Number of Zones (N_EW x N_NS)"
                  (<[ "Evaporation Loss (%)" := "100.0" ]> default_entries))))
           Py.float_division_by_zero).
  - vm_compute. reflexivity.
  - vm_compute. reflexivity.
  - discriminate.
Defined.

(** X12: after a run on which the calculator returns a result, the report
    callbacks work on that result: the viewer shows the report text, and
    the export, given a path, enters the file block with that same text and
    confirms unless the file cannot be written. *)
Theorem report_callbacks_after_a_successful_run
    (float_of_str : string -> option float)
    (refresh : IrrigationDesignApp -> Gui.G unit)
    (w : Gui.world) (self : IrrigationDesignApp)
    (values : gmap string float) (r : results) :
  Gui.read_inputs float_of_str (self_inputs self) = Gui.Read values ->
  compute_irrigation_design values = Results r ->
  Gui.chosen_path w <> EmptyString ->
  let self' := fst (Gui.run float_of_str refresh self) in
  exists text,
    self_results self' = Some (Results r)
    /\ _generate_report_content self' r = inr text
    /\ Gui.view_report self' = ([Gui.viewer_shows text], inr tt)
    /\ Gui.export_report w self'
       = match Gui.write_error w (Gui.chosen_path w) text with
         | Some msg =>
             ([Gui.asksaveasfilename;
               Gui.write_file (Gui.chosen_path w) text],
              inl (Gui.FileError msg))
         | None =>
             ([Gui.asksaveasfilename;
               Gui.write_file (Gui.chosen_path w) text;
               Gui.showinfo "Report Generated"
                 ("Report saved successfully to " +:+ Gui.chosen_path w
                  +:+ ".")],
              inr tt)
         end.
Proof.
  intros Hread Hr Hpath.
  unfold Gui.run. rewrite Hread, Hr. cbn [fst]. cbv zeta.
  set (self' := {| self_inputs := self_inputs self;
                   self_results := Some (Results r) |}).
  destruct (report_of_results values r self' Hr) as [text Htext].
  exists text.
  split; [ reflexivity | ]. split; [ exact Htext | ].
  unfold Gui.view_report, Gui.export_report. cbn [self_results self'].
  unfold Gui.generate. fold self'. rewrite Htext.
  split; [ reflexivity | ].
  destruct (String.eqb_spec (Gui.chosen_path w) EmptyString) as [ | _ ];
    [ contradiction | ].
  cbn [Gui.bind Gui.emit Gui.lift Gui.ret app].
  destruct (Gui.write_error w (Gui.chosen_path w) text); reflexivity.
Qed.

Lemma report_callbacks_after_a_successful_run_witness :
  let self := {| self_inputs := default_entries; self_results := None |} in
  let self' := fst (Gui.run float_of_default_text no_refresh self) in
  exists text,
    self_results self' = Some (Results default_results)
    /\ _generate_report_content self' default_results = inr text
    /\ Gui.view_report self' = ([Gui.viewer_shows text], inr tt)
    /\ Gui.export_report sample_world self'
       = match Gui.write_error sample_world "report.txt" text with
         | Some msg =>
             ([Gui.asksaveasfilename; Gui.write_file "report.txt" text],
              inl (Gui.FileError msg))
         | None =>
             ([Gui.asksaveasfilename; Gui.write_file "report.txt" text;
               Gui.showinfo "Report Generated"
                 ("Report saved successfully to " +:+ "report.txt" +:+ ".")],
              inr tt)
         end.
Proof.
  apply (report_callbacks_after_a_successful_run
           float_of_default_text no_refresh sample_world
           {| self_inputs := default_entries; self_results := None |}
           (<[ "Number of Zones (N_EW x N_NS)" := 4%float ]>
            (omap float_of_default_text
               (delete "Number of Zones (N_EW x N_NS)" default_entries)))
           default_results).
  - vm_compute. reflexivity.
  - vm_compute. reflexivity.
  - discriminate.
Defined.

(** X13: the export enters the file block only with a report generated
    from a populated result, and only at the non-empty path the dialog
    returned: without results, after a refused calculation, or when the
    dialog is cancelled, nothing is written. *)
Theorem export_writes_only_a_generated_report
    (w : Gui.world) (self : IrrigationDesignApp) (path content : string) :
  Gui.write_file path content ∈ fst (Gui.export_report w self) ->
  path = Gui.chosen_path w
  /\ path <> EmptyString
  /\ exists r, self_results self = Some (Results r)
               /\ _generate_report_content self r = inr content.
Proof.
  unfold Gui.export_report, Gui.generate.
  destruct (self_results self) as [[r | msg] | ] eqn:Hres;
    [ destruct (_generate_report_content self r) as [e | text] eqn:Htext | | ];
    destruct (String.eqb_spec (Gui.chosen_path w) EmptyString) as [He | Hne];
    cbn [Gui.bind Gui.emit Gui.lift Gui.ret Py.raise app fst];
    try destruct (Gui.write_error w (Gui.chosen_path w) text);
    cbn [app fst]; intros H;
    repeat (apply elem_of_cons in H as [H | H]; [ try discriminate H | ]);
    try (apply elem_of_nil in H; contradiction).
  all: injection H as -> ->; eauto.
Qed.

Lemma export_writes_only_a_generated_report_witness :
  exists text,
    "report.txt" = Gui.chosen_path sample_world
    /\ "report.txt" <> EmptyString
    /\ exists r,
         Some (Results default_results) = Some (Results r)
         /\ _generate_report_content
              {| self_inputs := default_entries;
                 self_results := Some (Results default_results) |} r
            = inr text.
Proof.
  destruct (report_of_results default_inputs default_results
              {| self_inputs := default_entries;
                 self_results := Some (Results default_results) |}
              default_run) as [text Htext].
  exists text.
  apply (export_writes_only_a_generated_report sample_world
           {| self_inputs := default_entries;
              self_results := Some (Results default_results) |}).
  unfold Gui.export_report, Gui.generate. cbn [self_results].
  rewrite Htext. cbn. set_solver.
Defined.
